(** * The test runner of the Vitest explorer extension

    A shallow embedding of [src/runner/runner.ts]: the class [TestRunner]
    (its event handlers, [runTests], [runCoverage], [watchContinuousTests],
    [startTestRun], [endTestRun], [reportCoverage], [markResult], ...) and
    the module-level helpers [testMessageForTestError],
    [parseLocationFromStacks], [getTestFiles] and [formatTestPattern],
    followed by the properties of the specification that are stated about
    them.  [debugTests] only hands the request to the debug session and is
    left out.

    Conventions.
    - JavaScript strings are [string]s; a character stands for one code unit.
    - The line and the column of a stack frame are JavaScript [number]s on
      which the runner computes ([Number.isNaN], [- 1], the comparison with
      zero of [vscode.Position]): they are IEEE 754 binary64 [float]s.  A
      duration is only handed on, and is [NaN] or an integer.
    - Objects compared by reference (test runs, run requests, test items)
      carry an identifier that stands for the reference.
    - An exception is an explicit [Throw]; a function of the runner that can
      raise returns a [Result].
    - Calls into the editor, the Vitest API and the log are recorded, in
      order, in the [calls] field of the runner's state. *)

From Corelib Require Import PrimFloat.
From Stdlib Require Import String Ascii List ZArith Bool Lia.
From stdpp Require Import base option list strings pretty gmap fin_maps.
Import ListNotations.

Local Open Scope string_scope.
Local Open Scope list_scope.

Set Warnings "-register-all".

(** ** JavaScript values *)

Inductive number : Type :=
| NaN
| Num (z : Z).

(** [Number.isNaN(x)] on a [number] *)
Definition Number_isNaN (x : float) : bool := PrimFloat.is_nan x.

(** The values the fields [actual] and [expected] of an error (typed [any])
    can hold. *)
Inductive JsValue : Type :=
| JsUndefined
| JsNull
| JsString (s : string)
| JsNumber (n : number)
| JsBoolean (b : bool)
| JsObject (ref : nat).

(** [v != null] *)
Definition loose_ne_null (v : JsValue) : bool :=
  match v with
  | JsUndefined | JsNull => false
  | _ => true
  end.

(** [v !== s] for a string literal [s] *)
Definition strict_ne_string (v : JsValue) (s : string) : bool :=
  match v with
  | JsString s' => negb (String.eqb s' s)
  | _ => true
  end.

Inductive Exn : Type :=
| TypeError (what : string)
| RangeError (what : string)
| Error (message : string).

Definition exn_message (e : Exn) : string :=
  match e with
  | TypeError m | RangeError m | Error m => m
  end.

Inductive Result (A : Type) : Type :=
| Ok (a : A)
| Throw (e : Exn).
Arguments Ok {A} a.
Arguments Throw {A} e.

(** ** Strings and arrays *)

Definition LF : ascii := "010"%char.
Definition CR : ascii := "013"%char.
Definition DQUOTE : ascii := "034"%char.

(** [s.replace(/c/g, r)] for a single character [c] *)
Fixpoint replace_all_char (c : ascii) (r : string) (s : string) : string :=
  match s with
  | EmptyString => EmptyString
  | String a rest =>
      if Ascii.eqb a c then r +:+ replace_all_char c r rest
      else String a (replace_all_char c r rest)
  end.

(** [s.replace(/(?<!\r)\n/g, '\r\n')]: the scan goes left to right and the
    look-behind reads the character of the input before the current one;
    [prevCR] tells whether that character is a carriage return. *)
Fixpoint replace_bare_newlines_from (prevCR : bool) (s : string) : string :=
  match s with
  | EmptyString => EmptyString
  | String c rest =>
      if Ascii.eqb c LF && negb prevCR
      then String CR (String LF (replace_bare_newlines_from false rest))
      else String c (replace_bare_newlines_from (Ascii.eqb c CR) rest)
  end.

Definition replace_bare_newlines (content : string) : string :=
  replace_bare_newlines_from false content.

(** [file[file.length - 1]] *)
Fixpoint last_char (s : string) : option ascii :=
  match s with
  | EmptyString => None
  | String c EmptyString => Some c
  | String _ rest => last_char rest
  end.

(** [file[file.length - 1] === '/'] *)
Definition is_folder_path (file : string) : bool :=
  match last_char file with
  | Some c => Ascii.eqb c "/"%char
  | None => false
  end.

(** [arr.join(sep)] *)
Definition Array_join (sep : string) (arr : list string) : string :=
  String.concat sep arr.

(** [Array.from(new Set(arr))]: a [Set] keeps the first insertion of every
    value, in insertion order. *)
Fixpoint Set_add_all (seen : list string) (arr : list string) : list string :=
  match arr with
  | [] => seen
  | x :: rest =>
      if existsb (String.eqb x) seen then Set_add_all seen rest
      else Set_add_all (seen ++ [x]) rest
  end.

Definition Array_from_Set (arr : list string) : list string :=
  Set_add_all [] arr.

(** [Boolean(s)] for a string *)
Definition truthy_string (s : string) : bool :=
  match s with EmptyString => false | _ => true end.

(** ** The data of the test explorer *)

(** Modelled from the spec: the test-data classes of [testTreeData]
    ([TestFolder], [TestFile] and the data of test cases), which the runner
    tells apart with [instanceof], ['file' in data] and
    ['getTestNamePattern' in data].  Following the design notes, they are a
    tagged variant over folder, file and case; a case alone has a [file]
    and the method [getTestNamePattern], whose result it carries. *)
Inductive TestData : Type :=
| TestFolder
| TestFile (filepath : string)
| TestCase (file_filepath : string) (testNamePattern : string).

(** A [vscode.TestItem].  [item_uri] is the [fsPath] of its [uri], which the
    editor declares optional.  [item_data] is what [getTestData] returns for
    the item.  The mutable field [error] lives in the runner's state. *)
Inductive TestItem : Type :=
  mkTestItem {
    item_id : string;
    item_label : string;
    item_uri : option string;
    item_data : TestData;
    item_children : list TestItem
  }.

(** Modelled from the spec: [getTestData] of [testTreeData], the test data
    attached to a test item. *)
Definition getTestData (item : TestItem) : TestData := item_data item.

(** ** Results reported by Vitest *)

Record ParsedStack : Type := mkParsedStack {
  stack_file : string;
  stack_line : float;
  stack_column : float
}.

Record ErrorWithDiff : Type := mkErrorWithDiff {
  err_message : string;
  err_stack : option string;
  err_stacks : option (list ParsedStack);
  err_actual : JsValue;
  err_expected : JsValue
}.

Inductive TaskState : Type :=
| StFail | StPass | StTodo | StSkip | StOnly | StRun
| StUnknown (s : string).

Record TaskResult : Type := mkTaskResult {
  res_state : TaskState;
  res_errors : option (list ErrorWithDiff);
  res_duration : option number
}.

Inductive TaskType : Type := TySuite | TyTest | TyCustom.
Inductive RunMode : Type := MRun | MSkip | MOnly | MTodo.

(** A Vitest [Task]; a [File] is a task with a [filepath].  The subtasks of
    a suite are only read by [getTasks]. *)
Record Task : Type := mkTask {
  task_id : string;
  task_name : string;
  task_type : TaskType;
  task_mode : RunMode;
  task_result : option TaskResult;
  task_filepath : string
}.

(** ** Editor objects *)

Record Position : Type := mkPosition {
  pos_line : float;
  pos_character : float
}.

(** [new vscode.Position(line, character)]: the constructor of the editor
    raises [illegalArgument] for a negative line or character. *)
Definition Position_new (line character : float) : Result Position :=
  if PrimFloat.ltb line 0%float
  then Throw (Error "Illegal argument: line must be non-negative")
  else if PrimFloat.ltb character 0%float
  then Throw (Error "Illegal argument: character must be non-negative")
  else Ok (mkPosition line character).

Record Location : Type := mkLocation {
  loc_uri : string;
  loc_range : Position
}.

Record TestMessage : Type := mkTestMessage {
  msg_message : string;
  msg_expectedOutput : option JsValue;
  msg_actualOutput : option JsValue;
  msg_location : option Location
}.

(** [new vscode.TestMessage(message)] *)
Definition TestMessage_new (message : string) : TestMessage :=
  {| msg_message := message; msg_expectedOutput := None;
     msg_actualOutput := None; msg_location := None |}.

(** [vscode.TestMessage.diff(message, expected, actual)] *)
Definition TestMessage_diff (message : string) (expected actual : JsValue)
  : TestMessage :=
  {| msg_message := message; msg_expectedOutput := Some expected;
     msg_actualOutput := Some actual; msg_location := None |}.

(** [testMessage.location = l] *)
Definition set_location (m : TestMessage) (l : Location) : TestMessage :=
  {| msg_message := msg_message m;
     msg_expectedOutput := msg_expectedOutput m;
     msg_actualOutput := msg_actualOutput m;
     msg_location := Some l |}.

Record TestRunRequest : Type := mkTestRunRequest {
  req_id : nat;
  req_include : option (list TestItem);
  req_profile : option string;
  req_continuous : bool
}.

Record TestRun : Type := mkTestRun {
  run_id : nat;
  run_request : TestRunRequest;
  run_name : string
}.

(** ** Functions of the libraries the runner imports *)

(** [path.sep] of [node:path], [strip-ansi], the path functions of [pathe]
    and [getTasks] of [@vitest/ws-client]. *)
Class Host : Type := {
  path_sep : string;
  stripAnsi : string -> string;
  normalize : string -> string;
  basename : string -> string;
  dirname : string -> string;
  join : string -> string -> string;
  getTasks : list Task -> list Task
}.

(** ** Module-level functions *)

Record DebuggerLocation : Type := mkDebuggerLocation {
  dl_path : string;
  dl_line : float;
  dl_column : float
}.

Record SourceLocation : Type := mkSourceLocation {
  sourceFilepath : option string;
  line : float;
  column : float
}.

Section Helpers.
Context {H : Host}.

Definition getSourceFilepathAndLocationFromStack (stack : ParsedStack)
  : SourceLocation :=
  {| sourceFilepath := Some (replace_all_char "/"%char path_sep (stack_file stack));
     line := stack_line stack;
     column := stack_column stack |}.

(** The [for] loop of [parseLocationFromStacks]; falling off its end
    returns [undefined]. *)
Fixpoint parseLocationFromStacks_loop (targetFilepath : string)
  (stacks : list ParsedStack) : option DebuggerLocation :=
  match stacks with
  | [] => None
  | stack :: rest =>
      let sl := getSourceFilepathAndLocationFromStack stack in
      match sourceFilepath sl with
      | Some p =>
          if negb (String.eqb p targetFilepath)
             || Number_isNaN (column sl) || Number_isNaN (line sl)
          then parseLocationFromStacks_loop targetFilepath rest
          else Some {| dl_path := p; dl_line := line sl; dl_column := column sl |}
      | None => parseLocationFromStacks_loop targetFilepath rest
      end
  end.

(** [testItem.uri!.fsPath] *)
Definition uri_fsPath (testItem : TestItem) : Result string :=
  match item_uri testItem with
  | Some p => Ok p
  | None => Throw (TypeError "Cannot read properties of undefined (reading 'fsPath')")
  end.

Definition parseLocationFromStacks (testItem : TestItem)
  (stacks : list ParsedStack) : Result (option DebuggerLocation) :=
  match stacks with
  | [] => Ok None
  | _ :: _ =>
      match uri_fsPath testItem with
      | Throw e => Throw e
      | Ok targetFilepath =>
          Ok (parseLocationFromStacks_loop targetFilepath stacks)
      end
  end.

Definition testMessageForTestError (testItem : TestItem)
  (error : option ErrorWithDiff) : Result TestMessage :=
  match error with
  | None => Ok (TestMessage_new "Unknown error")
  | Some error =>
      let testMessage :=
        if loose_ne_null (err_actual error)
           && loose_ne_null (err_expected error)
           && strict_ne_string (err_actual error) "undefined"
           && strict_ne_string (err_expected error) "undefined"
        then TestMessage_diff (stripAnsi (err_message error))
               (err_expected error) (err_actual error)
        else TestMessage_new (stripAnsi (err_message error)) in
      match parseLocationFromStacks testItem (default [] (err_stacks error)) with
      | Throw e => Throw e
      | Ok None => Ok testMessage
      | Ok (Some location) =>
          match Position_new (PrimFloat.sub (dl_line location) 1%float)
                             (PrimFloat.sub (dl_column location) 1%float) with
          | Throw e => Throw e
          | Ok position =>
              Ok (set_location testMessage
                    (mkLocation (dl_path location) position))
          end
      end
  end.

(** [tests.map(f)] for a callback that can throw *)
Fixpoint map_result {A B : Type} (f : A -> Result B) (l : list A)
  : Result (list B) :=
  match l with
  | [] => Ok []
  | x :: rest =>
      match f x with
      | Throw e => Throw e
      | Ok y =>
          match map_result f rest with
          | Throw e => Throw e
          | Ok ys => Ok (y :: ys)
          end
      end
  end.

Definition getTestFiles (tests : list TestItem) : Result (list string) :=
  match
    map_result (fun test =>
      let data := getTestData test in
      match uri_fsPath test with
      | Throw e => Throw e
      | Ok p =>
          let fsPath := normalize p in
          match data with
          | TestFolder => Ok (fsPath +:+ "/")
          | _ => Ok fsPath
          end
      end) tests
  with
  | Throw e => Throw e
  | Ok paths => Ok (Array_from_Set (List.filter truthy_string paths))
  end.

Definition formatTestPattern (tests : list TestItem) : option string :=
  let patterns :=
    fold_left (fun patterns test =>
      match getTestData test with
      | TestCase _ pattern => patterns ++ [pattern]
      | _ => patterns
      end) tests [] in
  if Nat.eqb (length patterns) 0 then None
  else Some (Array_join "|" patterns).

End Helpers.

(** ** The state of a [TestRunner] *)

(** The awaited calls of [VitestFolderAPI] and those the runner fires
    without waiting for them. *)
Inductive ApiCall : Type :=
| RunFiles (files : option (list string)) (testNamePattern : option string)
| WatchTests (files : option (list string)) (testNamePattern : option string)
| UnwatchTests
| CancelRun
| EnableCoverage
| GetCoverageConfig
| ClearListeners.

(** The callbacks the runner hands to [token.onCancellationRequested]. *)
Inductive CancelHandler : Type :=
| CancelRunTests
| CancelWatch (request : TestRunRequest)
| CancelCoverage.

Inductive LogLevel : Type := LogInfo | LogError.

(** What the runner does to its collaborators, in the order it does it. *)
Inductive Call : Type :=
| CreateTestRun (run : TestRun)
| Enqueued (run : TestRun) (test : TestItem)
| Started (run : TestRun) (test : TestItem)
| Passed (run : TestRun) (test : TestItem) (duration : option number)
| Failed (run : TestRun) (test : TestItem) (messages : list TestMessage)
    (duration : option number)
| Errored (run : TestRun) (test : TestItem) (messages : list TestMessage)
    (duration : option number)
| Skipped (run : TestRun) (test : TestItem)
| AppendOutput (run : TestRun) (output : string) (location : option Location)
    (test : option TestItem)
| End (run : TestRun)
| Api (call : ApiCall)
| OnCancellationRequested (token : nat) (handler : CancelHandler)
| WaitUntilExists (path : string) (timeout : Z)
| CoverageApply (run : TestRun) (reportsDirectory : string)
| Log (level : LogLevel) (args : list string)
| ShowVitestError (message : string).

(** Modelled from the spec: the record [TestRunData] keeps for a run
    ([TestRunData.register(run, file, request)], [TestRunData.get(run)]). *)
Record TestRunData : Type := mkTestRunData {
  trd_file : string;
  trd_request : TestRunRequest
}.

Record CoverageConfig : Type := mkCoverageConfig {
  cfg_enabled : bool;
  cfg_reportsDirectory : string
}.

(** The fields of the class, the test tree it holds, the [error] field of
    the test items (by item id), the table of [TestRunData], the next fresh
    object reference and the calls made so far. *)
Record State (Tree : Type) : Type := mkState {
  continuousRequests : list TestRunRequest;
  simpleTestRunRequest : option TestRunRequest;
  testRunsByFile : gmap string TestRun;
  tree : Tree;
  itemError : gmap string string;
  testRunData : gmap nat TestRunData;
  nextRef : nat;
  calls : list Call
}.
Arguments mkState {Tree}.
Arguments continuousRequests {Tree}.
Arguments simpleTestRunRequest {Tree}.
Arguments testRunsByFile {Tree}.
Arguments tree {Tree}.
Arguments itemError {Tree}.
Arguments testRunData {Tree}.
Arguments nextRef {Tree}.
Arguments calls {Tree}.

(** The collaborators of the runner: the test tree ([TestTree]), the Vitest
    API and the coverage helpers.  The lookups of the tree return the test
    data together with its item.  An awaited call is settled by the
    environment, which may run other handlers of the runner meanwhile: it
    returns the outcome of the call and the state the runner is in then. *)
Class Collaborators : Type := {
  Tree : Type;
  getTestDataByTaskId : Tree -> string -> option TestItem;
  getTestDataByTask : Tree -> Task -> option TestItem;
  collectFile : Tree -> Task -> Tree;
  getFileTestItems : Tree -> string -> list TestItem;
  getOrCreateFolderTestItem : Tree -> string -> Tree * TestItem;
  workspaceFolder : string;
  hasFileCoverage : bool;
  await_api : ApiCall -> State Tree -> Result unit * State Tree;
  await_getCoverageConfig : State Tree -> Result CoverageConfig * State Tree;
  await_waitUntilExists : string -> Z -> State Tree -> Result unit * State Tree;
  await_coverage : list TestRun -> string -> State Tree -> Result unit * State Tree
}.

Abbreviation St := (State Tree).

Section Monad.
Context {C : Collaborators}.

(** *** Field updates *)

Definition set_continuousRequests (v : list TestRunRequest) (s : St) : St :=
  mkState v (simpleTestRunRequest s) (testRunsByFile s) (tree s)
    (itemError s) (testRunData s) (nextRef s) (calls s).

Definition set_simpleTestRunRequest (v : option TestRunRequest) (s : St) : St :=
  mkState (continuousRequests s) v (testRunsByFile s) (tree s)
    (itemError s) (testRunData s) (nextRef s) (calls s).

Definition set_testRunsByFile (v : gmap string TestRun) (s : St) : St :=
  mkState (continuousRequests s) (simpleTestRunRequest s) v (tree s)
    (itemError s) (testRunData s) (nextRef s) (calls s).

Definition set_tree (v : Tree) (s : St) : St :=
  mkState (continuousRequests s) (simpleTestRunRequest s) (testRunsByFile s) v
    (itemError s) (testRunData s) (nextRef s) (calls s).

Definition set_itemError (v : gmap string string) (s : St) : St :=
  mkState (continuousRequests s) (simpleTestRunRequest s) (testRunsByFile s)
    (tree s) v (testRunData s) (nextRef s) (calls s).

Definition set_testRunData (v : gmap nat TestRunData) (s : St) : St :=
  mkState (continuousRequests s) (simpleTestRunRequest s) (testRunsByFile s)
    (tree s) (itemError s) v (nextRef s) (calls s).

Definition set_nextRef (v : nat) (s : St) : St :=
  mkState (continuousRequests s) (simpleTestRunRequest s) (testRunsByFile s)
    (tree s) (itemError s) (testRunData s) v (calls s).

Definition set_calls (v : list Call) (s : St) : St :=
  mkState (continuousRequests s) (simpleTestRunRequest s) (testRunsByFile s)
    (tree s) (itemError s) (testRunData s) (nextRef s) v.

(** *** Statements that change the state or throw *)

Definition M (A : Type) : Type := St -> Result A * St.

Definition ret {A : Type} (a : A) : M A := fun s => (Ok a, s).

Definition bind {A B : Type} (m : M A) (k : A -> M B) : M B :=
  fun s =>
    match m s with
    | (Ok a, s') => k a s'
    | (Throw e, s') => (Throw e, s')
    end.

Definition throw {A : Type} (e : Exn) : M A := fun s => (Throw e, s).

Definition get : M St := fun s => (Ok s, s).

Definition modify (f : St -> St) : M unit := fun s => (Ok tt, f s).

Definition liftR {A : Type} (r : Result A) : M A := fun s => (r, s).

Definition emit (c : Call) : M unit :=
  modify (fun s => set_calls (calls s ++ [c]) s).

End Monad.

Declare Scope runner_scope.
Delimit Scope runner_scope with runner.
Notation "'let*' x ':=' m 'in' k" := (bind m (fun x => k))
  (at level 20, x pattern, m at level 100, k at level 200,
   only parsing) : runner_scope.
Notation "m >> k" := (bind m (fun _ => k))
  (at level 100, k at level 200, only parsing, right associativity)
  : runner_scope.

Local Open Scope runner_scope.

Section Runner.
Context {H : Host} {C : Collaborators}.

(** [arr.forEach(f)] *)
Fixpoint forEach {A : Type} (l : list A) (f : A -> M unit) : M unit :=
  match l with
  | [] => ret tt
  | x :: rest => f x >> forEach rest f
  end.

(** [try { m } catch (err) { h err }] *)
Definition try_catch {A : Type} (m : M A) (h : Exn -> M A) : M A :=
  fun s =>
    match m s with
    | (Ok a, s') => (Ok a, s')
    | (Throw e, s') => h e s'
    end.

(** A call of an [async] method whose promise the caller drops: what the
    method does happens, its rejection reaches nobody. *)
Definition fire_and_forget (m : M unit) : M unit :=
  fun s => (Ok tt, snd (m s)).

(** [await this.api.call(...)]: the call is made, then the environment
    settles it. *)
Definition await_api_call (c : ApiCall) : M unit :=
  emit (Api c) >> await_api c.

Definition log_info (args : list string) : M unit := emit (Log LogInfo args).
Definition log_error (args : list string) : M unit := emit (Log LogError args).

(** *** [getTestRunByData] *)

Definition getTestRunByData (s : St) (data : TestData) : option TestRun :=
  match data with
  | TestFolder => None
  | TestFile filepath => testRunsByFile s !! filepath
  | TestCase file_filepath _ => testRunsByFile s !! file_filepath
  end.

(** *** [isFileIncluded] *)

Fixpoint isFileIncluded_item (file : string) (item : TestItem) : bool :=
  match item with
  | mkTestItem _ _ _ data children =>
      match data with
      | TestFile filepath => String.eqb filepath file
      | TestFolder => existsb (isFileIncluded_item file) children
      | TestCase file_filepath _ => String.eqb file_filepath file
      end
  end.

Definition isFileIncluded (file : string) (include : list TestItem) : bool :=
  existsb (isFileIncluded_item file) include.

(** *** [getTestFilesInFolder] *)

Fixpoint getFiles (folder : TestItem) : list string :=
  match folder with
  | mkTestItem _ _ _ _ children =>
      flat_map (fun item =>
        match item_data item with
        | TestFile filepath => [filepath]
        | TestFolder => getFiles item
        | TestCase _ _ => []
        end) children
  end.

Definition getTestFilesInFolder (path : string) : M (list string) :=
  let* s := get in
  let '(tree', folder) := getOrCreateFolderTestItem (tree s) path in
  modify (set_tree tree') >>
  ret (getFiles folder).

(** *** [createContinuousRequest] *)

(** The [for] loop: [inl request] is its early [return request], [inr] the
    include list and the primary request it ends with. *)
Fixpoint createContinuousRequest_loop (requests : list TestRunRequest)
  (include : list TestItem) (primaryRequest : option TestRunRequest)
  : TestRunRequest + (list TestItem * option TestRunRequest) :=
  match requests with
  | [] => inr (include, primaryRequest)
  | request :: rest =>
      match req_include request with
      | None | Some [] => inl request
      | Some items =>
          let primaryRequest' :=
            match primaryRequest with
            | None => Some request
            | Some p => Some p
            end in
          createContinuousRequest_loop rest (include ++ items) primaryRequest'
      end
  end.

Definition createContinuousRequest : M (option TestRunRequest) :=
  let* s := get in
  match continuousRequests s with
  | [] => ret None
  | requests =>
      match createContinuousRequest_loop requests [] None with
      | inl request => ret (Some request)
      | inr (include, primaryRequest) =>
          let request :=
            {| req_id := nextRef s;
               req_include := Some include;
               req_profile :=
                 match primaryRequest with
                 | Some p => req_profile p
                 | None => None
                 end;
               req_continuous := true |} in
          modify (set_nextRef (S (nextRef s))) >>
          ret (Some request)
      end
  end.

(** *** [startTestRun] *)

(** [enqueue(test)]: [run.enqueued(test)], then the children. *)
Fixpoint enqueue (run : TestRun) (test : TestItem) : list Call :=
  match test with
  | mkTestItem _ _ _ _ children =>
      Enqueued run test :: flat_map (enqueue run) children
  end.

(** The body of the loop for a path that is no folder. *)
Definition startTestRun_file (request : TestRunRequest) (file : string)
  : M unit :=
  let* s := get in
  let excluded :=
    match req_include request with
    | Some include => negb (isFileIncluded file include)
    | None => false
    end in
  if excluded then ret tt
  else
    match testRunsByFile s !! file with
    | Some _ => ret tt
    | None =>
        let base := basename file in
        let dir := basename (dirname file) in
        let name := dir +:+ path_sep +:+ base in
        let run := {| run_id := nextRef s; run_request := request;
                      run_name := name |} in
        modify (set_nextRef (S (nextRef s))) >>
        emit (CreateTestRun run) >>
        modify (fun s =>
          set_testRunData
            (<[run_id run := mkTestRunData file request]> (testRunData s)) s) >>
        let* s := get in
        let testItems := getFileTestItems (tree s) file in
        forEach (flat_map (enqueue run) testItems) emit >>
        modify (fun s => set_testRunsByFile (<[file := run]> (testRunsByFile s)) s)
    end.

(** [depth] bounds the nesting of the recursive calls; past it the engine
    raises its [RangeError]. *)
Fixpoint startTestRun (depth : nat) (files : list string)
  (primaryRequest : option TestRunRequest) : M unit :=
  match depth with
  | 0 => throw (RangeError "Maximum call stack size exceeded")
  | S depth' =>
      let* s := get in
      let* request :=
        match primaryRequest with
        | Some r => ret (Some r)
        | None =>
            match simpleTestRunRequest s with
            | Some r => ret (Some r)
            | None => createContinuousRequest
            end
        end in
      match request with
      | None => ret tt
      | Some request =>
          forEach files (fun file =>
            if is_folder_path file then
              let* files' := getTestFilesInFolder file in
              startTestRun depth' files' (Some request)
            else startTestRun_file request file)
      end
  end.

(** *** [endTestRun] *)

Definition endTestRun (run : TestRun) : M unit :=
  let* s := get in
  match testRunData s !! run_id run with
  | None => throw (TypeError "Cannot read properties of undefined (reading 'file')")
  | Some data =>
      modify (fun s => set_testRunsByFile (delete (trd_file data) (testRunsByFile s)) s) >>
      emit (End run)
  end.

(** *** [markResult] *)

(** [err.stack || err.message] *)
Definition stack_or_message (err : ErrorWithDiff) : string :=
  match err_stack err with
  | Some stack => if truthy_string stack then stack else err_message err
  | None => err_message err
  end.

(** [task?.type === 'suite'] *)
Definition is_suite (task : option Task) : bool :=
  match task with
  | Some t => match task_type t with TySuite => true | _ => false end
  | None => false
  end.

Definition string_of_state (st : TaskState) : string :=
  match st with
  | StFail => "fail" | StPass => "pass" | StTodo => "todo" | StSkip => "skip"
  | StOnly => "only" | StRun => "run" | StUnknown s => s
  end.

Definition markResult (testRun : TestRun) (test : TestItem)
  (result : option TaskResult) (task : option Task) : M unit :=
  match result with
  | None => emit (Started testRun test)
  | Some result =>
      match res_state result with
      | StFail =>
          if is_suite task then
            match res_errors result with
            | None => ret tt
            | Some errs =>
                let errors :=
                  map (fun err => TestMessage_new (stack_or_message err)) errs in
                modify (fun s =>
                  set_itemError
                    (<[item_id test := Array_join (String LF EmptyString)
                                         (map msg_message errors)]> (itemError s)) s) >>
                emit (Errored testRun test errors (res_duration result))
            end
          else
            let* errors :=
              liftR (map_result (fun err => testMessageForTestError test (Some err))
                       (default [] (res_errors result))) in
            emit (Failed testRun test errors (res_duration result))
      | StPass => emit (Passed testRun test (res_duration result))
      | StTodo | StSkip => emit (Skipped testRun test)
      | StOnly | StRun => emit (Started testRun test)
      | StUnknown _ =>
          log_error ["Unknown test result for";
                     item_label test +:+ ": " +:+ string_of_state (res_state result)]
      end
  end.

(** *** The handlers the constructor subscribes *)

(** [api.onWatcherRerun] *)
Definition onWatcherRerun (depth : nat) (files : list string)
  (collecting : bool) : M unit :=
  if collecting then ret tt else startTestRun depth files None.

(** The callback of [packs.forEach] in [api.onTaskUpdate]. *)
Definition onTaskUpdate_pack (pack : string * option TaskResult) : M unit :=
  let '(testId, result) := pack in
  let* s := get in
  match getTestDataByTaskId (tree s) testId with
  | None => log_error ["Cannot find task during onTaskUpdate"; testId]
  | Some test =>
      match getTestRunByData s (getTestData test) with
      | None => ret tt
      | Some testRun => markResult testRun test result None
      end
  end.

Definition onTaskUpdate (packs : list (string * option TaskResult)) : M unit :=
  forEach packs onTaskUpdate_pack.

Definition forEachTask (tasks : list Task) (fn : Task -> TestItem -> M unit)
  : M unit :=
  forEach (getTasks tasks) (fun task =>
    let* s := get in
    match getTestDataByTask (tree s) task with
    | None =>
        log_error ["Test data not found for " +:+ String DQUOTE (task_name task)
                   +:+ String DQUOTE EmptyString]
    | Some test => fn task test
    end).

(** The callback [onCollected] hands to [forEachTask]. *)
Definition onCollected_task (task : Task) (data : TestItem) : M unit :=
  let* s := get in
  match getTestRunByData s (getTestData data) with
  | None => ret tt
  | Some testRun =>
      match task_mode task with
      | MSkip | MTodo => emit (Skipped testRun data)
      | _ => markResult testRun data (task_result task) (Some task)
      end
  end.

(** [api.onCollected] *)
Definition onCollected (files : option (list Task)) (collecting : bool)
  : M unit :=
  match files with
  | None => ret tt
  | Some files =>
      forEach files (fun file =>
        modify (fun s => set_tree (collectFile (tree s) file) s)) >>
      if collecting then ret tt
      else forEachTask files onCollected_task
  end.

(** [reportCoverage]: the [files.map] starts one application per file that
    has a run, [Promise.all] waits for them together. *)
Definition reportCoverage (files : list Task) : M unit :=
  if negb hasFileCoverage then ret tt
  else
    let* config := (emit (Api GetCoverageConfig) >> await_getCoverageConfig) in
    if negb (cfg_enabled config) then ret tt
    else
      let path := join (cfg_reportsDirectory config) "coverage-final.json" in
      emit (WaitUntilExists path 5000) >>
      await_waitUntilExists path 5000 >>
      let* s := get in
      let runs :=
        flat_map (fun file =>
          match getTestDataByTask (tree s) file with
          | None => []
          | Some data =>
              match getTestRunByData s (getTestData data) with
              | None => []
              | Some testRun => [testRun]
              end
          end) files in
      forEach runs (fun testRun =>
        emit (CoverageApply testRun (cfg_reportsDirectory config))) >>
      await_coverage runs (cfg_reportsDirectory config).

(** The callback of [files.forEach] in [api.onFinished]. *)
Definition onFinished_file (file : Task) : M unit :=
  let* s := get in
  match getTestDataByTask (tree s) file with
  | None => ret tt
  | Some data =>
      match getTestRunByData s (getTestData data) with
      | None => ret tt
      | Some testRun =>
          markResult testRun data (task_result file) (Some file) >>
          fire_and_forget (endTestRun testRun)
      end
  end.

(** [api.onFinished] *)
Definition onFinished (files : option (list Task)) : M unit :=
  let files := default [] files in
  try_catch (reportCoverage files) (fun err =>
    emit (ShowVitestError ("Failed to report coverage. " +:+ exn_message err))) >>
  forEach files onFinished_file.

(** [api.onConsoleLog] *)
Definition onConsoleLog (content : string) (taskId : option string) : M unit :=
  let* s := get in
  let data :=
    match taskId with
    | Some id => if truthy_string id then getTestDataByTaskId (tree s) id else None
    | None => None
    end in
  let testRun :=
    match data with
    | Some d => getTestRunByData s (getTestData d)
    | None => None
    end in
  match testRun with
  | Some testRun =>
      emit (AppendOutput testRun (replace_bare_newlines content) None data)
  | None => log_info ["[TEST]"; content]
  end.

(** *** [watchContinuousTests] and [runTests] *)

(** [set.add(request)] and [set.delete(request)]; the requests are compared
    by reference. *)
Definition Set_has (request : TestRunRequest) (set : list TestRunRequest) : bool :=
  existsb (fun r => Nat.eqb (req_id r) (req_id request)) set.

Definition Set_add (request : TestRunRequest) (set : list TestRunRequest)
  : list TestRunRequest :=
  if Set_has request set then set else set ++ [request].

Definition Set_delete (request : TestRunRequest) (set : list TestRunRequest)
  : list TestRunRequest :=
  List.filter (fun r => negb (Nat.eqb (req_id r) (req_id request))) set.

(** [!request.include?.length] *)
Definition no_include (request : TestRunRequest) : bool :=
  match req_include request with
  | None | Some [] => true
  | Some (_ :: _) => false
  end.

(** What a callback given to [token.onCancellationRequested] does when the
    token is cancelled. *)
Definition onCancellationRequested (handler : CancelHandler) : M unit :=
  match handler with
  | CancelRunTests =>
      modify (set_simpleTestRunRequest None) >>
      emit (Api CancelRun)
  | CancelWatch request =>
      modify (fun s =>
        set_continuousRequests (Set_delete request (continuousRequests s)) s) >>
      let* s := get in
      match continuousRequests s with
      | [] => emit (Api UnwatchTests)
      | _ :: _ => ret tt
      end
  | CancelCoverage => ret tt
  end.

Definition watchContinuousTests (request : TestRunRequest) (token : nat)
  : M unit :=
  modify (fun s =>
    set_continuousRequests (Set_add request (continuousRequests s)) s) >>
  emit (OnCancellationRequested token (CancelWatch request)) >>
  if no_include request then await_api_call (WatchTests None None)
  else
    let* s := get in
    let include :=
      flat_map (fun r => default [] (req_include r)) (continuousRequests s) in
    let* files := liftR (getTestFiles include) in
    let testNamePatern := formatTestPattern include in
    await_api_call (WatchTests (Some files) testNamePatern).

(** [if (testNamePatern)] *)
Definition truthy_pattern (p : option string) : bool :=
  match p with
  | Some p => truthy_string p
  | None => false
  end.

Definition runTests (request : TestRunRequest) (token : nat) : M unit :=
  if req_continuous request then watchContinuousTests request token
  else
    modify (set_simpleTestRunRequest (Some request)) >>
    emit (OnCancellationRequested token CancelRunTests) >>
    let tests := default [] (req_include request) in
    (match tests with
     | [] =>
         log_info ["Running all tests in " +:+ basename workspaceFolder] >>
         await_api_call (RunFiles None None)
     | _ :: _ =>
         let testNamePatern := formatTestPattern tests in
         let* files := liftR (getTestFiles tests) in
         (if truthy_pattern testNamePatern
          then log_info ["Running " +:+ pretty (length files)
                         +:+ " file(s) with name pattern: "
                         +:+ default "" testNamePatern]
          else log_info (("Running " +:+ pretty (length files) +:+ " file(s):")
                         :: files)) >>
         await_api_call (RunFiles (Some files) testNamePatern)
     end) >>
    modify (set_simpleTestRunRequest None).

Definition runCoverage (request : TestRunRequest) (token : nat) : M unit :=
  fun s =>
    match await_api_call EnableCoverage s with
    | (Throw err, s') =>
        emit (ShowVitestError ("Failed to enable coverage. " +:+ exn_message err)) s'
    | (Ok _, s') =>
        (emit (OnCancellationRequested token CancelCoverage) >>
         runTests request token) s'
    end.

(** The callback given to [vscode.Disposable]. *)
Definition dispose : M unit :=
  emit (Api ClearListeners) >>
  modify (set_testRunsByFile ∅) >>
  modify (set_simpleTestRunRequest None) >>
  modify (set_continuousRequests []) >>
  emit (Api CancelRun).

End Runner.

(** ** What the specification says, in its own words *)

(** The name-matching expressions of the selected items that have one, in
    selection order. *)
Definition name_patterns (tests : list TestItem) : list string :=
  omap (fun test =>
    match getTestData test with
    | TestCase _ pattern => Some pattern
    | _ => None
    end) tests.

(** An item without the name-matching capability: a file or a folder. *)
Definition file_or_folder (test : TestItem) : Prop :=
  match getTestData test with
  | TestCase _ _ => False
  | _ => True
  end.

(** The character at position [i] is a line feed that no carriage return
    immediately precedes. *)
Definition bare_newline_at (l : list ascii) (i : nat) : bool :=
  match l !! i with
  | Some c =>
      Ascii.eqb c LF
      && negb match i with
              | 0 => false
              | S j =>
                  match l !! j with
                  | Some p => Ascii.eqb p CR
                  | None => false
                  end
              end
  | None => false
  end.

(** What position [i] of the content becomes in the output. *)
Definition rewritten_at (l : list ascii) (i : nat) : list ascii :=
  match l !! i with
  | Some c => if bare_newline_at l i then [CR; LF] else [c]
  | None => []
  end.

Definition normalized_line_endings (content : string) : string :=
  let l := list_ascii_of_string content in
  string_of_list_ascii (flat_map (rewritten_at l) (seq 0 (length l))).

Section Specification.
Context {H : Host}.

(** A stack frame whose file, with the separators of the host, is the file
    of the test item and whose line and column are numbers. *)
Definition frame_qualifies (target : string) (frame : ParsedStack) : Prop :=
  replace_all_char "/"%char path_sep (stack_file frame) = target
  /\ PrimFloat.is_nan (stack_line frame) = false
  /\ PrimFloat.is_nan (stack_column frame) = false.

End Specification.

(** The editor accepts the position of the frame: neither its line nor its
    column, each less one, is negative. *)
Definition position_accepted (frame : ParsedStack) : bool :=
  negb (PrimFloat.ltb (PrimFloat.sub (stack_line frame) 1%float) 0%float)
  && negb (PrimFloat.ltb (PrimFloat.sub (stack_column frame) 1%float) 0%float).

(** The zero-based position of the frame. *)
Definition position_of (frame : ParsedStack) : Position :=
  mkPosition (PrimFloat.sub (stack_line frame) 1%float)
             (PrimFloat.sub (stack_column frame) 1%float).

(** The first frame of [stacks] that qualifies, if any. *)
Definition first_qualifying `{Host} (target : string) (stacks : list ParsedStack)
  (found : option ParsedStack) : Prop :=
  match found with
  | Some frame =>
      exists before after,
        stacks = before ++ frame :: after
        /\ Forall (fun f => ~ frame_qualifies target f) before
        /\ frame_qualifies target frame
  | None => Forall (fun f => ~ frame_qualifies target f) stacks
  end.

(** The message of an error whose stack frames are [stacks] can be located
    for the test item: there is no frame, or the item has a uri and the
    editor accepts the position of the first qualifying frame, if there is
    one. *)
Definition locatable `{Host} (testItem : TestItem) (stacks : list ParsedStack)
  : Prop :=
  stacks = []
  \/ exists target found,
       item_uri testItem = Some target
       /\ first_qualifying target stacks found
       /\ from_option position_accepted true found = true.

(** A value that is present: neither [undefined] nor [null]. *)
Definition present (v : JsValue) : Prop := v <> JsUndefined /\ v <> JsNull.

(** Both values of the error are present and neither is the token
    ["undefined"]. *)
Definition carries_diff (error : ErrorWithDiff) : Prop :=
  present (err_actual error) /\ present (err_expected error)
  /\ err_actual error <> JsString "undefined"
  /\ err_expected error <> JsString "undefined".

(** A request reaches a file when it has no inclusion filter or the filter
    includes the file. *)
Definition reaches (request : TestRunRequest) (file : string) : Prop :=
  match req_include request with
  | None => True
  | Some include => isFileIncluded file include = true
  end.

Definition is_CreateTestRun (c : Call) : bool :=
  match c with CreateTestRun _ => true | _ => false end.

Definition is_Failed (c : Call) : bool :=
  match c with Failed _ _ _ _ => true | _ => false end.

Definition is_Errored (c : Call) : bool :=
  match c with Errored _ _ _ _ => true | _ => false end.

Definition is_End (c : Call) : bool :=
  match c with End _ => true | _ => false end.

(** The character before the position the scan has reached. *)
Definition ends_with_CR (before : list ascii) : bool :=
  match last before with
  | Some p => Ascii.eqb p CR
  | None => false
  end.

(** The execution call [runTests] makes for a request whose file set is
    [files]. *)
Definition execution_call (request : TestRunRequest) (files : list string)
  : ApiCall :=
  match default [] (req_include request) with
  | [] => RunFiles None None
  | tests => RunFiles (Some files) (formatTestPattern tests)
  end.

(** The request leaves the file out: it has an inclusion filter that does
    not include the file. *)
Definition excluded (request : TestRunRequest) (file : string) : bool :=
  match req_include request with
  | Some include => negb (isFileIncluded file include)
  | None => false
  end.

Section RunnerSpecification.
Context {H : Host} {C : Collaborators}.

(** The state after the run of [file] has been created and registered. *)
Definition started (request : TestRunRequest) (file : string) (s : St) : St :=
  let run := {| run_id := nextRef s; run_request := request;
                run_name := basename (dirname file) +:+ path_sep +:+ basename file |} in
  mkState (continuousRequests s) (simpleTestRunRequest s)
    (<[file := run]> (testRunsByFile s)) (tree s) (itemError s)
    (<[nextRef s := mkTestRunData file request]> (testRunData s))
    (S (nextRef s))
    (calls s ++ CreateTestRun run
       :: flat_map (enqueue run) (getFileTestItems (tree s) file)).

(** The state in which [onFinished] starts its [files.forEach]: the one the
    report of the coverage, caught failure included, ends in. *)
Definition coverage_reported (files : list Task) (s0 : St) : St :=
  snd (try_catch (reportCoverage files) (fun err =>
         emit (ShowVitestError ("Failed to report coverage. " +:+ exn_message err)))
         s0).

(** Every registered run is registered under the file [TestRunData] holds
    for it, as [startTestRun] registers it. *)
Definition registry_consistent (s : St) : Prop :=
  forall file run,
    testRunsByFile s !! file = Some run ->
    exists data, testRunData s !! run_id run = Some data /\ trd_file data = file.

(** What the loop of [onFinished] keeps true of the run [run] registered
    for [path] when no file it meets resolves to that run. *)
Definition run_kept (s : St) (path : string) (run : TestRun) (s' : St) : Prop :=
  tree s' = tree s /\ testRunData s' = testRunData s
  /\ testRunsByFile s' ⊆ testRunsByFile s
  /\ testRunsByFile s' !! path = Some run
  /\ exists new, calls s' = calls s ++ new /\ End run ∉ new.

(** What the loop of [onFinished] keeps true of the run [run] registered
    for [path], whichever files it meets: the run is still registered for
    the path, or it is not and it has been ended. *)
Definition run_tracked (s : St) (path : string) (run : TestRun) (s' : St) : Prop :=
  tree s' = tree s /\ testRunData s' = testRunData s
  /\ testRunsByFile s' ⊆ testRunsByFile s
  /\ exists new,
       calls s' = calls s ++ new
       /\ (testRunsByFile s' !! path = Some run
           \/ (testRunsByFile s' !! path = None /\ End run ∈ new)).

(** The registry is consistent and the references of its runs are older
    than the next fresh one. *)
Definition registry_well_formed (s : St) : Prop :=
  registry_consistent s
  /\ forall file run, testRunsByFile s !! file = Some run -> run_id run < nextRef s.

End RunnerSpecification.

(** *** Further properties read off the code *)

(** The values of [l], each once, at the place of its first occurrence. *)
Fixpoint first_occurrences (l : list string) : list string :=
  match l with
  | [] => []
  | x :: rest =>
      x :: List.filter (fun y => negb (String.eqb y x)) (first_occurrences rest)
  end.

Section SelectionSpecification.
Context {H : Host}.

(** The path a selected item with the uri [u] stands for: its normal path,
    with the folder marker when the item is a folder. *)
Definition selected_path (test : TestItem) (u : string) : string :=
  match getTestData test with
  | TestFolder => normalize u +:+ "/"
  | _ => normalize u
  end.

(** The paths of the selected items that have a uri, in selection order. *)
Definition selected_paths (tests : list TestItem) : list string :=
  omap (fun test => selected_path test <$> item_uri test) tests.

End SelectionSpecification.

(** Some line feed of [s] has no carriage return immediately before it;
    [prevCR] tells whether a carriage return precedes [s]. *)
Fixpoint has_bare_newline_from (prevCR : bool) (s : string) : bool :=
  match s with
  | EmptyString => false
  | String c rest =>
      (Ascii.eqb c LF && negb prevCR) || has_bare_newline_from (Ascii.eqb c CR) rest
  end.

Definition has_bare_newline (s : string) : bool := has_bare_newline_from false s.

(** The character [c] occurs in [s]. *)
Fixpoint occurs (c : ascii) (s : string) : bool :=
  match s with
  | EmptyString => false
  | String a rest => Ascii.eqb a c || occurs c rest
  end.

Section EventSpecification.
Context {H : Host} {C : Collaborators}.

(** The runner does not track the task of a pack: the tree has no test data
    for it, or the file of its test data has no run. *)
Definition untracked (s : St) (pack : string * option TaskResult) : Prop :=
  match getTestDataByTaskId (tree s) (fst pack) with
  | None => True
  | Some test => getTestRunByData s (getTestData test) = None
  end.

(** What [onTaskUpdate] logs for a pack whose task the tree does not know. *)
Definition onTaskUpdate_log (s : St) (pack : string * option TaskResult)
  : list Call :=
  match getTestDataByTaskId (tree s) (fst pack) with
  | None => [Log LogError ["Cannot find task during onTaskUpdate"; fst pack]]
  | Some _ => []
  end.

(** The items of all the registrations, in the order of their registration. *)
Definition merged_include (requests : list TestRunRequest) : list TestItem :=
  flat_map (fun r => default [] (req_include r)) requests.

(** What [forEachTask] logs for [tasks] when the tree is [t]: one error for
    each task the tree has no test data for, in the order of the tasks. *)
Definition missing_test_data_log (t : Tree) (tasks : list Task) : list Call :=
  flat_map (fun task =>
    match getTestDataByTask t task with
    | None =>
        [Log LogError ["Test data not found for " +:+ String DQUOTE (task_name task)
                       +:+ String DQUOTE EmptyString]]
    | Some _ => []
    end) tasks.

End EventSpecification.

(** ** A small workspace to run the model on *)

Module Sample.

(** The part of a path after its last slash. *)
Fixpoint last_segment (segment : string) (path : string) : string :=
  match path with
  | EmptyString => segment
  | String c rest =>
      if Ascii.eqb c "/"%char then last_segment EmptyString rest
      else last_segment (segment +:+ String c EmptyString) rest
  end.

(** The part of a path before its last slash. *)
Definition parent (path : string) : string :=
  String.substring 0
    (String.length path - String.length (last_segment EmptyString path) - 1) path.

(** A POSIX host whose paths are already normal and whose texts carry no
    escape sequences; every task stands for itself. *)
Definition host : Host :=
  {| path_sep := "/";
     stripAnsi := fun s => s;
     normalize := fun p => p;
     basename := last_segment EmptyString;
     dirname := parent;
     join := fun a b => a +:+ "/" +:+ b;
     getTasks := fun tasks => tasks |}.

(** A Windows host: the separator is the backslash. *)
Definition win32 : Host :=
  {| path_sep := String "092"%char EmptyString;
     stripAnsi := fun s => s;
     normalize := fun p => p;
     basename := last_segment EmptyString;
     dirname := parent;
     join := fun a b => a +:+ "/" +:+ b;
     getTasks := fun tasks => tasks |}.

(** The test tree as the list of the items it knows, by task id. *)
Definition SampleTree : Type := list (string * TestItem).

Fixpoint lookup_task (t : SampleTree) (id : string) : option TestItem :=
  match t with
  | [] => None
  | (k, item) :: rest => if String.eqb k id then Some item else lookup_task rest id
  end.

Definition file_items (t : SampleTree) (file : string) : list TestItem :=
  flat_map (fun '(_, item) =>
    match item_data item with
    | TestFile p => if String.eqb p file then [item] else []
    | _ => []
    end) t.

Definition folder_item (path : string) : TestItem :=
  mkTestItem path path (Some path) TestFolder [].

(** Collaborators whose awaited calls all succeed and run no other handler
    meanwhile; [settle] is the outcome of the calls of the Vitest API. *)
Definition collaborators_with
  (settle : ApiCall -> State SampleTree -> Result unit * State SampleTree)
  : Collaborators :=
  {| Tree := SampleTree;
     getTestDataByTaskId := lookup_task;
     getTestDataByTask := fun t task => lookup_task t (task_id task);
     collectFile := fun t _ => t;
     getFileTestItems := file_items;
     getOrCreateFolderTestItem := fun t path => (t, folder_item path);
     workspaceFolder := "/ws";
     hasFileCoverage := false;
     await_api := settle;
     await_getCoverageConfig := fun s => (Ok (mkCoverageConfig false "/ws/coverage"), s);
     await_waitUntilExists := fun _ _ s => (Ok tt, s);
     await_coverage := fun _ _ s => (Ok tt, s) |}.

Definition collaborators : Collaborators :=
  collaborators_with (fun _ s => (Ok tt, s)).

(** The execution call is rejected. *)
Definition failing : Collaborators :=
  collaborators_with (fun _ s => (Throw (Error "connection closed"), s)).

Definition file_a : TestItem :=
  mkTestItem "/ws/a.test.ts" "a.test.ts" (Some "/ws/a.test.ts")
    (TestFile "/ws/a.test.ts") [].

Definition file_b : TestItem :=
  mkTestItem "/ws/b.test.ts" "b.test.ts" (Some "/ws/b.test.ts")
    (TestFile "/ws/b.test.ts") [].

Definition case_adds : TestItem :=
  mkTestItem "/ws/a.test.ts/adds" "adds numbers" (Some "/ws/a.test.ts")
    (TestCase "/ws/a.test.ts" "adds numbers") [].

Definition case_subtracts : TestItem :=
  mkTestItem "/ws/b.test.ts/subtracts" "subtracts numbers" (Some "/ws/b.test.ts")
    (TestCase "/ws/b.test.ts" "subtracts numbers") [].

(** The item of a suite; its test data has a file and a name pattern as
    that of a case has. *)
Definition suite_math : TestItem :=
  mkTestItem "/ws/a.test.ts/math" "math" (Some "/ws/a.test.ts")
    (TestCase "/ws/a.test.ts" "math") [].

Definition sample_tree : SampleTree :=
  [("file-a", file_a); ("case-adds", case_adds); ("suite-math", suite_math);
   ("file-b", file_b); ("case-subtracts", case_subtracts)].

Definition request_all : TestRunRequest :=
  mkTestRunRequest 1 None None false.

Definition request_b : TestRunRequest :=
  mkTestRunRequest 2 (Some [file_b]) None false.

Definition watch_all : TestRunRequest :=
  mkTestRunRequest 3 None None true.

Definition watch_subtracts : TestRunRequest :=
  mkTestRunRequest 4 (Some [case_subtracts]) None true.

Definition run_a : TestRun := mkTestRun 10 request_all "ws/a.test.ts".

Definition initial : State SampleTree :=
  mkState [] None ∅ sample_tree ∅ ∅ 100 [].

(** The runner while [run_a] is running the file [/ws/a.test.ts]. *)
Definition running_a : State SampleTree :=
  mkState [] None {["/ws/a.test.ts" := run_a]} sample_tree ∅
    {[10 := mkTestRunData "/ws/a.test.ts" request_all]} 100 [].

Definition failed_without_errors : TaskResult :=
  mkTaskResult StFail None (Some (Num 12)).

Definition suite_error : ErrorWithDiff :=
  mkErrorWithDiff "hook failed" None None JsUndefined JsUndefined.

Definition failed_with_errors : TaskResult :=
  mkTaskResult StFail (Some [suite_error]) (Some (Num 12)).

Definition task_suite_math (result : TaskResult) : Task :=
  mkTask "suite-math" "math" TySuite MRun (Some result) "/ws/a.test.ts".

Definition task_file_a : Task :=
  mkTask "file-a" "a.test.ts" TySuite MRun (Some (mkTaskResult StPass None None))
    "/ws/a.test.ts".

(** A file task the tree has no data for. *)
Definition task_file_unknown : Task :=
  mkTask "file-z" "a.test.ts" TySuite MRun (Some (mkTaskResult StPass None None))
    "/ws/a.test.ts".

Definition sample_content : string :=
  "a" +:+ String LF ("b" +:+ String CR (String LF ("c" +:+ String LF (String LF "")))).

Definition sample_content_normalized : string :=
  "a" +:+ String CR (String LF ("b" +:+ String CR (String LF
    ("c" +:+ String CR (String LF (String CR (String LF ""))))))).

Definition win32_path : string :=
  String "092"%char ("ws" +:+ String "092"%char "a.test.ts").

Definition win32_item : TestItem :=
  mkTestItem "a" "a.test.ts" (Some win32_path) (TestFile win32_path) [].

Definition sample_stacks : list ParsedStack :=
  [mkParsedStack "/ws/node_modules/chai/index.js" 3%float 1%float;
   mkParsedStack "/ws/a.test.ts" PrimFloat.nan 7%float;
   mkParsedStack "/ws/a.test.ts" 10%float 5%float;
   mkParsedStack "/ws/a.test.ts" 20%float 9%float].

Definition sample_error : ErrorWithDiff :=
  mkErrorWithDiff "expected 2 to be 3" None (Some sample_stacks)
    (JsString "2") (JsString "3").

(** Collaborators whose coverage configuration cannot be fetched, on a host
    that displays coverage. *)
Definition coverage_failing : Collaborators :=
  {| Tree := SampleTree;
     getTestDataByTaskId := lookup_task;
     getTestDataByTask := fun t task => lookup_task t (task_id task);
     collectFile := fun t _ => t;
     getFileTestItems := file_items;
     getOrCreateFolderTestItem := fun t path => (t, folder_item path);
     workspaceFolder := "/ws";
     hasFileCoverage := true;
     await_api := fun _ s => (Ok tt, s);
     await_getCoverageConfig := fun s => (Throw (Error "no configuration"), s);
     await_waitUntilExists := fun _ _ s => (Ok tt, s);
     await_coverage := fun _ _ s => (Ok tt, s) |}.

(** The folder [/ws/lib] with two files, one of them in a subfolder. *)
Definition file_c : TestItem :=
  mkTestItem "/ws/lib/c.test.ts" "c.test.ts" (Some "/ws/lib/c.test.ts")
    (TestFile "/ws/lib/c.test.ts") [].

Definition file_d : TestItem :=
  mkTestItem "/ws/lib/deep/d.test.ts" "d.test.ts" (Some "/ws/lib/deep/d.test.ts")
    (TestFile "/ws/lib/deep/d.test.ts") [].

Definition folder_deep : TestItem :=
  mkTestItem "/ws/lib/deep" "deep" (Some "/ws/lib/deep") TestFolder [file_d].

Definition folder_lib : TestItem :=
  mkTestItem "/ws/lib" "lib" (Some "/ws/lib") TestFolder [file_c; folder_deep].

(** Collaborators whose tree knows the folder [/ws/lib]. *)
Definition with_folder : Collaborators :=
  {| Tree := SampleTree;
     getTestDataByTaskId := lookup_task;
     getTestDataByTask := fun t task => lookup_task t (task_id task);
     collectFile := fun t _ => t;
     getFileTestItems := file_items;
     getOrCreateFolderTestItem := fun t path =>
       (t, if String.eqb path "/ws/lib/" then folder_lib else folder_item path);
     workspaceFolder := "/ws";
     hasFileCoverage := false;
     await_api := fun _ s => (Ok tt, s);
     await_getCoverageConfig := fun s => (Ok (mkCoverageConfig false "/ws/coverage"), s);
     await_waitUntilExists := fun _ _ s => (Ok tt, s);
     await_coverage := fun _ _ s => (Ok tt, s) |}.

Definition request_lib : TestRunRequest :=
  mkTestRunRequest 5 (Some [folder_lib]) None false.

Definition watch_adds : TestRunRequest :=
  mkTestRunRequest 6 (Some [case_adds]) (Some "profile-1") true.

(** The runner with two filtered watch registrations. *)
Definition watching : State SampleTree :=
  mkState [watch_adds; watch_subtracts] None ∅ sample_tree ∅ ∅ 100 [].

(** An error whose only frame is of the file of [case_adds] and has the line
    zero. *)
Definition error_at_line_zero : ErrorWithDiff :=
  mkErrorWithDiff "boom" None (Some [mkParsedStack "/ws/a.test.ts" 0%float 1%float])
    JsUndefined JsUndefined.

Definition run_b : TestRun := mkTestRun 11 request_all "ws/b.test.ts".

(** The runner while [run_a] and [run_b] are running their files. *)
Definition running_ab : State SampleTree :=
  mkState [] None
    (<["/ws/b.test.ts" := run_b]> {["/ws/a.test.ts" := run_a]}) sample_tree ∅
    (<[11 := mkTestRunData "/ws/b.test.ts" request_all]>
       {[10 := mkTestRunData "/ws/a.test.ts" request_all]}) 100 [].

Definition task_file_b : Task :=
  mkTask "file-b" "b.test.ts" TySuite MRun (Some (mkTaskResult StPass None None))
    "/ws/b.test.ts".

(** The runner with one registration, which watches everything. *)
Definition watching_all : State SampleTree :=
  mkState [watch_all] None ∅ sample_tree ∅ ∅ 100 [].


End Sample.

(** ** Properties of the module-level functions *)

Section PatternProperties.

Lemma formatTestPattern_loop (tests : list TestItem) (acc : list string) :
  fold_left (fun patterns test =>
    match getTestData test with
    | TestCase _ pattern => patterns ++ [pattern]
    | _ => patterns
    end) tests acc = acc ++ name_patterns tests.
Proof.
  revert acc; induction tests as [|test tests IH]; intros acc; simpl.
  - by rewrite app_nil_r.
  - rewrite IH. unfold name_patterns; simpl.
    destruct (getTestData test); simpl; try done.
    by rewrite <- app_assoc.
Qed.

Lemma name_patterns_file_or_folder (tests : list TestItem) :
  Forall file_or_folder tests -> name_patterns tests = [].
Proof.
  induction 1 as [|test tests Htest _ IH]; [done|].
  unfold name_patterns in *; simpl. unfold file_or_folder in Htest.
  destruct (getTestData test); simpl; try done.
Qed.

(** C6: the resolved name pattern is the expressions of exactly the selected
    items that have a name-matching capability, in selection order, joined
    by [|]; it is absent when no selected item has the capability, as when
    only files and folders are selected. *)
Theorem formatTestPattern_joins_name_patterns (tests : list TestItem) :
  formatTestPattern tests =
    match name_patterns tests with
    | [] => None
    | first :: others => Some (fold_left (fun joined pattern => joined +:+ "|" +:+ pattern) others first)
    end
  /\ (Forall file_or_folder tests -> formatTestPattern tests = None)
  /\ formatTestPattern [Sample.case_adds; Sample.case_subtracts]
     = Some "adds numbers|subtracts numbers".
Proof.
  assert (Hjoin : forall others first,
    Array_join "|" (first :: others)
    = fold_left (fun joined pattern => joined +:+ "|" +:+ pattern) others first).
  { assert (Happ : forall a b c : string, (a +:+ b) +:+ c = a +:+ (b +:+ c)).
    { induction a as [|ch a IHa]; intros b c; [reflexivity|].
      change (String ch ((a +:+ b) +:+ c) = String ch (a +:+ (b +:+ c))).
      f_equal. apply IHa. }
    induction others as [|p others IH]; intros first; [done|].
    simpl fold_left. rewrite <- IH.
    destruct others as [|q others]; [reflexivity|].
    symmetry.
    exact (Happ first ("|" +:+ p) ("|" +:+ Array_join "|" (q :: others))). }
  assert (Hfmt : formatTestPattern tests =
    match name_patterns tests with
    | [] => None
    | first :: others => Some (Array_join "|" (first :: others))
    end).
  { unfold formatTestPattern. rewrite formatTestPattern_loop. simpl.
    by destruct (name_patterns tests). }
  split; [|split].
  - rewrite Hfmt. destruct (name_patterns tests); [done|]. by rewrite Hjoin.
  - intros Hall. rewrite Hfmt. by rewrite name_patterns_file_or_folder.
  - reflexivity.
Qed.

End PatternProperties.

(** ** Line endings of the console output *)

Section LineEndings.


Lemma bare_newline_at_middle (before : list ascii) (c : ascii) (after : list ascii) :
  bare_newline_at (before ++ c :: after) (length before)
  = Ascii.eqb c LF && negb (ends_with_CR before).
Proof.
  unfold bare_newline_at, ends_with_CR.
  rewrite list_lookup_middle by done.
  destruct (length before) as [|j] eqn:Hlen.
  - by destruct before.
  - rewrite last_lookup, Hlen; simpl.
    rewrite lookup_app_l by lia. done.
Qed.

Lemma replace_bare_newlines_from_spec (rest : string) :
  forall before : list ascii,
    list_ascii_of_string (replace_bare_newlines_from (ends_with_CR before) rest)
    = flat_map (rewritten_at (before ++ list_ascii_of_string rest))
        (seq (length before) (String.length rest)).
Proof.
  induction rest as [|c rest IH]; intros before; [done|].
  assert (Hnext : forall flag,
    flag = ends_with_CR (before ++ [c]) ->
    list_ascii_of_string (replace_bare_newlines_from flag rest)
    = flat_map (rewritten_at (before ++ c :: list_ascii_of_string rest))
        (seq (S (length before)) (String.length rest))).
  { intros flag ->. rewrite IH.
    rewrite <- app_assoc, length_app; simpl.
    by rewrite Nat.add_1_r. }
  assert (Hlast : ends_with_CR (before ++ [c]) = Ascii.eqb c CR).
  { unfold ends_with_CR. by rewrite last_snoc. }
  cbn [replace_bare_newlines_from list_ascii_of_string String.length seq flat_map].
  unfold rewritten_at at 1.
  rewrite bare_newline_at_middle, list_lookup_middle by done.
  destruct (Ascii.eqb c LF && negb (ends_with_CR before)) eqn:Hbare.
  - cbn [list_ascii_of_string app]. do 2 f_equal.
    apply Hnext. rewrite Hlast.
    apply andb_prop in Hbare as [Hc _].
    apply Ascii.eqb_eq in Hc as ->. reflexivity.
  - cbn [list_ascii_of_string app]. f_equal.
    apply Hnext. by rewrite Hlast.
Qed.

Lemma replace_bare_newlines_spec (content : string) :
  replace_bare_newlines content = normalized_line_endings content.
Proof.
  unfold replace_bare_newlines, normalized_line_endings.
  rewrite <- (string_of_list_ascii_of_string (replace_bare_newlines_from false content)).
  f_equal.
  assert (Hlen : length (list_ascii_of_string content) = String.length content).
  { induction content as [|c content IH]; simpl; [done | by rewrite IH]. }
  rewrite Hlen.
  exact (replace_bare_newlines_from_spec content []).
Qed.

End LineEndings.

Section ConsoleLog.
Context {C : Collaborators}.

(** C8: the content of a console log that belongs to a tracked run is
    appended to the output of that run with every line feed that no carriage
    return immediately precedes rewritten to a carriage return and a line
    feed, and everything else, the existing pairs of carriage return and line
    feed included, as it was. *)
Theorem onConsoleLog_appends_normalized_content
  (s : St) (content taskId : string) (data : TestItem) (testRun : TestRun) :
  truthy_string taskId = true ->
  getTestDataByTaskId (tree s) taskId = Some data ->
  getTestRunByData s (getTestData data) = Some testRun ->
  onConsoleLog content (Some taskId) s
  = (Ok tt,
     set_calls
       (calls s ++ [AppendOutput testRun (normalized_line_endings content) None
                      (Some data)]) s).
Proof.
  intros Hid Hdata Hrun.
  unfold onConsoleLog, bind, get.
  rewrite Hid, Hdata, Hrun.
  by rewrite replace_bare_newlines_spec.
Qed.

End ConsoleLog.


Lemma onConsoleLog_appends_normalized_content_witness :
  @onConsoleLog Sample.collaborators Sample.sample_content (Some "case-adds")
    Sample.running_a
  = (Ok tt,
     @set_calls Sample.collaborators
       [AppendOutput Sample.run_a Sample.sample_content_normalized None
          (Some Sample.case_adds)] Sample.running_a).
Proof.
  exact (@onConsoleLog_appends_normalized_content Sample.collaborators
           Sample.running_a Sample.sample_content "case-adds" Sample.case_adds Sample.run_a
           eq_refl eq_refl eq_refl).
Defined.

(** ** Locations and messages of errors *)


Section ErrorMessages.
Context {H : Host}.

Lemma frame_qualifies_test (target : string) (frame : ParsedStack) :
  frame_qualifies target frame <->
  negb (String.eqb (replace_all_char "/"%char path_sep (stack_file frame)) target)
  || Number_isNaN (stack_column frame) || Number_isNaN (stack_line frame) = false.
Proof.
  unfold frame_qualifies, Number_isNaN.
  destruct (String.eqb_spec (replace_all_char "/"%char path_sep (stack_file frame)) target),
    (PrimFloat.is_nan (stack_line frame)), (PrimFloat.is_nan (stack_column frame));
    simpl; intuition congruence.
Qed.

Lemma parseLocationFromStacks_loop_skip (target : string) (stack : ParsedStack)
  (rest : list ParsedStack) :
  ~ frame_qualifies target stack ->
  parseLocationFromStacks_loop target (stack :: rest)
  = parseLocationFromStacks_loop target rest.
Proof.
  intros Hnot.
  cbn [parseLocationFromStacks_loop getSourceFilepathAndLocationFromStack
       sourceFilepath line column].
  destruct (negb _ || _ || _) eqn:Htest; [reflexivity|].
  apply frame_qualifies_test in Htest. contradiction.
Qed.

(** The loop returns the first qualifying frame, whichever way it is
    found. *)
Lemma parseLocationFromStacks_loop_of_first (target : string)
  (stacks : list ParsedStack) (found : option ParsedStack) :
  first_qualifying target stacks found ->
  parseLocationFromStacks_loop target stacks
  = option_map (fun frame =>
      mkDebuggerLocation target (stack_line frame) (stack_column frame)) found.
Proof.
  destruct found as [frame|]; simpl.
  - intros (before & after & -> & Hbefore & Hframe).
    induction Hbefore as [|stack before Hstack _ IH].
    + cbn [app parseLocationFromStacks_loop getSourceFilepathAndLocationFromStack
           sourceFilepath line column].
      pose proof Hframe as Htest. apply frame_qualifies_test in Htest.
      rewrite Htest. destruct Hframe as (-> & _). reflexivity.
    + change ((stack :: before) ++ frame :: after)
        with (stack :: (before ++ frame :: after)).
      by rewrite parseLocationFromStacks_loop_skip.
  - intros Hall. induction Hall as [|stack rest Hstack _ IH]; [reflexivity|].
    by rewrite parseLocationFromStacks_loop_skip.
Qed.

Lemma parseLocationFromStacks_loop_first (target : string) (stacks : list ParsedStack) :
  exists found,
    first_qualifying target stacks found
    /\ parseLocationFromStacks_loop target stacks
       = option_map (fun frame =>
           mkDebuggerLocation target (stack_line frame) (stack_column frame)) found.
Proof.
  induction stacks as [|stack rest (found & Hfound & Hloop)].
  - exists None. split; [constructor | reflexivity].
  - cbn [parseLocationFromStacks_loop getSourceFilepathAndLocationFromStack
         sourceFilepath line column].
    destruct (negb _ || _ || _) eqn:Htest.
    + assert (Hnot : ~ frame_qualifies target stack).
      { intros Hq. apply frame_qualifies_test in Hq. congruence. }
      rewrite Hloop. destruct found as [frame|].
      * destruct Hfound as (before & after & -> & Hbefore & Hframe).
        exists (Some frame). split; [|reflexivity].
        exists (stack :: before), after.
        split; [reflexivity|]. split; [by constructor | exact Hframe].
      * exists None. split; [|reflexivity]. by constructor.
    + apply frame_qualifies_test in Htest.
      exists (Some stack). split.
      * exists [], rest. split; [reflexivity|]. split; [constructor | exact Htest].
      * simpl. destruct Htest as (-> & _). reflexivity.
Qed.

Lemma parseLocationFromStacks_of_first (testItem : TestItem) (target : string)
  (stacks : list ParsedStack) (found : option ParsedStack) :
  item_uri testItem = Some target ->
  first_qualifying target stacks found ->
  parseLocationFromStacks testItem stacks
  = Ok (option_map (fun frame =>
          mkDebuggerLocation target (stack_line frame) (stack_column frame)) found).
Proof.
  intros Huri Hfound.
  unfold parseLocationFromStacks, uri_fsPath. rewrite Huri.
  destruct stacks as [|stack rest];
    [|by rewrite (parseLocationFromStacks_loop_of_first _ _ _ Hfound)].
  destruct found as [frame|]; [|reflexivity].
  destruct Hfound as (before & after & Heq & _). by destruct before.
Qed.

(** What [new vscode.Position] makes of the line and the column of a
    frame. *)
Lemma Position_new_of_frame (frame : ParsedStack) :
  if position_accepted frame
  then Position_new (PrimFloat.sub (stack_line frame) 1%float)
                    (PrimFloat.sub (stack_column frame) 1%float)
       = Ok (position_of frame)
  else exists e,
         Position_new (PrimFloat.sub (stack_line frame) 1%float)
                      (PrimFloat.sub (stack_column frame) 1%float)
         = Throw e.
Proof.
  unfold position_accepted, Position_new, position_of.
  destruct (PrimFloat.ltb (PrimFloat.sub (stack_line frame) 1%float) 0%float);
    destruct (PrimFloat.ltb (PrimFloat.sub (stack_column frame) 1%float) 0%float);
    simpl; eauto.
Qed.

(** The message and the failure of [testMessageForTestError], by the first
    qualifying frame of the error, for a test item that has a uri. *)
Lemma testMessageForTestError_located (testItem : TestItem) (target : string)
  (error : ErrorWithDiff) (found : option ParsedStack) :
  item_uri testItem = Some target ->
  first_qualifying target (default [] (err_stacks error)) found ->
  match found with
  | None =>
      exists message,
        testMessageForTestError testItem (Some error) = Ok message
        /\ msg_location message = None
  | Some frame =>
      if position_accepted frame
      then exists message,
             testMessageForTestError testItem (Some error) = Ok message
             /\ msg_location message = Some (mkLocation target (position_of frame))
      else exists e, testMessageForTestError testItem (Some error) = Throw e
  end.
Proof.
  intros Huri Hfound. unfold testMessageForTestError.
  rewrite (parseLocationFromStacks_of_first _ _ _ _ Huri Hfound).
  destruct found as [frame|]; simpl.
  - pose proof (Position_new_of_frame frame) as Hposition.
    destruct (position_accepted frame).
    + rewrite Hposition. eexists. split; reflexivity.
    + destruct Hposition as (e & ->). by exists e.
  - eexists. split; [reflexivity|]. by destruct (_ && _).
Qed.

Lemma testMessageForTestError_without_frames (testItem : TestItem)
  (error : ErrorWithDiff) :
  default [] (err_stacks error) = [] ->
  exists message,
    testMessageForTestError testItem (Some error) = Ok message
    /\ msg_location message = None.
Proof.
  intros Hstacks. unfold testMessageForTestError. rewrite Hstacks. simpl.
  eexists. split; [reflexivity|]. by destruct (_ && _).
Qed.

Lemma testMessageForTestError_without_uri (testItem : TestItem)
  (error : ErrorWithDiff) :
  item_uri testItem = None ->
  default [] (err_stacks error) <> [] ->
  exists e, testMessageForTestError testItem (Some error) = Throw e.
Proof.
  intros Huri Hstacks.
  unfold testMessageForTestError, parseLocationFromStacks, uri_fsPath.
  rewrite Huri. destruct (default [] (err_stacks error)); [done|].
  eexists. reflexivity.
Qed.

(** [testMessageForTestError] returns a message exactly for the errors whose
    location the editor accepts. *)
Lemma testMessageForTestError_returns_iff (testItem : TestItem)
  (error : ErrorWithDiff) :
  (exists message, testMessageForTestError testItem (Some error) = Ok message)
  <-> locatable testItem (default [] (err_stacks error)).
Proof.
  split.
  - intros (message & Hok).
    destruct (default [] (err_stacks error)) as [|stack rest] eqn:Hstacks;
      [by left | right].
    destruct (item_uri testItem) as [target|] eqn:Huri.
    + destruct (parseLocationFromStacks_loop_first target (stack :: rest))
        as (found & Hfound & _).
      exists target, found. split; [reflexivity|]. split; [exact Hfound|].
      rewrite <- Hstacks in Hfound.
      pose proof (testMessageForTestError_located _ _ _ _ Huri Hfound) as Hcase.
      destruct found as [frame|]; [|reflexivity]. simpl.
      destruct (position_accepted frame); [reflexivity|].
      destruct Hcase as (e & He). congruence.
    + destruct (testMessageForTestError_without_uri testItem error Huri) as (e & He);
        [by rewrite Hstacks | congruence].
  - intros [Hstacks | (target & found & Huri & Hfound & Haccepted)].
    + destruct (testMessageForTestError_without_frames testItem error Hstacks)
        as (message & Hok & _). by exists message.
    + pose proof (testMessageForTestError_located _ _ _ _ Huri Hfound) as Hcase.
      destruct found as [frame|]; simpl in Haccepted.
      * rewrite Haccepted in Hcase. destruct Hcase as (message & Hok & _).
        by exists message.
      * destruct Hcase as (message & Hok & _). by exists message.
Qed.

(** C5: the location is that of the first frame, in the order of the list,
    whose file with the separators of the host is the file of the test item
    and whose line and column are not [NaN]; when no frame qualifies, as for
    the empty list, there is no location and the message gets none.  The
    message gets the location of the frame that is found, a line and a
    column lower, when the editor accepts that position; when the line or
    the column of the frame, less one, is negative, building the message
    raises and there is no message. *)
Theorem parseLocationFromStacks_first_qualifying_frame
  (testItem : TestItem) (target : string) (stacks : list ParsedStack) :
  item_uri testItem = Some target ->
  (forall anyItem, parseLocationFromStacks anyItem [] = Ok None)
  /\ exists found,
       first_qualifying target stacks found
       /\ parseLocationFromStacks testItem stacks
          = Ok (option_map (fun frame =>
                  mkDebuggerLocation target (stack_line frame) (stack_column frame))
                  found)
       /\ forall error,
            default [] (err_stacks error) = stacks ->
            match found with
            | None =>
                exists message,
                  testMessageForTestError testItem (Some error) = Ok message
                  /\ msg_location message = None
            | Some frame =>
                if position_accepted frame
                then exists message,
                       testMessageForTestError testItem (Some error) = Ok message
                       /\ msg_location message
                          = Some (mkLocation target (position_of frame))
                else exists e,
                       testMessageForTestError testItem (Some error) = Throw e
            end.
Proof.
  intros Huri. split; [reflexivity|].
  destruct (parseLocationFromStacks_loop_first target stacks) as (found & Hfound & _).
  exists found. split; [exact Hfound|].
  split; [by apply parseLocationFromStacks_of_first|].
  intros error Hstacks. rewrite <- Hstacks in Hfound.
  exact (testMessageForTestError_located _ _ _ _ Huri Hfound).
Qed.

Lemma loose_ne_null_present (v : JsValue) : loose_ne_null v = true <-> present v.
Proof. unfold present. destruct v; simpl; intuition congruence. Qed.

Lemma strict_ne_string_spec (v : JsValue) (s : string) :
  strict_ne_string v s = true <-> v <> JsString s.
Proof.
  destruct v as [| |s'| | |]; simpl; try (intuition congruence).
  destruct (String.eqb_spec s' s); simpl; intuition congruence.
Qed.

Lemma carries_diff_test (error : ErrorWithDiff) :
  loose_ne_null (err_actual error) && loose_ne_null (err_expected error)
  && strict_ne_string (err_actual error) "undefined"
  && strict_ne_string (err_expected error) "undefined" = true
  <-> carries_diff error.
Proof.
  unfold carries_diff.
  rewrite !andb_true_iff, !loose_ne_null_present, !strict_ne_string_spec.
  tauto.
Qed.

(** The text and the values of every message [testMessageForTestError]
    returns for an error. *)
Lemma testMessageForTestError_content (testItem : TestItem)
  (error : ErrorWithDiff) (message : TestMessage) :
  testMessageForTestError testItem (Some error) = Ok message ->
  msg_message message = stripAnsi (err_message error)
  /\ (carries_diff error ->
      msg_expectedOutput message = Some (err_expected error)
      /\ msg_actualOutput message = Some (err_actual error))
  /\ (~ carries_diff error ->
      msg_expectedOutput message = None /\ msg_actualOutput message = None).
Proof.
  unfold testMessageForTestError.
  pose proof (carries_diff_test error) as Htest.
  destruct (parseLocationFromStacks testItem (default [] (err_stacks error)))
    as [[location|]|e]; [| |discriminate].
  - destruct (Position_new _ _) as [position|e]; [|discriminate].
    destruct (loose_ne_null (err_actual error) && loose_ne_null (err_expected error)
              && strict_ne_string (err_actual error) "undefined"
              && strict_ne_string (err_expected error) "undefined");
      intros [= <-]; simpl; (split; [reflexivity|]); split; intros Hdiff; auto;
      solve [ exfalso; apply Hdiff, Htest; reflexivity
            | apply Htest in Hdiff; discriminate ].
  - destruct (loose_ne_null (err_actual error) && loose_ne_null (err_expected error)
              && strict_ne_string (err_actual error) "undefined"
              && strict_ne_string (err_expected error) "undefined");
      intros [= <-]; simpl; (split; [reflexivity|]); split; intros Hdiff; auto;
      solve [ exfalso; apply Hdiff, Htest; reflexivity
            | apply Htest in Hdiff; discriminate ].
Qed.

(** C4: for the error of a failed leaf task, when the actual and the
    expected value are both present and neither is the token ["undefined"],
    the message is a diff message made of the error text without its ANSI
    sequences, the expected and the actual value; otherwise it is a plain
    message made of that text.  There is such a message exactly when the
    error has no stack frame, or the test item has a uri and the editor
    accepts the position of the first qualifying frame, if there is one;
    otherwise building the message raises. *)
Theorem testMessageForTestError_diff_or_plain
  (testItem : TestItem) (error : ErrorWithDiff) :
  ((exists message, testMessageForTestError testItem (Some error) = Ok message)
   <-> locatable testItem (default [] (err_stacks error)))
  /\ forall message,
       testMessageForTestError testItem (Some error) = Ok message ->
       msg_message message = stripAnsi (err_message error)
       /\ (carries_diff error ->
           msg_expectedOutput message = Some (err_expected error)
           /\ msg_actualOutput message = Some (err_actual error))
       /\ (~ carries_diff error ->
           msg_expectedOutput message = None /\ msg_actualOutput message = None).
Proof.
  split; [apply testMessageForTestError_returns_iff|].
  apply testMessageForTestError_content.
Qed.

End ErrorMessages.

(** The third frame of the sample stack is the first one that qualifies for
    a test item of [target] when the first two are of another file or have
    no line. *)
Lemma sample_stacks_first_qualifying `{Host} (target : string) :
  replace_all_char "/"%char path_sep "/ws/node_modules/chai/index.js" <> target ->
  replace_all_char "/"%char path_sep "/ws/a.test.ts" = target ->
  first_qualifying target Sample.sample_stacks
    (Some (mkParsedStack "/ws/a.test.ts" 10%float 5%float)).
Proof.
  intros Hother Hfile.
  exists [mkParsedStack "/ws/node_modules/chai/index.js" 3%float 1%float;
          mkParsedStack "/ws/a.test.ts" PrimFloat.nan 7%float],
         [mkParsedStack "/ws/a.test.ts" 20%float 9%float].
  split; [reflexivity|]. split.
  - constructor; [by intros (Hq & _)|].
    constructor; [|constructor]. intros (_ & Hnan & _). discriminate Hnan.
  - split; [exact Hfile|]. split; reflexivity.
Qed.

Lemma parseLocationFromStacks_first_qualifying_frame_witness :
  exists message,
    @testMessageForTestError Sample.win32 Sample.win32_item (Some Sample.sample_error) = Ok message
    /\ msg_location message
       = Some (mkLocation Sample.win32_path (mkPosition 9%float 4%float)).
Proof.
  destruct (@parseLocationFromStacks_first_qualifying_frame Sample.win32
              Sample.win32_item Sample.win32_path Sample.sample_stacks eq_refl)
    as (_ & found & _ & Hparse & Hmessage).
  specialize (Hmessage Sample.sample_error eq_refl).
  destruct found as [[file frame_line frame_column]|]; [|discriminate Hparse].
  cbv in Hparse. injection Hparse as Hline Hcolumn.
  subst frame_line frame_column. exact Hmessage.
Defined.

Lemma testMessageForTestError_diff_or_plain_witness :
  exists message,
    @testMessageForTestError Sample.host Sample.case_adds (Some Sample.sample_error)
    = Ok message
    /\ msg_message message = "expected 2 to be 3"
    /\ msg_expectedOutput message = Some (JsString "3")
    /\ msg_actualOutput message = Some (JsString "2").
Proof.
  destruct (@testMessageForTestError_diff_or_plain Sample.host Sample.case_adds
              Sample.sample_error) as (Hreturns & Hcontent).
  destruct (proj2 Hreturns) as (message & Hok).
  { right. exists "/ws/a.test.ts", (Some (mkParsedStack "/ws/a.test.ts" 10%float 5%float)).
    split; [reflexivity|]. split; [|reflexivity].
    by apply (@sample_stacks_first_qualifying Sample.host). }
  destruct (Hcontent message Hok) as (Htext & Hdiff & _).
  exists message. split; [exact Hok|]. split; [exact Htext|].
  apply Hdiff. repeat split; discriminate.
Defined.

(** ** Results of suites *)

Section SuiteResults.
Context {H : Host} {C : Collaborators}.

(** What [markResult] does with a failed result when it is given the task
    and the task is a suite. *)
Lemma markResult_suite_fail (testRun : TestRun) (test : TestItem)
  (result : TaskResult) (task : Task) (s : St) :
  res_state result = StFail ->
  task_type task = TySuite ->
  markResult testRun test (Some result) (Some task) s
  = match res_errors result with
    | None => (Ok tt, s)
    | Some errs =>
        let errors := map (fun err => TestMessage_new (stack_or_message err)) errs in
        (Ok tt,
         set_calls
           (calls s ++ [Errored testRun test errors (res_duration result)])
           (set_itemError
              (<[item_id test := Array_join (String LF EmptyString)
                                   (map stack_or_message errs)]> (itemError s)) s))
    end.
Proof.
  intros Hstate Htype. unfold markResult, is_suite. rewrite Hstate, Htype.
  destruct (res_errors result) as [errs|]; [|reflexivity].
  unfold bind, modify, emit, modify; simpl.
  by rewrite map_map.
Qed.

(** C9: a failed result of a suite that carries no list of errors leads to
    no call at all, neither [errored] nor [failed], and the error text of the
    item stays as it was. *)
Theorem markResult_suite_fail_without_errors (testRun : TestRun)
  (test : TestItem) (result : TaskResult) (task : Task) (s : St) :
  res_state result = StFail ->
  res_errors result = None ->
  task_type task = TySuite ->
  markResult testRun test (Some result) (Some task) s = (Ok tt, s)
  /\ calls (snd (markResult testRun test (Some result) (Some task) s)) = calls s
  /\ itemError (snd (markResult testRun test (Some result) (Some task) s)) !! item_id test
     = itemError s !! item_id test.
Proof.
  intros Hstate Herrors Htype.
  rewrite (markResult_suite_fail _ _ _ _ _ Hstate Htype), Herrors. done.
Qed.

(** C1, as the code has it: a failed result that a collected event delivers
    for a suite never leads to [failed]; when it carries a list of errors,
    their texts joined by line feeds become the error text of the item and
    [errored] is reported with one message per error; when it carries none,
    nothing is reported. *)
Theorem onCollected_task_suite_fail (task : Task) (data : TestItem)
  (testRun : TestRun) (result : TaskResult) (s : St) :
  getTestRunByData s (getTestData data) = Some testRun ->
  task_mode task = MRun \/ task_mode task = MOnly ->
  task_type task = TySuite ->
  task_result task = Some result ->
  res_state result = StFail ->
  exists s' new,
    onCollected_task task data s = (Ok tt, s')
    /\ calls s' = calls s ++ new
    /\ Forall (fun c => is_Failed c = false) new
    /\ (forall errs,
          res_errors result = Some errs ->
          new = [Errored testRun data
                   (map (fun err => TestMessage_new (stack_or_message err)) errs)
                   (res_duration result)]
          /\ itemError s' !! item_id data
             = Some (Array_join (String LF EmptyString) (map stack_or_message errs)))
    /\ (res_errors result = None -> new = [] /\ s' = s).
Proof.
  intros Hrun Hmode Htype Hresult Hstate.
  assert (Hstep : onCollected_task task data s
                  = markResult testRun data (Some result) (Some task) s).
  { unfold onCollected_task, bind, get. rewrite Hrun, Hresult.
    by destruct Hmode as [-> | ->]. }
  rewrite Hstep, (markResult_suite_fail _ _ _ _ _ Hstate Htype).
  destruct (res_errors result) as [errs|].
  - eexists _, _. split; [reflexivity|]. split; [reflexivity|].
    split; [by repeat constructor|]. split; [|done].
    intros ? [= <-]. split; [reflexivity|]. simpl. apply lookup_insert_eq.
  - exists s, []. split; [reflexivity|]. split; [by rewrite app_nil_r|].
    split; [constructor|]. split; [done|]. done.
Qed.

End SuiteResults.

Lemma markResult_suite_fail_without_errors_witness :
  @markResult Sample.host Sample.collaborators Sample.run_a Sample.suite_math
    (Some Sample.failed_without_errors)
    (Some (Sample.task_suite_math Sample.failed_without_errors)) Sample.running_a
  = (Ok tt, Sample.running_a).
Proof.
  exact (proj1 (@markResult_suite_fail_without_errors Sample.host
                  Sample.collaborators Sample.run_a Sample.suite_math
                  Sample.failed_without_errors
                  (Sample.task_suite_math Sample.failed_without_errors)
                  Sample.running_a eq_refl eq_refl eq_refl)).
Defined.

Lemma onCollected_task_suite_fail_witness :
  exists s',
    @onCollected_task Sample.host Sample.collaborators
      (Sample.task_suite_math Sample.failed_with_errors) Sample.suite_math
      Sample.running_a = (Ok tt, s')
    /\ calls s'
       = [Errored Sample.run_a Sample.suite_math [TestMessage_new "hook failed"]
            (Some (Num 12))]
    /\ itemError s' !! "/ws/a.test.ts/math" = Some "hook failed".
Proof.
  destruct (@onCollected_task_suite_fail Sample.host Sample.collaborators
              (Sample.task_suite_math Sample.failed_with_errors) Sample.suite_math
              Sample.run_a Sample.failed_with_errors Sample.running_a
              eq_refl (or_introl eq_refl) eq_refl eq_refl eq_refl)
    as (s' & new & Hstep & Hcalls & _ & Herrors & _).
  destruct (Herrors _ eq_refl) as [Hnew Htext].
  exists s'. split; [exact Hstep|]. split; [|exact Htext].
  rewrite Hcalls, Hnew. reflexivity.
Defined.

(** The claim C1 does not hold as it is stated: a collected event that
    delivers, for a suite, a failed result without a list of errors leads to
    no [errored]; nothing is reported and no error text is attached. *)
Lemma onCollected_suite_fail_without_errors_reports_nothing :
  task_type (Sample.task_suite_math Sample.failed_without_errors) = TySuite
  /\ res_state Sample.failed_without_errors = StFail
  /\ @onCollected Sample.host Sample.collaborators
       (Some [Sample.task_suite_math Sample.failed_without_errors]) false
       Sample.running_a
     = (Ok tt, Sample.running_a)
  /\ List.filter is_Errored (calls Sample.running_a) = []
  /\ itemError Sample.running_a !! "/ws/a.test.ts/math" = None.
Proof. repeat split. Qed.

(** The handler of task updates calls [markResult] without the task, so the
    same result for the same suite is reported as [failed] there. *)
Lemma onTaskUpdate_suite_fail_reports_failed :
  calls (snd (@onTaskUpdate Sample.host Sample.collaborators
                [("suite-math", Some Sample.failed_with_errors)] Sample.running_a))
  = [Failed Sample.run_a Sample.suite_math [TestMessage_new "hook failed"]
       (Some (Num 12))].
Proof. reflexivity. Qed.

(** ** The marker of the one-shot request *)

Section OneShotRequest.
Context {H : Host} {C : Collaborators}.


(** Runs the statements up to an awaited call and settles the call as the
    hypothesis [Hawait] says. *)
Ltac settle_await Hawait :=
  unfold bind, modify, emit, log_info, await_api_call, bind, emit, modify, liftR;
  simpl; rewrite Hawait; done.

(** X26: [runTests] sets the marker of the one-shot request before the
    execution call; when the call returns the marker is cleared; when the
    call fails, the failure reaches the caller and the marker is left as the
    call left it. *)
Theorem runTests_marker_after_execution_call (request : TestRunRequest)
  (token : nat) (files : list string) (s : St) :
  req_continuous request = false ->
  getTestFiles (default [] (req_include request)) = Ok files ->
  exists before logged,
    simpleTestRunRequest before = Some request
    /\ calls before
       = calls s ++ [OnCancellationRequested token CancelRunTests;
                     Log LogInfo logged; Api (execution_call request files)]
    /\ (forall after,
          await_api (execution_call request files) before = (Ok tt, after) ->
          runTests request token s = (Ok tt, set_simpleTestRunRequest None after)
          /\ simpleTestRunRequest (snd (runTests request token s)) = None)
    /\ (forall e after,
          await_api (execution_call request files) before = (Throw e, after) ->
          runTests request token s = (Throw e, after)).
Proof.
  intros Hcontinuous Hfiles.
  unfold runTests, execution_call. rewrite Hcontinuous.
  destruct (default [] (req_include request)) as [|test tests] eqn:Htests;
    [|rewrite Hfiles; destruct (truthy_pattern (formatTestPattern (test :: tests)))];
    (eexists _, _;
     (split; [|split; [|split]]);
     [ | | intros after Hawait; settle_await Hawait
         | intros e after Hawait; settle_await Hawait ]);
    try reflexivity;
    simpl; by rewrite <- !app_assoc.
Qed.

End OneShotRequest.

Lemma runTests_marker_after_execution_call_witness :
  simpleTestRunRequest
    (snd (@runTests Sample.host Sample.collaborators Sample.request_b 7
            Sample.initial)) = None.
Proof.
  destruct (@runTests_marker_after_execution_call Sample.host Sample.collaborators
              Sample.request_b 7 ["/ws/b.test.ts"] Sample.initial eq_refl eq_refl)
    as (before & logged & _ & _ & Hsuccess & _).
  exact (proj2 (Hsuccess before eq_refl)).
Defined.

(** When the execution call fails, [runTests] ends with that failure and the
    marker still holds the request. *)
Lemma runTests_failed_call_leaves_marker :
  req_continuous Sample.request_all = false
  /\ fst (@runTests Sample.host Sample.failing Sample.request_all 7 Sample.initial)
     = Throw (Error "connection closed")
  /\ simpleTestRunRequest
       (snd (@runTests Sample.host Sample.failing Sample.request_all 7
               Sample.initial))
     = Some Sample.request_all.
Proof. repeat split. Qed.

(** C3 fails on the code: a call of [runTests] whose execution call fails
    passes the failure on and leaves the marker holding its request, whereas
    a call that returns clears the marker, as the cancellation of the run
    does.  The marker that is left goes before the registrations of the
    watcher in [startTestRun]: with a registration that watches everything
    active, the rerun of a file the stale request leaves out creates no run,
    where the same rerun after a call that returned creates one. *)
Theorem runTests_failed_call_keeps_stale_marker :
  let failed := @runTests Sample.host Sample.failing Sample.request_b 7
                  Sample.watching_all in
  let returned := @runTests Sample.host Sample.collaborators Sample.request_b 7
                    Sample.watching_all in
  let rerun := @onWatcherRerun Sample.host Sample.collaborators 8
                 ["/ws/a.test.ts"] false in
  req_continuous Sample.request_b = false
  /\ fst failed = Throw (Error "connection closed")
  /\ simpleTestRunRequest (snd failed) = Some Sample.request_b
  /\ fst returned = Ok tt
  /\ simpleTestRunRequest (snd returned) = None
  /\ simpleTestRunRequest
       (snd (@onCancellationRequested Sample.collaborators CancelRunTests
               (snd failed))) = None
  /\ continuousRequests (snd failed) = [Sample.watch_all]
  /\ List.filter is_CreateTestRun (calls (snd (rerun (snd failed)))) = []
  /\ testRunsByFile (snd (rerun (snd failed))) !! "/ws/a.test.ts" = None
  /\ List.filter is_CreateTestRun (calls (snd (rerun (snd returned))))
     = [CreateTestRun (mkTestRun 100 Sample.watch_all "ws/a.test.ts")]
  /\ testRunsByFile (snd (rerun (snd returned))) !! "/ws/a.test.ts"
     = Some (mkTestRun 100 Sample.watch_all "ws/a.test.ts").
Proof. repeat split. Qed.

(** ** The filter of the watcher *)

Section Watch.
Context {H : Host} {C : Collaborators}.

(** A request with an inclusion filter starts a filtered watch of the items
    of all registrations; a registration without a filter adds nothing to
    them. *)
Lemma watchContinuousTests_filtered (request : TestRunRequest) (token : nat)
  (files : list string) (s : St) :
  no_include request = false ->
  getTestFiles
    (flat_map (fun r => default [] (req_include r))
       (Set_add request (continuousRequests s))) = Ok files ->
  exists before,
    calls before
    = calls s ++ [OnCancellationRequested token (CancelWatch request);
                  Api (WatchTests (Some files)
                         (formatTestPattern
                            (flat_map (fun r => default [] (req_include r))
                               (Set_add request (continuousRequests s)))))]
    /\ continuousRequests before = Set_add request (continuousRequests s)
    /\ watchContinuousTests request token s
       = await_api
           (WatchTests (Some files)
              (formatTestPattern
                 (flat_map (fun r => default [] (req_include r))
                    (Set_add request (continuousRequests s))))) before.
Proof.
  intros Hfilter Hfiles.
  unfold watchContinuousTests. rewrite Hfilter.
  unfold bind, modify, emit, modify, get, liftR, await_api_call, bind, emit, modify.
  simpl. rewrite Hfiles.
  eexists. split; [|split; [|reflexivity]]; simpl; [|reflexivity].
  by rewrite <- app_assoc.
Qed.

Lemma createContinuousRequest_loop_unfiltered (requests : list TestRunRequest) :
  forall include primaryRequest,
    Exists (fun r => no_include r = true) requests ->
    exists r,
      createContinuousRequest_loop requests include primaryRequest = inl r
      /\ r ∈ requests /\ no_include r = true.
Proof.
  induction requests as [|request requests IH]; intros include primaryRequest Hex;
    [by inversion Hex|].
  cbn [createContinuousRequest_loop].
  destruct (req_include request) as [[|item items]|] eqn:Hinclude.
  - exists request. split; [done|]. split; [left|]. unfold no_include. by rewrite Hinclude.
  - assert (Hrest : Exists (fun r => no_include r = true) requests).
    { inversion Hex as [? ? Hr | ]; [|done].
      unfold no_include in Hr. rewrite Hinclude in Hr. discriminate. }
    destruct (IH (include ++ item :: items)
                (match primaryRequest with None => Some request | Some p => Some p end)
                Hrest) as (r & Hloop & Hin & Hr).
    exists r. split; [exact Hloop|]. split; [by right | exact Hr].
  - exists request. split; [done|]. split; [left|]. unfold no_include. by rewrite Hinclude.
Qed.

(** [createContinuousRequest] answers with a registration that has no
    inclusion filter whenever there is one. *)
Lemma createContinuousRequest_unfiltered (s : St) :
  Exists (fun r => no_include r = true) (continuousRequests s) ->
  exists r,
    createContinuousRequest s = (Ok (Some r), s)
    /\ r ∈ continuousRequests s /\ no_include r = true.
Proof.
  intros Hex.
  destruct (createContinuousRequest_loop_unfiltered _ [] None Hex) as (r & Hloop & Hin & Hr).
  exists r. split; [|by split].
  unfold createContinuousRequest, bind, get.
  destruct (continuousRequests s) as [|request requests] eqn:Hrequests;
    [by inversion Hex|].
  by rewrite Hloop.
Qed.

End Watch.

(** C2 fails on the code: with a registration that watches everything
    active, registering a request with an inclusion filter starts a filtered
    watch of the files of that filter, although [createContinuousRequest]
    still answers with the unfiltered request. *)
Theorem watchContinuousTests_filters_despite_unfiltered_registration :
  let s1 := snd (@watchContinuousTests Sample.host Sample.collaborators
                   Sample.watch_all 1 Sample.initial) in
  let s2 := snd (@watchContinuousTests Sample.host Sample.collaborators
                   Sample.watch_subtracts 2 s1) in
  continuousRequests s2 = [Sample.watch_all; Sample.watch_subtracts]
  /\ no_include Sample.watch_all = true
  /\ calls s2
     = [OnCancellationRequested 1 (CancelWatch Sample.watch_all);
        Api (WatchTests None None);
        OnCancellationRequested 2 (CancelWatch Sample.watch_subtracts);
        Api (WatchTests (Some ["/ws/b.test.ts"]) (Some "subtracts numbers"))]
  /\ fst (@createContinuousRequest Sample.collaborators s2)
     = Ok (Some Sample.watch_all).
Proof. repeat split. Qed.

(** ** Starting a run *)

Section StartRun.
Context {H : Host} {C : Collaborators}.

Lemma forEach_emit (cs : list Call) (s : St) :
  forEach cs emit s = (Ok tt, set_calls (calls s ++ cs) s).
Proof.
  revert s; induction cs as [|c cs IH]; intros s.
  - simpl. unfold ret. rewrite app_nil_r. by destruct s.
  - cbn [forEach]. unfold bind at 1. unfold emit at 1, modify.
    rewrite IH. simpl. by rewrite <- app_assoc.
Qed.

Lemma enqueue_creates_no_run (run : TestRun) :
  forall test, List.filter is_CreateTestRun (enqueue run test) = [].
Proof.
  fix IH 1. intros [id label uri data children]. simpl.
  induction children as [|child rest IHrest]; simpl; [reflexivity|].
  by rewrite List.filter_app, IH, IHrest.
Qed.

Lemma enqueue_all_creates_no_run (run : TestRun) (tests : list TestItem) :
  List.filter is_CreateTestRun (flat_map (enqueue run) tests) = [].
Proof.
  induction tests as [|test tests IH]; simpl; [reflexivity|].
  by rewrite List.filter_app, enqueue_creates_no_run, IH.
Qed.


Lemma excluded_reaches (request : TestRunRequest) (file : string) :
  excluded request file = false <-> reaches request file.
Proof.
  unfold excluded, reaches. destruct (req_include request); [|done].
  by destruct (isFileIncluded file l).
Qed.


Lemma startTestRun_file_run (request : TestRunRequest) (file : string) (s : St) :
  startTestRun_file request file s
  = (Ok tt,
     if excluded request file then s
     else match testRunsByFile s !! file with
          | Some _ => s
          | None => started request file s
          end).
Proof.
  unfold startTestRun_file, bind at 1, get.
  fold (excluded request file).
  destruct (excluded request file); [reflexivity|].
  destruct (testRunsByFile s !! file); [reflexivity|].
  unfold bind, modify, emit, modify, get; simpl.
  rewrite forEach_emit. unfold started; simpl.
  by rewrite <- app_assoc.
Qed.

Lemma startTestRun_of_file (depth : nat) (file : string)
  (request : TestRunRequest) (s : St) :
  is_folder_path file = false ->
  startTestRun (S depth) [file] (Some request) s
  = (Ok tt, snd (startTestRun_file request file s)).
Proof.
  intros Hfile. cbn [startTestRun forEach].
  unfold bind, get, ret. rewrite Hfile, startTestRun_file_run. reflexivity.
Qed.

(** C7, as the code has it: for a path that is a file, the second start
    with the same file and request changes nothing, so the two starts create
    at most one run; they leave a registered run for the file when the
    request reaches the file, and leave the registry as it was when it does
    not. *)
Theorem startTestRun_twice_is_once (depth : nat) (file : string)
  (request : TestRunRequest) (s : St) :
  is_folder_path file = false ->
  let once := startTestRun (S depth) [file] (Some request) s in
  let twice := startTestRun (S depth) [file] (Some request) (snd once) in
  fst once = Ok tt
  /\ twice = (Ok tt, snd once)
  /\ (exists new,
        calls (snd twice) = calls s ++ new
        /\ length (List.filter is_CreateTestRun new) <= 1)
  /\ (reaches request file -> is_Some (testRunsByFile (snd twice) !! file))
  /\ (~ reaches request file -> testRunsByFile (snd twice) = testRunsByFile s).
Proof.
  intros Hfile once twice. subst once twice.
  rewrite !(startTestRun_of_file _ _ _ _ Hfile), !startTestRun_file_run.
  cbn [fst snd].
  pose proof (excluded_reaches request file) as Hreach.
  destruct (excluded request file) eqn:Hexcluded.
  - split; [done|]. split; [done|]. split.
    + exists []. split; [by rewrite app_nil_r | simpl; lia].
    + split; [intros Hr; apply Hreach in Hr; discriminate | done].
  - destruct (testRunsByFile s !! file) as [run|] eqn:Hrun.
    + cbn [snd]. rewrite Hrun. split; [done|]. split; [done|]. split.
      * exists []. split; [by rewrite app_nil_r | simpl; lia].
      * split; [by rewrite Hrun | intros Hn; exfalso; apply Hn, Hreach; done].
    + assert (Hstarted : testRunsByFile (started request file s) !! file
                         = Some {| run_id := nextRef s; run_request := request;
                                   run_name := basename (dirname file) +:+ path_sep
                                               +:+ basename file |}).
      { unfold started; simpl. apply lookup_insert_eq. }
      cbn [snd]. rewrite Hstarted. split; [done|]. split; [done|]. split.
      * eexists. split; [reflexivity|].
        simpl. rewrite enqueue_all_creates_no_run. simpl; lia.
      * split; [by rewrite Hstarted | intros Hn; exfalso; apply Hn, Hreach; done].
Qed.

(** The loop of [startTestRun] over paths that are files. *)
Lemma startTestRun_of_files (depth : nat) (files : list string)
  (request : TestRunRequest) (s : St) :
  Forall (fun file => is_folder_path file = false) files ->
  startTestRun (S depth) files (Some request) s
  = forEach files (startTestRun_file request) s.
Proof.
  intros Hfiles. cbn [startTestRun]. unfold bind at 1, get, bind at 1, ret.
  revert s. induction Hfiles as [|file files Hfile _ IH]; intros s; [reflexivity|].
  cbn [forEach]. unfold bind. rewrite Hfile.
  destruct (startTestRun_file request file s) as [[[]|e] s1]; [apply IH | reflexivity].
Qed.

Lemma startTestRun_files_covered (request : TestRunRequest) (files : list string) :
  forall s,
    fst (forEach files (startTestRun_file request) s) = Ok tt
    /\ testRunsByFile s ⊆ testRunsByFile (snd (forEach files (startTestRun_file request) s))
    /\ Forall (fun file =>
         excluded request file = true
         \/ is_Some (testRunsByFile
                       (snd (forEach files (startTestRun_file request) s)) !! file))
         files.
Proof.
  induction files as [|file files IH]; intros s; [by repeat split|].
  cbn [forEach]. unfold bind. rewrite startTestRun_file_run.
  set (s1 := if excluded request file then s
             else match testRunsByFile s !! file with
                  | Some _ => s
                  | None => started request file s
                  end).
  assert (Hs1 : testRunsByFile s ⊆ testRunsByFile s1
                /\ (excluded request file = true \/ is_Some (testRunsByFile s1 !! file))).
  { subst s1. destruct (excluded request file); [by split; [|left]|].
    destruct (testRunsByFile s !! file) eqn:Hfile.
    - split; [done|]. right. by rewrite Hfile.
    - split; [by apply insert_subseteq|].
      right. unfold started; simpl. rewrite lookup_insert_eq. done. }
  destruct Hs1 as [Hsub Hfile].
  destruct (IH s1) as (Hok & Hsub' & Hcovered).
  split; [exact Hok|]. split; [by etrans|].
  constructor; [|exact Hcovered].
  destruct Hfile as [Hfile | Hfile]; [by left | right].
  destruct Hfile as [run Hrun]. exists run. by eapply lookup_weaken.
Qed.

Lemma startTestRun_files_again (request : TestRunRequest) (files : list string)
  (s : St) :
  Forall (fun file =>
    excluded request file = true \/ is_Some (testRunsByFile s !! file)) files ->
  forEach files (startTestRun_file request) s = (Ok tt, s).
Proof.
  induction 1 as [|file files Hfile _ IH]; [reflexivity|].
  cbn [forEach]. unfold bind. rewrite startTestRun_file_run.
  destruct Hfile as [-> | [run ->]]; [exact IH|].
  by destruct (excluded request file).
Qed.

(** Starting the runs of a list of files a second time changes nothing. *)
Lemma startTestRun_files_twice (depth : nat) (files : list string)
  (request : TestRunRequest) (s : St) :
  Forall (fun file => is_folder_path file = false) files ->
  startTestRun (S depth) files (Some request)
    (snd (startTestRun (S depth) files (Some request) s))
  = (Ok tt, snd (startTestRun (S depth) files (Some request) s)).
Proof.
  intros Hfiles. rewrite !(startTestRun_of_files _ _ _ _ Hfiles).
  apply startTestRun_files_again.
  apply (startTestRun_files_covered request files s).
Qed.

End StartRun.

Lemma startTestRun_twice_is_once_witness :
  is_Some
    (testRunsByFile
       (snd (@startTestRun Sample.host Sample.collaborators 1 ["/ws/b.test.ts"]
               (Some Sample.request_b)
               (snd (@startTestRun Sample.host Sample.collaborators 1
                       ["/ws/b.test.ts"] (Some Sample.request_b) Sample.initial))))
     !! "/ws/b.test.ts").
Proof.
  destruct (@startTestRun_twice_is_once Sample.host Sample.collaborators 0
              "/ws/b.test.ts" Sample.request_b Sample.initial eq_refl)
    as (_ & _ & _ & Hreached & _).
  apply Hreached. reflexivity.
Defined.

(** The claim C7 does not hold as it is stated: a request whose inclusion
    filter does not include the file starts no run for it, so two starts
    leave no registered run for that file. *)
Lemma startTestRun_twice_excluded_file_has_no_run :
  is_folder_path "/ws/a.test.ts" = false
  /\ testRunsByFile
       (snd (@startTestRun Sample.host Sample.collaborators 1 ["/ws/a.test.ts"]
               (Some Sample.request_b)
               (snd (@startTestRun Sample.host Sample.collaborators 1
                       ["/ws/a.test.ts"] (Some Sample.request_b) Sample.initial))))
     !! "/ws/a.test.ts" = None.
Proof. split; reflexivity. Qed.

(** ** Finished events *)


Section Finished.
Context {H : Host} {C : Collaborators}.



Lemma forEach_app {A : Type} (l1 l2 : list A) (f : A -> M unit) (s : St) :
  forEach (l1 ++ l2) f s
  = match forEach l1 f s with
    | (Ok _, s1) => forEach l2 f s1
    | (Throw e, s1) => (Throw e, s1)
    end.
Proof.
  revert s; induction l1 as [|x l1 IH]; intros s; [reflexivity|].
  cbn [app forEach]. unfold bind.
  destruct (f x s) as [[[]|e] s1]; [apply IH | reflexivity].
Qed.

Lemma forEach_invariant {A : Type} (P : St -> Prop) (l : list A) (f : A -> M unit) :
  (forall x s, x ∈ l -> P s -> P (snd (f x s))) ->
  forall s, P s -> P (snd (forEach l f s)).
Proof.
  induction l as [|x l IH]; intros Hstep s Hs; [exact Hs|].
  cbn [forEach]. unfold bind.
  pose proof (Hstep x s (list_elem_of_here x l) Hs) as Hx.
  destruct (f x s) as [[[]|e] s1]; [|exact Hx].
  apply IH; [|exact Hx].
  intros y s' Hy. apply Hstep. by apply list_elem_of_further.
Qed.

Lemma markResult_frame (testRun : TestRun) (test : TestItem)
  (result : option TaskResult) (task : option Task) (s : St) :
  let s' := snd (markResult testRun test result task s) in
  tree s' = tree s /\ testRunsByFile s' = testRunsByFile s
  /\ testRunData s' = testRunData s
  /\ exists new, calls s' = calls s ++ new /\ Forall (fun c => is_End c = false) new.
Proof.
  assert (Hsame : tree s = tree s /\ testRunsByFile s = testRunsByFile s
    /\ testRunData s = testRunData s
    /\ exists new, calls s = calls s ++ new /\ Forall (fun c => is_End c = false) new).
  { repeat split. exists []. by rewrite app_nil_r. }
  assert (Hemit : forall c, is_End c = false ->
    let s' := snd (emit c s) in
    tree s' = tree s /\ testRunsByFile s' = testRunsByFile s
    /\ testRunData s' = testRunData s
    /\ exists new, calls s' = calls s ++ new /\ Forall (fun c => is_End c = false) new).
  { intros c Hc. repeat split. exists [c]. split; [reflexivity | by constructor]. }
  unfold markResult.
  destruct result as [result|]; [|by apply Hemit].
  destruct (res_state result); try (by apply Hemit).
  destruct (is_suite task).
  - destruct (res_errors result) as [errs|]; [|exact Hsame].
    repeat split. eexists. split; [reflexivity | by constructor].
  - unfold bind, liftR.
    destruct (map_result _ _) as [errors|e]; [by apply Hemit | exact Hsame].
Qed.

Lemma onFinished_file_unresolved (file : Task) (s : St) :
  getTestDataByTask (tree s) file = None ->
  onFinished_file file s = (Ok tt, s).
Proof. intros Hdata. unfold onFinished_file, bind, get. by rewrite Hdata. Qed.

Lemma onFinished_file_tree (file : Task) (s : St) :
  tree (snd (onFinished_file file s)) = tree s.
Proof.
  unfold onFinished_file, bind at 1, get.
  destruct (getTestDataByTask (tree s) file) as [data|]; [|reflexivity].
  destruct (getTestRunByData s (getTestData data)) as [testRun|]; [|reflexivity].
  unfold bind.
  pose proof (markResult_frame testRun data (task_result file) (Some file) s)
    as (Htree & _).
  destruct (markResult testRun data (task_result file) (Some file) s) as [[[]|e] s1];
    simpl in *; [|exact Htree].
  unfold fire_and_forget, endTestRun, bind, get; simpl.
  destruct (testRunData s1 !! run_id testRun); simpl; exact Htree.
Qed.

Lemma onFinished_runs_forEach (files : list Task) (s0 : St) :
  onFinished (Some files) s0
  = forEach files onFinished_file (coverage_reported files s0).
Proof.
  unfold onFinished, coverage_reported, bind at 1, try_catch; simpl.
  destruct (reportCoverage files s0) as [[[]|e] s1]; reflexivity.
Qed.


Lemma onFinished_file_keeps_run (s : St) (path : string) (run : TestRun)
  (file : Task) (s' : St) :
  registry_consistent s ->
  testRunsByFile s !! path = Some run ->
  (forall data, getTestDataByTask (tree s) file = Some data ->
                getTestRunByData s (getTestData data) <> Some run) ->
  run_kept s path run s' ->
  run_kept s path run (snd (onFinished_file file s')).
Proof.
  intros Hconsistent Hrun Hother (Htree & Hdata & Hsub & Hkept & new & Hcalls & Hnew).
  unfold onFinished_file, bind at 1, get. rewrite Htree.
  destruct (getTestDataByTask (tree s) file) as [data|] eqn:Hresolved;
    [|by repeat split; eauto].
  destruct (getTestRunByData s' (getTestData data)) as [testRun|] eqn:Hfound;
    [|by repeat split; eauto].
  assert (Hkey : exists key,
    testRunsByFile s' !! key = Some testRun
    /\ getTestRunByData s (getTestData data) = testRunsByFile s !! key).
  { unfold getTestRunByData in *. destruct (getTestData data); [done|eauto..]. }
  destruct Hkey as (key & Hkey' & Hkey).
  assert (Hkeys : testRunsByFile s !! key = Some testRun).
  { by eapply lookup_weaken. }
  assert (Hne : key <> path /\ testRun <> run).
  { specialize (Hother data eq_refl). rewrite Hkey, Hkeys in Hother.
    split; [intros -> | intros ->]; congruence. }
  destruct Hne as [Hpath Hdiff].
  destruct (Hconsistent key testRun Hkeys) as (rd & Hrd & Hfile).
  unfold bind.
  pose proof (markResult_frame testRun data (task_result file) (Some file) s')
    as (Htree1 & Hruns1 & Hdata1 & new1 & Hcalls1 & Hnew1).
  destruct (markResult testRun data (task_result file) (Some file) s') as [[[]|e] s1];
    simpl in *.
  - unfold fire_and_forget, endTestRun, bind, get; simpl.
    rewrite Hdata1, Hdata, Hrd. simpl.
    unfold run_kept; simpl.
    split; [congruence|]. split; [congruence|]. split; [|split].
    + rewrite Hruns1. etrans; [apply delete_subseteq | exact Hsub].
    + rewrite Hfile, lookup_delete_ne by done. by rewrite Hruns1.
    + exists (new ++ new1 ++ [End testRun]). split.
      * rewrite Hcalls1, Hcalls. by rewrite <- !app_assoc.
      * rewrite !elem_of_app. intros [Hin | [Hin | Hin]]; [done| |].
        -- eapply Forall_forall in Hnew1; [|exact Hin]. discriminate.
        -- apply list_elem_of_singleton in Hin. congruence.
  - unfold run_kept; simpl.
    split; [congruence|]. split; [congruence|]. split; [|split].
    + by rewrite Hruns1.
    + by rewrite Hruns1.
    + exists (new ++ new1). split.
      * rewrite Hcalls1, Hcalls. by rewrite <- !app_assoc.
      * rewrite elem_of_app. intros [Hin | Hin]; [done|].
        eapply Forall_forall in Hnew1; [|exact Hin]. discriminate.
Qed.

Lemma registered_once (s : St) (key path : string) (run : TestRun) :
  registry_consistent s ->
  testRunsByFile s !! key = Some run ->
  testRunsByFile s !! path = Some run ->
  key = path.
Proof.
  intros Hconsistent Hkey Hpath.
  destruct (Hconsistent key run Hkey) as (rd & Hrd & <-).
  destruct (Hconsistent path run Hpath) as (rd' & Hrd' & <-).
  congruence.
Qed.

(** One file of the loop of [onFinished]: the run is tracked on, the
    registry does not grow, and a file that resolves to the run leaves it
    unregistered when it is handled without a failure. *)
Lemma onFinished_file_tracks (s : St) (path : string) (run : TestRun)
  (x : Task) (s' : St) :
  registry_consistent s ->
  testRunsByFile s !! path = Some run ->
  run_tracked s path run s' ->
  run_tracked s path run (snd (onFinished_file x s'))
  /\ testRunsByFile (snd (onFinished_file x s')) ⊆ testRunsByFile s'
  /\ (forall data,
        getTestDataByTask (tree s) x = Some data ->
        getTestRunByData s (getTestData data) = Some run ->
        fst (onFinished_file x s') = Ok tt ->
        testRunsByFile (snd (onFinished_file x s')) !! path = None).
Proof.
  intros Hconsistent Hrun Htracked.
  pose proof Htracked as (Htree & Hdata & Hsub & new & Hcalls & Hstate).
  destruct (onFinished_file x s') as [r s''] eqn:Hstep. cbn [fst snd].
  unfold onFinished_file, bind at 1, get in Hstep. rewrite Htree in Hstep.
  destruct (getTestDataByTask (tree s) x) as [data|] eqn:Hresolved.
  2:{ injection Hstep as <- <-. split; [exact Htracked|]. split; [done|].
      intros data' Hd. discriminate Hd. }
  assert (Hkey : (forall st : St, getTestRunByData st (getTestData data) = None)
                 \/ exists key, forall st : St,
                      getTestRunByData st (getTestData data) = testRunsByFile st !! key).
  { unfold getTestRunByData. destruct (getTestData data);
      [by left | right; by eexists | right; by eexists]. }
  destruct Hkey as [Hnone | (key & Hkey)].
  { rewrite Hnone in Hstep. injection Hstep as <- <-.
    split; [exact Htracked|]. split; [done|].
    intros data' Hd Hrun'. injection Hd as <-. by rewrite Hnone in Hrun'. }
  rewrite Hkey in Hstep.
  destruct (testRunsByFile s' !! key) as [testRun|] eqn:Hfound.
  2:{ injection Hstep as <- <-.
      split; [exact Htracked|]. split; [done|].
      intros data' Hd Hrun' _. injection Hd as <-. rewrite Hkey in Hrun'.
      by rewrite <- (registered_once s key path run Hconsistent Hrun' Hrun). }
  assert (Hkeys : testRunsByFile s !! key = Some testRun) by (by eapply lookup_weaken).
  destruct (Hconsistent key testRun Hkeys) as (rd & Hrd & Hfile).
  unfold bind in Hstep.
  pose proof (markResult_frame testRun data (task_result x) (Some x) s')
    as (Htree1 & Hruns1 & Hdata1 & new1 & Hcalls1 & Hnew1).
  destruct (markResult testRun data (task_result x) (Some x) s') as [[[]|e] s1];
    cbn [snd] in Htree1, Hruns1, Hdata1, Hcalls1.
  - unfold fire_and_forget, endTestRun, bind, get in Hstep. cbn [snd] in Hstep.
    rewrite Hdata1, Hdata, Hrd in Hstep. cbn in Hstep.
    injection Hstep as <- <-. unfold run_tracked. simpl.
    rewrite Hruns1, Hfile. split; [|split].
    + split; [congruence|]. split; [congruence|]. split.
      { etrans; [apply delete_subseteq | exact Hsub]. }
      exists (new ++ new1 ++ [End testRun]). split.
      { rewrite Hcalls1, Hcalls. by rewrite <- !app_assoc. }
      destruct (decide (key = path)) as [-> | Hne].
      * right. split; [apply lookup_delete_eq|].
        assert (testRun = run) as -> by congruence.
        rewrite !elem_of_app, list_elem_of_singleton. tauto.
      * rewrite lookup_delete_ne by done.
        destruct Hstate as [Hkept | [Hgone Hended]]; [by left | right].
        split; [exact Hgone|]. rewrite elem_of_app. by left.
    + apply delete_subseteq.
    + intros data' Hd Hrun' _. injection Hd as <-. rewrite Hkey in Hrun'.
      rewrite (registered_once s key path run Hconsistent Hrun' Hrun).
      apply lookup_delete_eq.
  - injection Hstep as <- <-. unfold run_tracked. rewrite Hruns1. split; [|split].
    + split; [congruence|]. split; [congruence|]. split; [done|].
      exists (new ++ new1). split.
      { rewrite Hcalls1, Hcalls. by rewrite <- !app_assoc. }
      destruct Hstate as [Hkept | [Hgone Hended]]; [by left | right].
      split; [exact Hgone|]. rewrite elem_of_app. by left.
    + done.
    + intros data' _ _ Hok. discriminate Hok.
Qed.

(** The loop of [onFinished], handled without a failure, over files one of
    which resolves to the run: the run is ended and no longer registered. *)
Lemma forEach_onFinished_file_ends (s : St) (path : string) (run : TestRun)
  (files : list Task) :
  registry_consistent s ->
  testRunsByFile s !! path = Some run ->
  forall s',
    run_tracked s path run s' ->
    (exists other data,
       other ∈ files
       /\ getTestDataByTask (tree s) other = Some data
       /\ getTestRunByData s (getTestData data) = Some run)
    \/ testRunsByFile s' !! path = None ->
    fst (forEach files onFinished_file s') = Ok tt ->
    run_tracked s path run (snd (forEach files onFinished_file s'))
    /\ testRunsByFile (snd (forEach files onFinished_file s')) !! path = None.
Proof.
  intros Hconsistent Hrun.
  induction files as [|x rest IH]; intros s' Htracked Hcase Hok.
  - destruct Hcase as [(other & data & Hin & _) | Hgone]; [by inversion Hin|].
    by split.
  - cbn [forEach] in *. unfold bind in *.
    pose proof (onFinished_file_tracks s path run x s' Hconsistent Hrun Htracked)
      as (Htracked1 & Hsub1 & Hends).
    destruct (onFinished_file x s') as [[[]|e] s1]; cbn [fst snd] in *;
      [|discriminate Hok].
    apply IH; [exact Htracked1 | | exact Hok].
    destruct Hcase as [(other & data & Hin & Hdata & Hresolves) | Hgone].
    + apply elem_of_cons in Hin as [-> | Hin]; [right | left; eauto].
      by apply (Hends data).
    + right. by eapply lookup_weaken_None.
Qed.

(** C10, as the code has it: a file of a finished event whose task has no
    test data in the tree gets no final result and ends no run: the handler
    does for the event what it does for the event without that file.  The
    run registered for the path of the file is not ended and is still
    registered for that path once the event has been handled, when no file
    of the event resolves to that run.  When a file of the event does
    resolve to that run and the event is handled without a failure, the run
    is ended and is no longer registered once the event has been handled. *)
Theorem onFinished_unresolved_file_keeps_its_run
  (before after : list Task) (file : Task) (run : TestRun) (s0 : St) :
  let files := before ++ file :: after in
  let s := coverage_reported files s0 in
  getTestDataByTask (tree s) file = None ->
  onFinished_file file s = (Ok tt, s)
  /\ onFinished (Some files) s0 = forEach (before ++ after) onFinished_file s
  /\ (registry_consistent s ->
      testRunsByFile s !! task_filepath file = Some run ->
      (forall other data,
         other ∈ files ->
         getTestDataByTask (tree s) other = Some data ->
         getTestRunByData s (getTestData data) <> Some run) ->
      testRunsByFile (snd (onFinished (Some files) s0)) !! task_filepath file
      = Some run
      /\ exists new,
           calls (snd (onFinished (Some files) s0)) = calls s ++ new
           /\ End run ∉ new)
  /\ (registry_consistent s ->
      testRunsByFile s !! task_filepath file = Some run ->
      (exists other data,
         other ∈ files
         /\ getTestDataByTask (tree s) other = Some data
         /\ getTestRunByData s (getTestData data) = Some run) ->
      fst (onFinished (Some files) s0) = Ok tt ->
      testRunsByFile (snd (onFinished (Some files) s0)) !! task_filepath file
      = None
      /\ exists new,
           calls (snd (onFinished (Some files) s0)) = calls s ++ new
           /\ End run ∈ new).
Proof.
  intros files s Hunresolved.
  split; [by apply onFinished_file_unresolved|]. split; [|split].
  - rewrite onFinished_runs_forEach. fold s. subst files.
    rewrite !forEach_app.
    pose proof (forEach_invariant (fun s' => tree s' = tree s) before onFinished_file)
      as Htree.
    specialize (Htree (fun x s' _ Hs' => eq_trans (onFinished_file_tree x s') Hs')
                  s eq_refl).
    destruct (forEach before onFinished_file s) as [[[]|e] s1]; [|reflexivity].
    simpl in Htree. cbn [forEach]. unfold bind at 1.
    rewrite (onFinished_file_unresolved file s1); [reflexivity|]. by rewrite Htree.
  - intros Hconsistent Hrun Hother.
    rewrite onFinished_runs_forEach. fold s.
    assert (Hstart : run_kept s (task_filepath file) run s).
    { repeat split; [done..|]. exists []. split; [by rewrite app_nil_r | by inversion 1]. }
    assert (Hstep : forall other s', other ∈ files ->
      run_kept s (task_filepath file) run s' ->
      run_kept s (task_filepath file) run (snd (onFinished_file other s'))).
    { intros other s' Hin. apply onFinished_file_keeps_run; eauto. }
    destruct (forEach_invariant _ files onFinished_file Hstep s Hstart)
      as (_ & _ & _ & Hkept & Hcalls).
    split; [exact Hkept | exact Hcalls].
  - intros Hconsistent Hrun Hother.
    rewrite onFinished_runs_forEach. fold s. intros Hok.
    assert (Hstart : run_tracked s (task_filepath file) run s).
    { repeat split; [done..|]. exists []. split; [by rewrite app_nil_r | by left]. }
    destruct (forEach_onFinished_file_ends s (task_filepath file) run files
                Hconsistent Hrun s Hstart (or_introl Hother) Hok)
      as ((_ & _ & _ & new & Hcalls & Hstate) & Hgone).
    split; [exact Hgone|]. exists new. split; [exact Hcalls|].
    destruct Hstate as [Hkept | [_ Hended]]; [congruence | exact Hended].
Qed.

End Finished.

Section RegistryInvariant.
Context {H : Host} {C : Collaborators}.


(** Starting the run of a file keeps the registry well formed. *)
Lemma startTestRun_file_well_formed (request : TestRunRequest) (file : string)
  (s : St) :
  registry_well_formed s ->
  registry_well_formed (snd (startTestRun_file request file s)).
Proof.
  intros [Hconsistent Hfresh]. rewrite startTestRun_file_run. cbn [snd].
  destruct (excluded request file); [done|].
  destruct (testRunsByFile s !! file) eqn:Hfree; [done|].
  split.
  - intros key run. unfold started; simpl.
    rewrite lookup_insert_Some. intros [[<- <-] | [Hkey Hrun]]; simpl.
    + eexists. split; [apply lookup_insert_eq | reflexivity].
    + destruct (Hconsistent key run Hrun) as (data & Hdata & Hfile).
      exists data. split; [|exact Hfile].
      rewrite lookup_insert_ne; [exact Hdata|].
      specialize (Hfresh key run Hrun). lia.
  - intros key run. unfold started; simpl.
    rewrite lookup_insert_Some. intros [[<- <-] | [Hkey Hrun]]; simpl; [lia|].
    specialize (Hfresh key run Hrun). lia.
Qed.

(** Ending a run keeps the registry well formed. *)
Lemma endTestRun_well_formed (run : TestRun) (s : St) :
  registry_well_formed s ->
  registry_well_formed (snd (endTestRun run s)).
Proof.
  intros [Hconsistent Hfresh]. unfold endTestRun, bind, get.
  destruct (testRunData s !! run_id run) as [data|]; [|done].
  split; intros key other; simpl; rewrite lookup_delete_Some; intros [_ Hother].
  - exact (Hconsistent key other Hother).
  - exact (Hfresh key other Hother).
Qed.

End RegistryInvariant.

Lemma running_a_consistent :
  @registry_consistent Sample.collaborators Sample.running_a.
Proof.
  intros file run Hrun. simpl in Hrun.
  apply lookup_singleton_Some in Hrun as [<- <-].
  eexists. split; reflexivity.
Qed.

Lemma running_ab_consistent :
  @registry_consistent Sample.collaborators Sample.running_ab.
Proof.
  intros file run Hrun. simpl in Hrun.
  apply lookup_insert_Some in Hrun as [[<- <-] | [_ Hrun]].
  - eexists. split; reflexivity.
  - apply lookup_singleton_Some in Hrun as [<- <-].
    eexists. split; reflexivity.
Qed.

Lemma onFinished_unresolved_file_keeps_its_run_witness :
  (@getTestDataByTask Sample.collaborators (tree Sample.running_ab)
     Sample.task_file_unknown = None
   /\ @getTestDataByTask Sample.collaborators (tree Sample.running_ab)
        Sample.task_file_b = Some Sample.file_b
   /\ testRunsByFile
        (snd (@onFinished Sample.host Sample.collaborators
                (Some [Sample.task_file_b; Sample.task_file_unknown])
                Sample.running_ab))
      !! "/ws/a.test.ts" = Some Sample.run_a
   /\ exists new,
        calls (snd (@onFinished Sample.host Sample.collaborators
                      (Some [Sample.task_file_b; Sample.task_file_unknown])
                      Sample.running_ab))
        = new
        /\ End Sample.run_b ∈ new /\ End Sample.run_a ∉ new)
  /\ (testRunsByFile
        (snd (@onFinished Sample.host Sample.collaborators
                (Some [Sample.task_file_a; Sample.task_file_unknown])
                Sample.running_a))
      !! "/ws/a.test.ts" = None
      /\ exists new,
           calls (snd (@onFinished Sample.host Sample.collaborators
                         (Some [Sample.task_file_a; Sample.task_file_unknown])
                         Sample.running_a))
           = new
           /\ End Sample.run_a ∈ new).
Proof.
  split.
  - destruct (@onFinished_unresolved_file_keeps_its_run Sample.host
                Sample.collaborators [Sample.task_file_b] [] Sample.task_file_unknown
                Sample.run_a Sample.running_ab eq_refl)
      as (_ & _ & Hkeeps & _).
    destruct Hkeeps as (Hkept & new & Hcalls & Hnew).
    + exact running_ab_consistent.
    + reflexivity.
    + intros other data Hin Hdata.
      apply elem_of_cons in Hin as [-> | Hin].
      * change (Some Sample.file_b = Some data) in Hdata.
        assert (data = Sample.file_b) as -> by congruence. discriminate.
      * apply list_elem_of_singleton in Hin. subst other. discriminate Hdata.
    + split; [reflexivity|]. split; [reflexivity|]. split; [exact Hkept|].
      exists new. split; [exact Hcalls|]. split; [|exact Hnew].
      cbv in Hcalls. rewrite <- Hcalls.
      apply list_elem_of_further, list_elem_of_here.
  - destruct (@onFinished_unresolved_file_keeps_its_run Sample.host
                Sample.collaborators [Sample.task_file_a] [] Sample.task_file_unknown
                Sample.run_a Sample.running_a eq_refl)
      as (_ & _ & _ & Hends).
    destruct Hends as (Hgone & new & Hcalls & Hnew).
    + exact running_a_consistent.
    + reflexivity.
    + exists Sample.task_file_a, Sample.file_a.
      split; [apply list_elem_of_here|]. split; reflexivity.
    + reflexivity.
    + split; [exact Hgone|]. exists new. split; [exact Hcalls | exact Hnew].
Defined.

(** The claim C10 does not hold as it is stated: the task [file-z] of the
    second file of the event has no test data in the tree and [run_a] is
    registered for its path; the first file of the event resolves to that
    run, so the run is ended and is no longer registered once the event has
    been handled. *)
Lemma onFinished_resolved_file_ends_run_of_unresolved :
  @getTestDataByTask Sample.collaborators (tree Sample.running_a)
    Sample.task_file_unknown = None
  /\ testRunsByFile Sample.running_a !! task_filepath Sample.task_file_unknown
     = Some Sample.run_a
  /\ fst (@onFinished Sample.host Sample.collaborators
            (Some [Sample.task_file_a; Sample.task_file_unknown]) Sample.running_a)
     = Ok tt
  /\ testRunsByFile
       (snd (@onFinished Sample.host Sample.collaborators
               (Some [Sample.task_file_a; Sample.task_file_unknown])
               Sample.running_a))
     !! task_filepath Sample.task_file_unknown = None
  /\ calls (snd (@onFinished Sample.host Sample.collaborators
                   (Some [Sample.task_file_a; Sample.task_file_unknown])
                   Sample.running_a))
     = [Passed Sample.run_a Sample.file_a None; End Sample.run_a].
Proof. repeat split. Qed.

(** ** The file set of a selection *)

Section FileSet.
Context {H : Host}.

Lemma Set_has_elem (x : string) (seen : list string) :
  existsb (String.eqb x) seen = true <-> x ∈ seen.
Proof.
  rewrite existsb_exists. split.
  - intros (y & Hin & Heq). apply String.eqb_eq in Heq as ->.
    by apply list_elem_of_In.
  - intros Hin. exists x. split; [by apply list_elem_of_In | apply String.eqb_refl].
Qed.

Lemma Set_add_all_spec (arr : list string) :
  forall seen,
    NoDup seen ->
    NoDup (Set_add_all seen arr)
    /\ (forall x, x ∈ Set_add_all seen arr <-> x ∈ seen \/ x ∈ arr)
    /\ exists added, Set_add_all seen arr = seen ++ added /\ sublist added arr.
Proof.
  induction arr as [|x arr IH]; intros seen Hseen; cbn [Set_add_all].
  - split; [done|]. split.
    + intros x. split; [by left | intros [Hx | Hx]; [done | by inversion Hx]].
    + exists []. by rewrite app_nil_r.
  - destruct (existsb (String.eqb x) seen) eqn:Hx.
    + apply Set_has_elem in Hx.
      destruct (IH seen Hseen) as (Hnodup & Helem & added & Heq & Hsub).
      split; [done|]. split.
      * intros y. rewrite Helem, elem_of_cons.
        split; [tauto | intros [Hy | [-> | Hy]]; tauto].
      * exists added. split; [done | by constructor].
    + assert (Hfresh : x ∉ seen).
      { intros Hin. apply Set_has_elem in Hin. congruence. }
      destruct (IH (seen ++ [x])) as (Hnodup & Helem & added & Heq & Hsub).
      { apply NoDup_app. split; [done|]. split; [|apply NoDup_singleton].
        intros y Hy Hy'. apply list_elem_of_singleton in Hy'. by subst. }
      split; [done|]. split.
      * intros y. rewrite Helem, elem_of_app, list_elem_of_singleton, elem_of_cons.
        tauto.
      * exists (x :: added). split; [by rewrite Heq, <- app_assoc | by constructor].
Qed.

Lemma getTestFiles_run (tests : list TestItem) :
  Forall (fun test => is_Some (item_uri test)) tests ->
  getTestFiles tests
  = Ok (Array_from_Set (List.filter truthy_string (selected_paths tests))).
Proof.
  intros Huris. unfold getTestFiles.
  match goal with
  | |- context [map_result ?f tests] =>
      assert (Hmap : map_result f tests = Ok (selected_paths tests))
  end.
  { induction Huris as [|test tests [u Hu] _ IH]; [reflexivity|].
    cbn [map_result]. rewrite IH. unfold uri_fsPath, selected_paths, selected_path.
    cbn [omap]. rewrite Hu. unfold getTestData.
    simpl. rewrite Hu. simpl. by destruct (item_data test). }
  by rewrite Hmap.
Qed.

Lemma truthy_string_nonempty (p : string) : truthy_string p = true <-> p <> "".
Proof. by destruct p. Qed.

Lemma elem_of_truthy (p : string) (paths : list string) :
  p ∈ List.filter truthy_string paths <-> p <> "" /\ p ∈ paths.
Proof.
  rewrite <- truthy_string_nonempty, !list_elem_of_In, filter_In. tauto.
Qed.

Lemma filter_filter_absorb {A : Type} (f g : A -> bool) (l : list A) :
  (forall y, f y = true -> g y = true) ->
  List.filter f (List.filter g l) = List.filter f l.
Proof.
  intros Himp. induction l as [|x l IH]; [reflexivity|]. cbn [List.filter].
  destruct (g x) eqn:Hg; cbn [List.filter]; rewrite IH; [reflexivity|].
  destruct (f x) eqn:Hf; [|reflexivity]. apply Himp in Hf. congruence.
Qed.

Lemma filter_filter_comm {A : Type} (f g : A -> bool) (l : list A) :
  List.filter f (List.filter g l) = List.filter g (List.filter f l).
Proof.
  induction l as [|x l IH]; [reflexivity|]. cbn [List.filter].
  destruct (g x) eqn:Hg, (f x) eqn:Hf; cbn [List.filter];
    rewrite ?Hg, ?Hf, IH; reflexivity.
Qed.

Lemma filter_filter_and {A : Type} (f g : A -> bool) (l : list A) :
  List.filter f (List.filter g l) = List.filter (fun x => g x && f x) l.
Proof.
  induction l as [|x l IH]; [reflexivity|]. cbn [List.filter].
  destruct (g x); cbn [List.filter andb]; rewrite IH; reflexivity.
Qed.

(** Leaving values out before or after keeping the first occurrences is the
    same. *)
Lemma first_occurrences_filter (f : string -> bool) (l : list string) :
  first_occurrences (List.filter f l) = List.filter f (first_occurrences l).
Proof.
  induction l as [|x l IH]; [reflexivity|].
  cbn [List.filter first_occurrences].
  destruct (f x) eqn:Hf; cbn [List.filter first_occurrences]; rewrite ?Hf, IH.
  - f_equal. apply filter_filter_comm.
  - symmetry. apply filter_filter_absorb.
    intros y Hy. destruct (String.eqb_spec y x) as [->|]; [congruence | reflexivity].
Qed.

(** A [Set] filled from an array holds what it held, then the values of the
    array it did not hold, each at its first occurrence. *)
Lemma Set_add_all_first_occurrences (arr : list string) :
  forall seen,
    Set_add_all seen arr
    = seen ++ first_occurrences
                (List.filter (fun y => negb (existsb (String.eqb y) seen)) arr).
Proof.
  induction arr as [|x arr IH]; intros seen; cbn [Set_add_all List.filter].
  - by rewrite app_nil_r.
  - destruct (existsb (String.eqb x) seen) eqn:Hx; cbn [negb]; [apply IH|].
    rewrite IH, <- app_assoc. cbn [first_occurrences app]. do 2 f_equal.
    rewrite <- first_occurrences_filter, filter_filter_and. f_equal.
    clear. induction arr as [|y arr IH]; [reflexivity|]. cbn [List.filter].
    rewrite existsb_app. cbn [existsb]. rewrite orb_false_r, negb_orb, IH.
    reflexivity.
Qed.

(** X1: for a selection whose items all have a uri, the file set has no
    path twice and no empty path; it holds exactly the non-empty paths of the
    selected items (folders with their trailing marker), each at the place
    of its first selection: the file set is the list of the non-empty
    selected paths with every occurrence of a path but its first left
    out. *)
Theorem getTestFiles_deduplicates (tests : list TestItem) :
  Forall (fun test => is_Some (item_uri test)) tests ->
  exists files,
    getTestFiles tests = Ok files
    /\ NoDup files
    /\ sublist files (selected_paths tests)
    /\ (forall p, p ∈ files <-> p <> "" /\ p ∈ selected_paths tests)
    /\ files = first_occurrences (List.filter truthy_string (selected_paths tests)).
Proof.
  intros Huris. rewrite (getTestFiles_run _ Huris).
  eexists. split; [reflexivity|].
  destruct (Set_add_all_spec (List.filter truthy_string (selected_paths tests)) [])
    as (Hnodup & Helem & added & Heq & Hsub); [constructor|].
  unfold Array_from_Set. split; [done|]. split; [|split].
  - rewrite Heq. simpl. etrans; [exact Hsub|].
    clear. induction (selected_paths tests) as [|p ps IHps]; simpl; [done|].
    destruct (truthy_string p); [by apply sublist_skip | by apply sublist_cons].
  - intros p. rewrite Helem, elem_of_truthy.
    split; [intros [Hp | Hp]; [by inversion Hp | done] | by right].
  - rewrite Set_add_all_first_occurrences. cbn [app existsb negb]. f_equal.
    clear. induction (List.filter truthy_string (selected_paths tests)) as [|p ps IHps];
      [reflexivity|]. cbn [List.filter]. by rewrite IHps.
Qed.

Lemma is_folder_path_marker (p : string) : is_folder_path (p +:+ "/") = true.
Proof.
  unfold is_folder_path.
  assert (Hlast : last_char (p +:+ "/") = Some "/"%char).
  { induction p as [|c p IH]; [reflexivity|].
    change (last_char (String c (p +:+ "/")) = Some "/"%char).
    cbn [last_char]. destruct (p +:+ "/") eqn:Hrest; [by destruct p | exact IH]. }
  by rewrite Hlast.
Qed.

Lemma getTestFiles_inv (tests : list TestItem) (files : list string) :
  getTestFiles tests = Ok files ->
  Forall (fun test => is_Some (item_uri test)) tests
  /\ files = Array_from_Set (List.filter truthy_string (selected_paths tests)).
Proof.
  intros Hfiles.
  assert (Huris : Forall (fun test => is_Some (item_uri test)) tests).
  { unfold getTestFiles in Hfiles.
    destruct (map_result _ tests) as [paths|e] eqn:Hmap; [|discriminate].
    clear Hfiles. revert paths Hmap.
    induction tests as [|test tests IH]; intros paths Hmap; [constructor|].
    cbn [map_result] in Hmap. unfold uri_fsPath in Hmap at 1.
    destruct (item_uri test) as [u|] eqn:Hu; [|discriminate].
    constructor; [by rewrite Hu|].
    destruct (map_result _ tests) as [rest|e] eqn:Hrest.
    - by apply (IH rest).
    - exfalso. by destruct (getTestData test). }
  split; [exact Huris|].
  rewrite (getTestFiles_run _ Huris) in Hfiles. congruence.
Qed.

(** X2: every selected folder is in the file set under its normal path
    followed by a slash, and [startTestRun] takes that path for a folder. *)
Theorem getTestFiles_marks_folders (tests : list TestItem) (files : list string)
  (folder : TestItem) (u : string) :
  getTestFiles tests = Ok files ->
  folder ∈ tests ->
  getTestData folder = TestFolder ->
  item_uri folder = Some u ->
  (normalize u +:+ "/") ∈ files
  /\ is_folder_path (normalize u +:+ "/") = true.
Proof.
  intros Hfiles Hin Hdata Hu. split; [|apply is_folder_path_marker].
  apply getTestFiles_inv in Hfiles as [_ ->].
  destruct (Set_add_all_spec (List.filter truthy_string (selected_paths tests)) [])
    as (_ & Helem & _); [constructor|].
  apply Helem. right. apply elem_of_truthy. split.
  - by destruct (normalize u).
  - unfold selected_paths. apply list_elem_of_omap. exists folder.
    split; [exact Hin|]. unfold selected_path. by rewrite Hu, Hdata.
Qed.

End FileSet.

Lemma getTestFiles_deduplicates_witness :
  exists files,
    @getTestFiles Sample.host
      [Sample.case_adds; Sample.file_a; Sample.folder_item "/ws/lib";
       Sample.case_subtracts; Sample.folder_item "/ws/lib"; Sample.file_a] = Ok files
    /\ NoDup files
    /\ (forall p,
          p ∈ files <->
          p <> "" /\ p ∈ ["/ws/a.test.ts"; "/ws/a.test.ts"; "/ws/lib/";
                          "/ws/b.test.ts"; "/ws/lib/"; "/ws/a.test.ts"])
    /\ files = ["/ws/a.test.ts"; "/ws/lib/"; "/ws/b.test.ts"].
Proof.
  destruct (@getTestFiles_deduplicates Sample.host
              [Sample.case_adds; Sample.file_a; Sample.folder_item "/ws/lib";
               Sample.case_subtracts; Sample.folder_item "/ws/lib"; Sample.file_a])
    as (files & Hfiles & Hnodup & _ & Helem & Horder).
  - repeat constructor; by eexists.
  - exists files. split; [exact Hfiles|]. split; [exact Hnodup|].
    split; [exact Helem | exact Horder].
Defined.

Lemma getTestFiles_marks_folders_witness :
  "/ws/lib/" ∈ ["/ws/a.test.ts"; "/ws/lib/"]
  /\ is_folder_path "/ws/lib/" = true.
Proof.
  exact (@getTestFiles_marks_folders Sample.host
           [Sample.file_a; Sample.folder_item "/ws/lib"]
           ["/ws/a.test.ts"; "/ws/lib/"] (Sample.folder_item "/ws/lib") "/ws/lib"
           eq_refl (list_elem_of_further _ _ _ (list_elem_of_here _ _))
           eq_refl eq_refl).
Defined.

(** ** Line endings, again *)

Section LineEndingProperties.

Lemma replace_bare_newlines_from_removes (s : string) :
  forall prevCR,
    has_bare_newline_from prevCR (replace_bare_newlines_from prevCR s) = false.
Proof.
  induction s as [|c s IH]; intros prevCR; [reflexivity|].
  cbn [replace_bare_newlines_from].
  destruct (Ascii.eqb c LF && negb prevCR) eqn:Hbare.
  - cbn [has_bare_newline_from]. rewrite IH. reflexivity.
  - cbn [has_bare_newline_from]. by rewrite Hbare, IH.
Qed.

Lemma replace_bare_newlines_from_keeps (s : string) :
  forall prevCR,
    has_bare_newline_from prevCR s = false ->
    replace_bare_newlines_from prevCR s = s.
Proof.
  induction s as [|c s IH]; intros prevCR Hnone; [reflexivity|].
  cbn [has_bare_newline_from] in Hnone.
  apply orb_false_elim in Hnone as [Hc Hrest].
  cbn [replace_bare_newlines_from]. rewrite Hc. f_equal. by apply IH.
Qed.

Lemma replace_bare_newlines_from_length (s : string) :
  forall prevCR,
    String.length s <= String.length (replace_bare_newlines_from prevCR s).
Proof.
  induction s as [|c s IH]; intros prevCR; [done|].
  cbn [replace_bare_newlines_from].
  destruct (Ascii.eqb c LF && negb prevCR); cbn [String.length].
  - specialize (IH false). lia.
  - specialize (IH (Ascii.eqb c CR)). lia.
Qed.

(** X3: the text appended to the output of a run has no line feed without
    a carriage return before it; a content that has none is appended as it
    is; so normalizing twice is normalizing once, and the text is never
    shorter than the content. *)
Theorem replace_bare_newlines_normal_form (content : string) :
  has_bare_newline (replace_bare_newlines content) = false
  /\ (has_bare_newline content = false -> replace_bare_newlines content = content)
  /\ replace_bare_newlines (replace_bare_newlines content)
     = replace_bare_newlines content
  /\ String.length content <= String.length (replace_bare_newlines content).
Proof.
  unfold has_bare_newline, replace_bare_newlines.
  split; [apply replace_bare_newlines_from_removes|].
  split; [apply replace_bare_newlines_from_keeps|].
  split; [|apply replace_bare_newlines_from_length].
  apply replace_bare_newlines_from_keeps, replace_bare_newlines_from_removes.
Qed.

End LineEndingProperties.

(** ** Separators of stack frames *)

Section Separators.
Context {H : Host}.

Lemma replace_all_char_same (c : ascii) (s : string) :
  replace_all_char c (String c EmptyString) s = s.
Proof.
  induction s as [|a s IH]; [reflexivity|].
  cbn [replace_all_char]. destruct (Ascii.eqb_spec a c) as [-> | _].
  - change (String c (replace_all_char c (String c EmptyString) s) = String c s).
    by rewrite IH.
  - by rewrite IH.
Qed.

Lemma occurs_append (c : ascii) (a b : string) :
  occurs c (a +:+ b) = occurs c a || occurs c b.
Proof.
  induction a as [|x a IH]; [reflexivity|].
  change (occurs c (String x (a +:+ b)) = occurs c (String x a) || occurs c b).
  cbn [occurs]. by rewrite IH, orb_assoc.
Qed.

Lemma replace_all_char_removes (c : ascii) (r s : string) :
  occurs c r = false -> occurs c (replace_all_char c r s) = false.
Proof.
  intros Hr. induction s as [|a s IH]; [reflexivity|].
  cbn [replace_all_char]. destruct (Ascii.eqb a c) eqn:Ha.
  - by rewrite occurs_append, Hr, IH.
  - cbn [occurs]. by rewrite Ha, IH.
Qed.

(** X4: a stack frame keeps its line and column; where the separator of
    the host is the slash its file is compared as it is, and where the
    separator has no slash in it the file is compared without any slash. *)
Theorem getSourceFilepathAndLocationFromStack_separators (stack : ParsedStack) :
  line (getSourceFilepathAndLocationFromStack stack) = stack_line stack
  /\ column (getSourceFilepathAndLocationFromStack stack) = stack_column stack
  /\ (path_sep = "/" ->
      sourceFilepath (getSourceFilepathAndLocationFromStack stack)
      = Some (stack_file stack))
  /\ (occurs "/"%char path_sep = false ->
      exists p,
        sourceFilepath (getSourceFilepathAndLocationFromStack stack) = Some p
        /\ occurs "/"%char p = false).
Proof.
  split; [reflexivity|]. split; [reflexivity|]. split.
  - intros Hsep. unfold getSourceFilepathAndLocationFromStack; simpl.
    by rewrite Hsep, replace_all_char_same.
  - intros Hsep. eexists. split; [reflexivity|].
    by apply replace_all_char_removes.
Qed.

(** X5: without an error the message is ["Unknown error"].  Building the
    message of an error raises in exactly two cases: the test item has no
    uri and the error has stack frames; or the item has a uri and the editor
    rejects the position of the first qualifying frame, whose line or
    column, less one, is negative. *)
Theorem testMessageForTestError_raises_exactly_when (testItem : TestItem)
  (error : ErrorWithDiff) :
  testMessageForTestError testItem None = Ok (TestMessage_new "Unknown error")
  /\ ((exists e, testMessageForTestError testItem (Some error) = Throw e)
      <-> (item_uri testItem = None /\ default [] (err_stacks error) <> [])
          \/ exists target frame,
               item_uri testItem = Some target
               /\ first_qualifying target (default [] (err_stacks error)) (Some frame)
               /\ position_accepted frame = false).
Proof.
  split; [reflexivity|]. split.
  - intros (e & He).
    destruct (item_uri testItem) as [target|] eqn:Huri.
    + right.
      destruct (parseLocationFromStacks_loop_first target (default [] (err_stacks error)))
        as (found & Hfound & _).
      pose proof (testMessageForTestError_located _ _ _ _ Huri Hfound) as Hcase.
      destruct found as [frame|].
      * exists target, frame. split; [reflexivity|]. split; [exact Hfound|].
        destruct (position_accepted frame); [|reflexivity].
        destruct Hcase as (message & Hok & _). congruence.
      * destruct Hcase as (message & Hok & _). congruence.
    + left. split; [reflexivity|]. intros Hstacks.
      destruct (testMessageForTestError_without_frames testItem error Hstacks)
        as (message & Hok & _). congruence.
  - intros [(Huri & Hstacks) | (target & frame & Huri & Hfound & Hrejected)].
    + by apply testMessageForTestError_without_uri.
    + pose proof (testMessageForTestError_located _ _ _ _ Huri Hfound) as Hcase.
      simpl in Hcase. by rewrite Hrejected in Hcase.
Qed.

End Separators.

(** ** What [markResult] reports *)

Section ResultMapper.
Context {H : Host} {C : Collaborators}.

Lemma map_result_messages (testItem : TestItem) (errors : list ErrorWithDiff) :
  match map_result (fun err => testMessageForTestError testItem (Some err)) errors with
  | Ok messages =>
      Forall (fun err => locatable testItem (default [] (err_stacks err))) errors
      /\ Forall2 (fun err message =>
           msg_message message = stripAnsi (err_message err)) errors messages
  | Throw e =>
      Exists (fun err => ~ locatable testItem (default [] (err_stacks err))) errors
  end.
Proof.
  induction errors as [|error errors IH]; [by split|].
  cbn [map_result].
  destruct (testMessageForTestError testItem (Some error)) as [message|e] eqn:Hmessage.
  - assert (Hlocatable : locatable testItem (default [] (err_stacks error))).
    { apply testMessageForTestError_returns_iff. by exists message. }
    destruct (testMessageForTestError_content _ _ _ Hmessage) as (Htext & _).
    destruct (map_result _ errors) as [messages|e].
    + destruct IH as (Hall & Htexts). split; by constructor.
    + by apply Exists_cons_tl.
  - apply Exists_cons_hd. intros Hlocatable.
    apply testMessageForTestError_returns_iff in Hlocatable as (message & Hok).
    congruence.
Qed.

(** X6: a failed result of a task that is not given as a suite.  When the
    message of each of its errors can be located for the test item, it is
    reported by exactly one call of [failed], with one message per error in
    the order of the errors (none when the result has no list of errors),
    each with the text of its error without ANSI sequences, and with the
    duration of the result.  When the message of one of its errors cannot
    (the item has no uri, or the editor rejects the position of the first
    qualifying frame), [markResult] raises before any call: nothing is
    reported and the state is as it was. *)
Theorem markResult_leaf_fail_reports_failed (testRun : TestRun) (test : TestItem)
  (result : TaskResult) (task : option Task) (s : St) :
  res_state result = StFail ->
  is_suite task = false ->
  (Forall (fun err => locatable test (default [] (err_stacks err)))
     (default [] (res_errors result)) ->
   exists messages,
     markResult testRun test (Some result) task s
     = (Ok tt,
        set_calls (calls s ++ [Failed testRun test messages (res_duration result)]) s)
     /\ Forall2 (fun err message =>
          msg_message message = stripAnsi (err_message err))
          (default [] (res_errors result)) messages)
  /\ (Exists (fun err => ~ locatable test (default [] (err_stacks err)))
        (default [] (res_errors result)) ->
      exists e, markResult testRun test (Some result) task s = (Throw e, s)).
Proof.
  intros Hstate Hleaf.
  pose proof (map_result_messages test (default [] (res_errors result))) as Hmap.
  unfold markResult. rewrite Hstate, Hleaf. unfold bind, liftR.
  destruct (map_result _ _) as [messages|e].
  - destruct Hmap as (Hall & Htexts). split.
    + intros _. exists messages. by split.
    + intros Hsome. exfalso. apply Exists_exists in Hsome as (err & Hin & Hnot).
      rewrite Forall_forall in Hall. by apply Hnot, Hall.
  - split.
    + intros Hall. exfalso. apply Exists_exists in Hmap as (err & Hin & Hnot).
      rewrite Forall_forall in Hall. by apply Hnot, Hall.
    + intros _. by exists e.
Qed.

(** The calls [markResult] can add and the change it can make to the state,
    by the case it is in. *)
Lemma markResult_cases (testRun : TestRun) (test : TestItem)
  (result : option TaskResult) (task : option Task) (s : St) :
  exists new,
    length new <= 1
    /\ (snd (markResult testRun test result task s) = set_calls (calls s ++ new) s
        \/ exists r errs,
             result = Some r /\ res_state r = StFail /\ is_suite task = true
             /\ res_errors r = Some errs /\ Exists (fun c => is_Errored c = true) new
             /\ snd (markResult testRun test result task s)
                = set_calls (calls s ++ new)
                    (set_itemError
                       (<[item_id test := Array_join (String LF EmptyString)
                                            (map stack_or_message errs)]>
                          (itemError s)) s))
    /\ (Exists (fun c => is_Failed c = true) new ->
        exists r, result = Some r /\ res_state r = StFail /\ is_suite task = false)
    /\ (Exists (fun c => is_Errored c = true) new ->
        exists r, result = Some r /\ res_state r = StFail /\ is_suite task = true
                  /\ is_Some (res_errors r))
    /\ Forall (fun c => is_End c = false /\ is_CreateTestRun c = false) new.
Proof.
  assert (Hnil : set_calls (calls s ++ []) s = s).
  { rewrite app_nil_r. by destruct s. }
  assert (Hnone : forall P : Call -> Prop, ~ Exists P []) by (intros P HP; inversion HP).
  assert (Hone : forall (P : Call -> Prop) c, Exists P [c] -> P c).
  { intros P c HP. inversion HP as [? ? Hc | ? ? Hc]; [done | inversion Hc]. }
  unfold markResult.
  destruct result as [r|].
  2:{ exists [Started testRun test]. split; [simpl; lia|]. split; [by left|].
      split; [intros Hc; apply Hone in Hc; discriminate|].
      split; [intros Hc; apply Hone in Hc; discriminate | by repeat constructor]. }
  destruct (res_state r) eqn:Hstate.
  - destruct (is_suite task) eqn:Hsuite.
    + destruct (res_errors r) as [errs|] eqn:Herrs.
      * exists [Errored testRun test
                  (map (fun err => TestMessage_new (stack_or_message err)) errs)
                  (res_duration r)].
        split; [simpl; lia|]. split.
        { right. exists r, errs. repeat (split; [done|]).
          split; [by constructor|]. unfold bind, modify, emit, modify; simpl.
          by rewrite map_map. }
        split; [intros Hc; apply Hone in Hc; discriminate|].
        split; [intros _; exists r; eauto | by repeat constructor].
      * exists []. split; [simpl; lia|]. split; [left; by rewrite Hnil|].
        split; [intros Hc; by apply Hnone in Hc|].
        split; [intros Hc; by apply Hnone in Hc | constructor].
    + unfold bind, liftR. destruct (map_result _ _) as [messages|e].
      * eexists [_]. split; [simpl; lia|]. split; [by left|].
        split; [intros _; exists r; eauto|].
        split; [intros Hc; apply Hone in Hc; discriminate | by repeat constructor].
      * exists []. split; [simpl; lia|]. split; [left; by rewrite Hnil|].
        split; [intros Hc; by apply Hnone in Hc|].
        split; [intros Hc; by apply Hnone in Hc | constructor].
  - eexists [_]. split; [simpl; lia|]. split; [by left|].
    split; [intros Hc; apply Hone in Hc; discriminate|].
    split; [intros Hc; apply Hone in Hc; discriminate | by repeat constructor].
  - eexists [_]. split; [simpl; lia|]. split; [by left|].
    split; [intros Hc; apply Hone in Hc; discriminate|].
    split; [intros Hc; apply Hone in Hc; discriminate | by repeat constructor].
  - eexists [_]. split; [simpl; lia|]. split; [by left|].
    split; [intros Hc; apply Hone in Hc; discriminate|].
    split; [intros Hc; apply Hone in Hc; discriminate | by repeat constructor].
  - eexists [_]. split; [simpl; lia|]. split; [by left|].
    split; [intros Hc; apply Hone in Hc; discriminate|].
    split; [intros Hc; apply Hone in Hc; discriminate | by repeat constructor].
  - eexists [_]. split; [simpl; lia|]. split; [by left|].
    split; [intros Hc; apply Hone in Hc; discriminate|].
    split; [intros Hc; apply Hone in Hc; discriminate | by repeat constructor].
  - eexists [_]. split; [simpl; lia|]. split; [by left|].
    split; [intros Hc; apply Hone in Hc; discriminate|].
    split; [intros Hc; apply Hone in Hc; discriminate | by repeat constructor].
Qed.

(** X7: whatever the result, [markResult] touches neither the registry of
    runs, the requests, the test tree nor the data of the runs; it makes at
    most one call, never one that creates or ends a run, and changes the
    error text of no item but the one it is given. *)
Theorem markResult_changes_no_registration (testRun : TestRun) (test : TestItem)
  (result : option TaskResult) (task : option Task) (s : St) :
  let s' := snd (markResult testRun test result task s) in
  testRunsByFile s' = testRunsByFile s
  /\ continuousRequests s' = continuousRequests s
  /\ simpleTestRunRequest s' = simpleTestRunRequest s
  /\ tree s' = tree s
  /\ testRunData s' = testRunData s
  /\ (forall id, id <> item_id test -> itemError s' !! id = itemError s !! id)
  /\ exists new,
       calls s' = calls s ++ new /\ length new <= 1
       /\ Forall (fun c => is_End c = false /\ is_CreateTestRun c = false) new.
Proof.
  destruct (markResult_cases testRun test result task s)
    as (new & Hlen & Hstate & _ & _ & Hnew).
  destruct Hstate as [-> | (r & errs & _ & _ & _ & _ & _ & ->)]; simpl.
  - repeat (split; [done|]). by exists new.
  - repeat (split; [done|]). split; [|by exists new].
    intros id Hid. by rewrite lookup_insert_ne.
Qed.

(** X8: [failed] is only ever reported for a result whose state is [fail]
    and whose task is not given as a suite, and [errored] only for a result
    whose state is [fail], whose task is given as a suite and which has a
    list of errors. *)
Theorem markResult_verdict_only_for_fail (testRun : TestRun) (test : TestItem)
  (result : option TaskResult) (task : option Task) (s : St) :
  exists new,
    calls (snd (markResult testRun test result task s)) = calls s ++ new
    /\ (Exists (fun c => is_Failed c = true) new ->
        exists r, result = Some r /\ res_state r = StFail /\ is_suite task = false)
    /\ (Exists (fun c => is_Errored c = true) new ->
        exists r, result = Some r /\ res_state r = StFail /\ is_suite task = true
                  /\ is_Some (res_errors r)).
Proof.
  destruct (markResult_cases testRun test result task s)
    as (new & _ & Hstate & Hfailed & Herrored & _).
  exists new. split; [|by split].
  by destruct Hstate as [-> | (r & errs & _ & _ & _ & _ & _ & ->)].
Qed.

End ResultMapper.

Lemma markResult_leaf_fail_reports_failed_witness :
  (exists message,
     @markResult Sample.host Sample.collaborators Sample.run_a Sample.case_adds
       (Some (mkTaskResult StFail (Some [Sample.sample_error]) (Some (Num 7)))) None
       Sample.running_a
     = (Ok tt,
        @set_calls Sample.collaborators
          [Failed Sample.run_a Sample.case_adds [message] (Some (Num 7))]
          Sample.running_a)
     /\ msg_message message = "expected 2 to be 3")
  /\ exists e,
       @markResult Sample.host Sample.collaborators Sample.run_a Sample.case_adds
         (Some (mkTaskResult StFail (Some [Sample.error_at_line_zero]) (Some (Num 7))))
         None Sample.running_a
       = (Throw e, Sample.running_a).
Proof.
  split.
  - destruct (@markResult_leaf_fail_reports_failed Sample.host Sample.collaborators
                Sample.run_a Sample.case_adds
                (mkTaskResult StFail (Some [Sample.sample_error]) (Some (Num 7))) None
                Sample.running_a eq_refl eq_refl)
      as (Hreported & _).
    destruct Hreported as (messages & Hrun & Htexts).
    { constructor; [|constructor]. right.
      exists "/ws/a.test.ts", (Some (mkParsedStack "/ws/a.test.ts" 10%float 5%float)).
      split; [reflexivity|]. split; [|reflexivity].
      by apply (@sample_stacks_first_qualifying Sample.host). }
    destruct messages as [|message [|other rest]];
      [exfalso; inversion Htexts | | exfalso; inversion Htexts as [|? ? ? ? _ Hrest];
                                      inversion Hrest].
    exists message. split; [exact Hrun|].
    inversion Htexts as [|? ? ? ? Htext _]. exact Htext.
  - destruct (@markResult_leaf_fail_reports_failed Sample.host Sample.collaborators
                Sample.run_a Sample.case_adds
                (mkTaskResult StFail (Some [Sample.error_at_line_zero]) (Some (Num 7)))
                None Sample.running_a eq_refl eq_refl)
      as (_ & Hraises).
    apply Hraises. constructor.
    intros [Hnone | (target & found & Huri & Hfound & Haccepted)]; [discriminate Hnone|].
    injection Huri as <-.
    pose proof (@parseLocationFromStacks_loop_of_first Sample.host _ _ _ Hfound) as Hloop.
    destruct found as [[file frame_line frame_column]|]; [|discriminate Hloop].
    cbv in Hloop. injection Hloop as Hline Hcolumn.
    subst frame_line frame_column. discriminate Haccepted.
Defined.

(** ** Events for tasks the runner does not track *)

Section Untracked.
Context {H : Host} {C : Collaborators}.

Lemma onTaskUpdate_pack_untracked (s : St) (pack : string * option TaskResult)
  (logged : list Call) :
  untracked s pack ->
  onTaskUpdate_pack pack (set_calls logged s)
  = (Ok tt, set_calls (logged ++ onTaskUpdate_log s pack) s).
Proof.
  destruct pack as [testId result].
  unfold untracked, onTaskUpdate_log, onTaskUpdate_pack, bind, get. cbn [fst].
  change (tree (set_calls logged s)) with (tree s).
  destruct (getTestDataByTaskId (tree s) testId) as [test|]; [|reflexivity].
  intros Hrun.
  assert (Hsame : getTestRunByData (set_calls logged s) (getTestData test)
                  = getTestRunByData s (getTestData test)).
  { by destruct (getTestData test). }
  rewrite Hsame, Hrun. unfold ret. by rewrite app_nil_r.
Qed.

Lemma onTaskUpdate_untracked_from (s : St) (packs : list (string * option TaskResult)) :
  Forall (untracked s) packs ->
  forall logged,
    onTaskUpdate packs (set_calls logged s)
    = (Ok tt, set_calls (logged ++ flat_map (onTaskUpdate_log s) packs) s).
Proof.
  unfold onTaskUpdate.
  induction 1 as [|pack packs Hpack _ IH]; intros logged.
  - simpl. unfold ret. by rewrite app_nil_r.
  - cbn [forEach flat_map]. unfold bind.
    rewrite (onTaskUpdate_pack_untracked s pack logged Hpack), IH.
    by rewrite <- app_assoc.
Qed.

(** X9: task updates for tasks the runner does not track raise nothing and
    report nothing: a task the tree does not know is logged, a task whose
    file has no run is passed over in silence, and nothing but the log
    changes. *)
Theorem onTaskUpdate_untracked (s : St) (packs : list (string * option TaskResult)) :
  Forall (untracked s) packs ->
  onTaskUpdate packs s
  = (Ok tt, set_calls (calls s ++ flat_map (onTaskUpdate_log s) packs) s).
Proof.
  intros Hpacks.
  pose proof (onTaskUpdate_untracked_from s packs Hpacks (calls s)) as Hrun.
  assert (Hs : set_calls (calls s) s = s) by (by destruct s).
  by rewrite Hs in Hrun.
Qed.

Lemma forEach_collectFile (files : list Task) (s : St) :
  forEach files (fun file => modify (fun s => set_tree (collectFile (tree s) file) s)) s
  = (Ok tt, set_tree (fold_left collectFile files (tree s)) s).
Proof.
  revert s. induction files as [|file files IH]; intros s.
  - simpl. unfold ret. by destruct s.
  - cbn [forEach fold_left]. unfold bind, modify at 1. rewrite IH. by destruct s.
Qed.

(** X10: while Vitest is still collecting, a collected event only merges
    its files into the tree, in their order; nothing is reported and no run
    is touched.  An event without files does nothing at all. *)
Theorem onCollected_while_collecting (files : list Task) (collecting : bool) (s : St) :
  onCollected (Some files) true s
  = (Ok tt, set_tree (fold_left collectFile files (tree s)) s)
  /\ onCollected None collecting s = (Ok tt, s).
Proof.
  split; [|reflexivity].
  unfold onCollected, bind. by rewrite forEach_collectFile.
Qed.

Lemma startTestRun_no_request (depth : nat) (files : list string) (s : St) :
  simpleTestRunRequest s = None ->
  continuousRequests s = [] ->
  startTestRun (S depth) files None s = (Ok tt, s).
Proof.
  intros Hsimple Hcontinuous. cbn [startTestRun].
  unfold bind, get, createContinuousRequest, bind, get, ret.
  by rewrite Hsimple, Hcontinuous.
Qed.

(** X11: without an explicit request, an active one-shot request or a
    continuous registration, starting runs does nothing, whatever the files
    and folders it is given; this is so after the cancellation of a
    one-shot request when nothing is watched, and for a watcher rerun that
    arrives while collecting. *)
Theorem startTestRun_without_request (depth : nat) (files : list string)
  (collecting : bool) (s : St) :
  continuousRequests s = [] ->
  (simpleTestRunRequest s = None ->
   startTestRun (S depth) files None s = (Ok tt, s)
   /\ onWatcherRerun (S depth) files collecting s = (Ok tt, s))
  /\ (let cancelled := snd (onCancellationRequested CancelRunTests s) in
      calls cancelled = calls s ++ [Api CancelRun]
      /\ startTestRun (S depth) files None cancelled = (Ok tt, cancelled)).
Proof.
  intros Hcontinuous. split.
  - intros Hsimple. split; [by apply startTestRun_no_request|].
    unfold onWatcherRerun. destruct collecting; [reflexivity|].
    by apply startTestRun_no_request.
  - split; [reflexivity|]. by apply startTestRun_no_request.
Qed.

(** X12: after disposal there are no runs, no requests and no
    registrations, no test data resolves to a run and starting runs does
    nothing. *)
Theorem dispose_clears_everything (depth : nat) (files : list string) (s : St) :
  let disposed := snd (dispose s) in
  testRunsByFile disposed = ∅
  /\ simpleTestRunRequest disposed = None
  /\ continuousRequests disposed = []
  /\ calls disposed = calls s ++ [Api ClearListeners; Api CancelRun]
  /\ (forall data, getTestRunByData disposed data = None)
  /\ startTestRun (S depth) files None disposed = (Ok tt, disposed).
Proof.
  simpl. split; [reflexivity|]. split; [reflexivity|]. split; [reflexivity|].
  split; [by rewrite <- app_assoc|]. split.
  - intros [| |]; reflexivity.
  - by apply startTestRun_no_request.
Qed.

End Untracked.

Lemma onTaskUpdate_untracked_witness :
  @onTaskUpdate Sample.host Sample.collaborators
    [("case-adds", Some Sample.failed_with_errors);
     ("stale-task", Some Sample.failed_with_errors)] Sample.initial
  = (Ok tt,
     @set_calls Sample.collaborators
       [Log LogError ["Cannot find task during onTaskUpdate"; "stale-task"]]
       Sample.initial).
Proof.
  apply (@onTaskUpdate_untracked Sample.host Sample.collaborators Sample.initial
           [("case-adds", Some Sample.failed_with_errors);
            ("stale-task", Some Sample.failed_with_errors)]).
  repeat constructor.
Defined.

Lemma startTestRun_without_request_witness :
  @startTestRun Sample.host Sample.collaborators 1 ["/ws/a.test.ts"; "/ws/lib/"] None
    Sample.initial = (Ok tt, Sample.initial).
Proof.
  exact (proj1 (proj1 (@startTestRun_without_request Sample.host Sample.collaborators
                         0 ["/ws/a.test.ts"; "/ws/lib/"] false Sample.initial eq_refl)
                  eq_refl)).
Defined.

(** ** Continuous registrations *)

Section Registrations.
Context {H : Host} {C : Collaborators}.

Lemma createContinuousRequest_loop_filtered (requests : list TestRunRequest) :
  Forall (fun r => no_include r = false) requests ->
  forall include primaryRequest,
    createContinuousRequest_loop requests include primaryRequest
    = inr (include ++ merged_include requests,
           match primaryRequest with
           | Some p => Some p
           | None => head requests
           end).
Proof.
  induction 1 as [|request requests Hrequest _ IH]; intros include primaryRequest.
  - simpl. rewrite app_nil_r. by destruct primaryRequest.
  - cbn [createContinuousRequest_loop]. unfold no_include in Hrequest.
    unfold merged_include. cbn [flat_map].
    destruct (req_include request) as [[|item items]|]; try discriminate.
    rewrite IH. unfold merged_include. cbn [default].
    rewrite <- app_assoc. by destruct primaryRequest.
Qed.

(** X13: when every registration has an inclusion filter, the merged
    request is a new continuous request whose items are those of all the
    registrations in the order of their registration and whose profile is
    that of the first registration; without any registration there is no
    merged request. *)
Theorem createContinuousRequest_merges_filters (s : St) :
  Forall (fun r => no_include r = false) (continuousRequests s) ->
  createContinuousRequest s
  = match continuousRequests s with
    | [] => (Ok None, s)
    | first :: _ =>
        (Ok (Some {| req_id := nextRef s;
                     req_include := Some (merged_include (continuousRequests s));
                     req_profile := req_profile first;
                     req_continuous := true |}),
         set_nextRef (S (nextRef s)) s)
    end.
Proof.
  intros Hfiltered. unfold createContinuousRequest, bind, get.
  destruct (continuousRequests s) as [|first rest] eqn:Hrequests; [reflexivity|].
  by rewrite (createContinuousRequest_loop_filtered _ Hfiltered).
Qed.

Lemma Set_delete_add (request : TestRunRequest) (set : list TestRunRequest) :
  Set_has request set = false -> Set_delete request (Set_add request set) = set.
Proof.
  intros Hfresh. unfold Set_add. rewrite Hfresh. unfold Set_delete, Set_has in *.
  rewrite List.filter_app. simpl. rewrite Nat.eqb_refl. simpl. rewrite app_nil_r.
  induction set as [|r set IH]; [reflexivity|].
  simpl in *. apply orb_false_elim in Hfresh as [Hr Hset].
  rewrite Hr. simpl. f_equal. by apply IH.
Qed.

Lemma Set_has_delete (request other : TestRunRequest) (set : list TestRunRequest) :
  Set_has other (Set_delete request set)
  = negb (Nat.eqb (req_id other) (req_id request)) && Set_has other set.
Proof.
  unfold Set_has, Set_delete. induction set as [|r set IH].
  - by rewrite andb_false_r.
  - simpl. destruct (Nat.eqb_spec (req_id r) (req_id request)) as [Heq | Hne]; simpl.
    + rewrite IH.
      destruct (Nat.eqb_spec (req_id r) (req_id other)) as [Heq' | _]; simpl; [|done].
      rewrite <- Heq', Heq, Nat.eqb_refl. reflexivity.
    + rewrite IH.
      destruct (Nat.eqb_spec (req_id r) (req_id other)) as [Heq' | _]; simpl; [|done].
      destruct (Nat.eqb_spec (req_id other) (req_id request)); [congruence | done].
Qed.

(** X14: cancelling a continuous request removes that registration and no
    other, and [unwatchTests] is called exactly when no registration is
    left; cancelling a request right after its registration gives back the
    registrations there were. *)
Theorem onCancellationRequested_watch (request : TestRunRequest) (s : St) :
  let s' := snd (onCancellationRequested (CancelWatch request) s) in
  fst (onCancellationRequested (CancelWatch request) s) = Ok tt
  /\ (forall other,
        Set_has other (continuousRequests s')
        = negb (Nat.eqb (req_id other) (req_id request))
          && Set_has other (continuousRequests s))
  /\ calls s' = calls s ++ (if decide (continuousRequests s' = [])
                            then [Api UnwatchTests] else [])
  /\ (Set_has request (continuousRequests s) = false ->
      continuousRequests
        (snd (onCancellationRequested (CancelWatch request)
                (set_continuousRequests (Set_add request (continuousRequests s)) s)))
      = continuousRequests s).
Proof.
  assert (Hrun : forall s0 : St,
    onCancellationRequested (CancelWatch request) s0
    = (Ok tt,
       set_calls
         (calls s0 ++ (if decide (Set_delete request (continuousRequests s0) = [])
                       then [Api UnwatchTests] else []))
         (set_continuousRequests (Set_delete request (continuousRequests s0)) s0))).
  { intros s0. unfold onCancellationRequested, bind, modify, get; simpl.
    destruct (Set_delete request (continuousRequests s0)) eqn:Hleft.
    - rewrite decide_True by done. reflexivity.
    - rewrite decide_False by done. unfold ret. simpl. by rewrite app_nil_r. }
  rewrite !Hrun. cbn [fst snd continuousRequests calls set_calls set_continuousRequests].
  split; [reflexivity|]. split; [intros other; apply Set_has_delete|].
  split; [reflexivity|]. apply Set_delete_add.
Qed.

(** X15: when coverage cannot be enabled, [runCoverage] shows the failure
    and ends without raising; it registers no cancellation callback, makes
    no other call and leaves the marker of the one-shot request as it is.
    When coverage is enabled it goes on as [runTests]. *)
Theorem runCoverage_enable_failure (request : TestRunRequest) (token : nat) (s : St) :
  (forall e s1,
     await_api EnableCoverage (set_calls (calls s ++ [Api EnableCoverage]) s)
     = (Throw e, s1) ->
     runCoverage request token s
     = (Ok tt,
        set_calls
          (calls s1 ++ [ShowVitestError ("Failed to enable coverage. "
                                         +:+ exn_message e)]) s1)
     /\ simpleTestRunRequest (snd (runCoverage request token s))
        = simpleTestRunRequest s1)
  /\ (forall s1,
        await_api EnableCoverage (set_calls (calls s ++ [Api EnableCoverage]) s)
        = (Ok tt, s1) ->
        runCoverage request token s
        = runTests request token
            (set_calls (calls s1 ++ [OnCancellationRequested token CancelCoverage]) s1)).
Proof.
  split.
  - intros e s1 Hawait. unfold runCoverage, await_api_call, bind, emit, modify.
    simpl. by rewrite Hawait.
  - intros s1 Hawait. unfold runCoverage, await_api_call, bind at 1, emit at 1, modify.
    simpl. rewrite Hawait. reflexivity.
Qed.

End Registrations.

Lemma createContinuousRequest_merges_filters_witness :
  @createContinuousRequest Sample.collaborators Sample.watching
  = (Ok (Some (mkTestRunRequest 100
                 (Some [Sample.case_adds; Sample.case_subtracts])
                 (Some "profile-1") true)),
     @set_nextRef Sample.collaborators 101 Sample.watching).
Proof.
  apply (@createContinuousRequest_merges_filters Sample.collaborators Sample.watching).
  repeat constructor.
Defined.

(** ** Finished events, again *)

Section Finalization.
Context {H : Host} {C : Collaborators}.

(** X16: a finished event always goes on to give the files their final
    results, whatever the report of the coverage does: on a host that does
    not display coverage it starts from the state it was given and calls
    nothing; when the report fails it shows the failure once and starts
    from the state the failure left. *)
Theorem onFinished_finalizes_whatever_coverage_does (files : list Task) (s0 : St) :
  exists s1,
    onFinished (Some files) s0 = forEach files onFinished_file s1
    /\ (hasFileCoverage = false -> s1 = s0)
    /\ (forall e s', reportCoverage files s0 = (Throw e, s') ->
        s1 = set_calls
               (calls s' ++ [ShowVitestError ("Failed to report coverage. "
                                              +:+ exn_message e)]) s')
    /\ (forall s', reportCoverage files s0 = (Ok tt, s') -> s1 = s').
Proof.
  exists (coverage_reported files s0).
  split; [apply onFinished_runs_forEach|].
  unfold coverage_reported, try_catch. split; [|split].
  - intros Hnone. unfold reportCoverage. by rewrite Hnone.
  - intros e s' Hreport. by rewrite Hreport.
  - intros s' Hreport. by rewrite Hreport.
Qed.

Lemma markResult_of_suite_returns (testRun : TestRun) (test : TestItem)
  (result : option TaskResult) (task : Task) (s : St) :
  task_type task = TySuite ->
  fst (markResult testRun test result (Some task) s) = Ok tt.
Proof.
  intros Htype. unfold markResult, is_suite. rewrite Htype.
  destruct result as [r|]; [|reflexivity].
  destruct (res_state r); try reflexivity.
  by destruct (res_errors r).
Qed.

(** X17: a file of a finished event that resolves to a run has its result
    marked and its run ended: the last call is the end of the run, the run
    is taken out of the registry under the file [TestRunData] holds for it,
    and every other registration stays. *)
Theorem onFinished_file_ends_run (file : Task) (data : TestItem) (run : TestRun)
  (record : TestRunData) (s : St) :
  task_type file = TySuite ->
  getTestDataByTask (tree s) file = Some data ->
  getTestRunByData s (getTestData data) = Some run ->
  testRunData s !! run_id run = Some record ->
  exists s' reported,
    onFinished_file file s = (Ok tt, s')
    /\ testRunsByFile s' = delete (trd_file record) (testRunsByFile s)
    /\ testRunsByFile s' !! trd_file record = None
    /\ (forall other, other <> trd_file record ->
                      testRunsByFile s' !! other = testRunsByFile s !! other)
    /\ calls s' = calls s ++ reported ++ [End run]
    /\ length reported <= 1.
Proof.
  intros Htype Hdata Hrun Hrecord.
  unfold onFinished_file, bind at 1, get. rewrite Hdata, Hrun. unfold bind.
  pose proof (markResult_of_suite_returns run data (task_result file) file s Htype)
    as Hok.
  destruct (markResult_cases run data (task_result file) (Some file) s)
    as (reported & Hlen & Hstate & _ & _ & _).
  destruct (markResult run data (task_result file) (Some file) s) as [[[]|e] s1];
    [|discriminate].
  cbn [snd] in Hstate.
  assert (Hs1 : testRunsByFile s1 = testRunsByFile s
                /\ testRunData s1 = testRunData s
                /\ calls s1 = calls s ++ reported).
  { by destruct Hstate as [-> | (r & errs & _ & _ & _ & _ & _ & ->)]. }
  destruct Hs1 as (Hruns & Hrecords & Hcalls).
  unfold fire_and_forget, endTestRun, bind, get. cbn [snd].
  rewrite Hrecords, Hrecord. cbn [snd].
  eexists _, reported. split; [reflexivity|].
  unfold modify, emit, modify. cbn.
  rewrite Hruns, Hcalls.
  split; [reflexivity|]. split; [apply lookup_delete_eq|].
  split; [intros other Hother; by apply lookup_delete_ne|].
  split; [by rewrite <- app_assoc | exact Hlen].
Qed.

(** X18: a console log that names no task, an empty task id, a task the
    tree does not know or a task whose file has no run goes to the general
    log as it is, with its line endings untouched, and to the output of no
    run. *)
Theorem onConsoleLog_without_run (content : string) (taskId : option string) (s : St) :
  match taskId with
  | None => True
  | Some id =>
      truthy_string id = false
      \/ getTestDataByTaskId (tree s) id = None
      \/ exists data,
           getTestDataByTaskId (tree s) id = Some data
           /\ getTestRunByData s (getTestData data) = None
  end ->
  onConsoleLog content taskId s
  = (Ok tt, set_calls (calls s ++ [Log LogInfo ["[TEST]"; content]]) s).
Proof.
  unfold onConsoleLog, bind, get.
  destruct taskId as [id|]; [|reflexivity].
  intros [Hempty | [Hunknown | (data & Hdata & Hrun)]].
  - by rewrite Hempty.
  - rewrite Hunknown. by destruct (truthy_string id).
  - rewrite Hdata. destruct (truthy_string id); [|reflexivity]. by rewrite Hrun.
Qed.

End Finalization.

Lemma onFinished_file_ends_run_witness :
  exists s',
    @onFinished_file Sample.host Sample.collaborators Sample.task_file_a
      Sample.running_a = (Ok tt, s')
    /\ testRunsByFile s' !! "/ws/a.test.ts" = None
    /\ calls s' = [Passed Sample.run_a Sample.file_a None; End Sample.run_a].
Proof.
  destruct (@onFinished_file_ends_run Sample.host Sample.collaborators
              Sample.task_file_a Sample.file_a Sample.run_a
              (mkTestRunData "/ws/a.test.ts" Sample.request_all) Sample.running_a
              eq_refl eq_refl eq_refl eq_refl)
    as (s' & reported & Hrun & _ & Hgone & _ & _ & _).
  exists s'. split; [exact Hrun|]. split; [exact Hgone|].
  cbv in Hrun. injection Hrun as <-. reflexivity.
Defined.

Lemma onConsoleLog_without_run_witness :
  @onConsoleLog Sample.collaborators Sample.sample_content (Some "") Sample.running_a
  = (Ok tt,
     @set_calls Sample.collaborators [Log LogInfo ["[TEST]"; Sample.sample_content]]
       Sample.running_a).
Proof.
  exact (@onConsoleLog_without_run Sample.collaborators Sample.sample_content
           (Some "") Sample.running_a (or_introl eq_refl)).
Defined.

(** ** Folders *)

Section Folders.
Context {H : Host} {C : Collaborators}.

(** Induction on a test item with the property for its children at hand. *)
Lemma TestItem_children_ind (P : TestItem -> Prop) :
  (forall id label uri data children,
     Forall P children -> P (mkTestItem id label uri data children)) ->
  forall item, P item.
Proof.
  intros Hstep. fix IH 1. intros [id label uri data children].
  apply Hstep. induction children as [|child rest IHrest]; constructor;
    [apply IH | apply IHrest].
Qed.

Lemma getFiles_included_item (file : string) (folder : TestItem) :
  getTestData folder = TestFolder ->
  file ∈ getFiles folder ->
  isFileIncluded_item file folder = true.
Proof.
  induction folder as [id label uri data children IH] using TestItem_children_ind.
  unfold getTestData. cbn [item_data]. intros -> Hin.
  cbn [getFiles] in Hin. cbn [isFileIncluded_item].
  induction IH as [|child rest Hchild _ IHrest]; [by inversion Hin|].
  cbn [flat_map] in Hin. cbn [existsb].
  apply elem_of_app in Hin as [Hfile | Hfile].
  - apply orb_true_intro. left.
    destruct (item_data child) eqn:Hdata.
    + by apply Hchild.
    + apply list_elem_of_singleton in Hfile as ->.
      destruct child as [cid clabel curi cdata cchildren]. cbn [item_data] in Hdata.
      subst cdata. cbn [isFileIncluded_item]. apply String.eqb_refl.
    + by inversion Hfile.
  - apply orb_true_intro. right. by apply IHrest.
Qed.

(** X19: every file that the expansion of a folder item yields, at any
    depth below it, is included by a request that includes the folder item,
    so [startTestRun] does not skip it for the inclusion filter. *)
Theorem getFiles_are_included (folder : TestItem) (file : string)
  (request : TestRunRequest) (include : list TestItem) :
  getTestData folder = TestFolder ->
  file ∈ getFiles folder ->
  req_include request = Some include ->
  folder ∈ include ->
  isFileIncluded file include = true /\ excluded request file = false.
Proof.
  intros Hdata Hfile Hinclude Hin.
  assert (Hincluded : isFileIncluded file include = true).
  { unfold isFileIncluded. apply existsb_exists. exists folder.
    split; [by apply list_elem_of_In | by apply getFiles_included_item]. }
  split; [exact Hincluded|].
  unfold excluded. by rewrite Hinclude, Hincluded.
Qed.

(** X20: for the path of a folder, [startTestRun] asks the tree for the
    folder item, keeps the tree it answers with, and starts the runs of the
    files below the folder under the same request, as it does for a list of
    files. *)
Theorem startTestRun_expands_folder (depth : nat) (path : string)
  (request : TestRunRequest) (tree' : Tree) (folder : TestItem) (s : St) :
  is_folder_path path = true ->
  getOrCreateFolderTestItem (tree s) path = (tree', folder) ->
  Forall (fun file => is_folder_path file = false) (getFiles folder) ->
  startTestRun (S (S depth)) [path] (Some request) s
  = forEach (getFiles folder) (startTestRun_file request) (set_tree tree' s)
  /\ fst (startTestRun (S (S depth)) [path] (Some request) s) = Ok tt.
Proof.
  intros Hpath Hfolder Hfiles.
  assert (Hrun : startTestRun (S (S depth)) [path] (Some request) s
                 = forEach (getFiles folder) (startTestRun_file request)
                     (set_tree tree' s)).
  { change (startTestRun (S (S depth)) [path] (Some request) s)
      with ((let* s0 := get in
             let* request0 := ret (Some request) in
             match request0 with
             | None => ret tt
             | Some request => forEach [path] (fun file =>
                 if is_folder_path file then
                   let* files' := getTestFilesInFolder file in
                   startTestRun (S depth) files' (Some request)
                 else startTestRun_file request file)
             end) s).
    unfold bind at 1, get, bind at 1, ret. cbn [forEach]. unfold bind at 1.
    rewrite Hpath. unfold bind at 1, getTestFilesInFolder, bind at 1, get.
    rewrite Hfolder. unfold bind, modify, ret.
    rewrite (startTestRun_of_files _ _ _ _ Hfiles).
    by destruct (forEach (getFiles folder) (startTestRun_file request)
                   (set_tree tree' s)) as [[[]|e] s1]. }
  split; [exact Hrun|]. rewrite Hrun.
  apply (startTestRun_files_covered request (getFiles folder) (set_tree tree' s)).
Qed.

End Folders.

Lemma getFiles_are_included_witness :
  isFileIncluded "/ws/lib/deep/d.test.ts" [Sample.folder_lib] = true
  /\ excluded Sample.request_lib "/ws/lib/deep/d.test.ts" = false.
Proof.
  exact (getFiles_are_included Sample.folder_lib "/ws/lib/deep/d.test.ts"
           Sample.request_lib [Sample.folder_lib] eq_refl
           (list_elem_of_further _ _ _ (list_elem_of_here _ _)) eq_refl
           (list_elem_of_here _ _)).
Defined.

Lemma startTestRun_expands_folder_witness :
  exists s',
    @startTestRun Sample.host Sample.with_folder 2 ["/ws/lib/"]
      (Some Sample.request_lib) Sample.initial = (Ok tt, s')
    /\ is_Some (testRunsByFile s' !! "/ws/lib/c.test.ts")
    /\ is_Some (testRunsByFile s' !! "/ws/lib/deep/d.test.ts").
Proof.
  destruct (@startTestRun_expands_folder Sample.host Sample.with_folder 0 "/ws/lib/"
              Sample.request_lib Sample.sample_tree Sample.folder_lib Sample.initial
              eq_refl eq_refl)
    as [Hrun Hok].
  - repeat constructor.
  - eexists. split.
    + rewrite Hrun. reflexivity.
    + split; by eexists.
Defined.

(** ** The registry and the data of the runs *)

Section RegistryProperties.
Context {H : Host} {C : Collaborators}.

Lemma createContinuousRequest_well_formed (s : St) :
  registry_well_formed s ->
  registry_well_formed (snd (createContinuousRequest s)).
Proof.
  intros [Hconsistent Hfresh]. unfold createContinuousRequest, bind, get.
  destruct (continuousRequests s) as [|request requests]; [done|].
  destruct (createContinuousRequest_loop _ _ _) as [r | [include primary]]; [done|].
  split; [exact Hconsistent|].
  intros file run Hrun. simpl. specialize (Hfresh file run Hrun). lia.
Qed.

Lemma startTestRun_keeps_well_formed (depth : nat) :
  forall files request (s : St),
    registry_well_formed s ->
    registry_well_formed (snd (startTestRun depth files request s)).
Proof.
  induction depth as [|depth IH]; intros files request s Hs; [exact Hs|].
  cbn [startTestRun]. unfold bind at 1, get.
  assert (Hrequest : forall m : M (option TestRunRequest),
    registry_well_formed (snd (m s)) ->
    registry_well_formed
      (snd (bind m (fun request0 =>
              match request0 with
              | None => ret tt
              | Some request1 =>
                  forEach files (fun file =>
                    if is_folder_path file then
                      let* files' := getTestFilesInFolder file in
                      startTestRun depth files' (Some request1)
                    else startTestRun_file request1 file)
              end) s))).
  { intros m Hm. unfold bind at 1.
    destruct (m s) as [[[request1|]|e] s0]; cbn [snd] in *; try exact Hm.
    apply forEach_invariant; [|exact Hm].
    intros file s1 _ Hs1. destruct (is_folder_path file).
    - unfold bind, getTestFilesInFolder, bind, get.
      destruct (getOrCreateFolderTestItem (tree s1) file) as [tree' folder].
      unfold modify, ret. apply IH. exact Hs1.
    - by apply startTestRun_file_well_formed. }
  destruct request as [request|]; [by apply Hrequest|].
  destruct (simpleTestRunRequest s); [by apply Hrequest|].
  apply Hrequest. by apply createContinuousRequest_well_formed.
Qed.

(** X21: the registry stays well formed, every registered run being
    registered under the file [TestRunData] holds for it with a reference
    older than the next fresh one, when runs are started for any files and
    folders under any request, when a run is ended, and when a file of a
    finished event is given its final result. *)
Theorem registry_stays_well_formed (depth : nat) (files : list string)
  (request : option TestRunRequest) (run : TestRun) (file : Task) (s : St) :
  registry_well_formed s ->
  registry_well_formed (snd (startTestRun depth files request s))
  /\ registry_well_formed (snd (endTestRun run s))
  /\ registry_well_formed (snd (onFinished_file file s)).
Proof.
  intros Hs. split; [by apply startTestRun_keeps_well_formed|].
  split; [by apply endTestRun_well_formed|].
  unfold onFinished_file, bind at 1, get.
  destruct (getTestDataByTask (tree s) file) as [data|]; [|exact Hs].
  destruct (getTestRunByData s (getTestData data)) as [testRun|]; [|exact Hs].
  unfold bind.
  assert (Hmarked : registry_well_formed
            (snd (markResult testRun data (task_result file) (Some file) s))).
  { destruct (markResult_cases testRun data (task_result file) (Some file) s)
      as (new & _ & Hstate & _).
    destruct Hs as [Hconsistent Hfresh].
    by destruct Hstate as [-> | (r & errs & _ & _ & _ & _ & _ & ->)]. }
  destruct (markResult testRun data (task_result file) (Some file) s) as [[[]|e] s1];
    cbn [snd] in *; [|exact Hmarked].
  unfold fire_and_forget. cbn [snd]. by apply endTestRun_well_formed.
Qed.

(** X22: ending the run that was started for a file takes the file out of
    the registry again, which is then as it was before the start; a later
    start for that file creates a run with a fresh reference. *)
Theorem start_end_start (depth : nat) (file : string) (request : TestRunRequest)
  (s : St) :
  is_folder_path file = false ->
  reaches request file ->
  testRunsByFile s !! file = None ->
  exists run s1 s2 run',
    startTestRun (S depth) [file] (Some request) s = (Ok tt, s1)
    /\ testRunsByFile s1 !! file = Some run
    /\ endTestRun run s1 = (Ok tt, s2)
    /\ testRunsByFile s2 = testRunsByFile s
    /\ calls s2 = calls s1 ++ [End run]
    /\ testRunsByFile (snd (startTestRun (S depth) [file] (Some request) s2)) !! file
       = Some run'
    /\ run_id run' <> run_id run.
Proof.
  intros Hfile Hreach Hfree.
  apply excluded_reaches in Hreach.
  rewrite (startTestRun_of_file _ _ _ _ Hfile), startTestRun_file_run.
  rewrite Hreach, Hfree. cbn [snd].
  eexists _, _, _, _. split; [reflexivity|].
  split; [unfold started; simpl; apply lookup_insert_eq|].
  set (run := {| run_id := nextRef s; run_request := request;
                 run_name := basename (dirname file) +:+ path_sep +:+ basename file |}).
  assert (Hrecord : testRunData (started request file s) !! run_id run
                    = Some (mkTestRunData file request)).
  { unfold started; simpl. apply lookup_insert_eq. }
  assert (Hrun : endTestRun run (started request file s)
                 = (Ok tt,
                    set_calls (calls (started request file s) ++ [End run])
                      (set_testRunsByFile
                         (delete file (testRunsByFile (started request file s)))
                         (started request file s)))).
  { unfold endTestRun, bind, get. by rewrite Hrecord. }
  assert (Hruns : delete file (testRunsByFile (started request file s))
                  = testRunsByFile s).
  { unfold started; simpl. by apply delete_insert_id. }
  split; [exact Hrun|]. split; [exact Hruns|]. split; [reflexivity|].
  rewrite (startTestRun_of_file _ _ _ _ Hfile), startTestRun_file_run.
  rewrite Hreach. cbn [testRunsByFile set_calls set_testRunsByFile].
  rewrite Hruns, Hfree. cbn [snd].
  split; [unfold started at 1; simpl; apply lookup_insert_eq|].
  simpl. lia.
Qed.

End RegistryProperties.

Lemma registry_stays_well_formed_witness :
  @registry_well_formed Sample.collaborators
    (snd (@startTestRun Sample.host Sample.collaborators 2
            ["/ws/a.test.ts"; "/ws/b.test.ts"] (Some Sample.request_all)
            Sample.initial)).
Proof.
  apply (@registry_stays_well_formed Sample.host Sample.collaborators 2
           ["/ws/a.test.ts"; "/ws/b.test.ts"] (Some Sample.request_all)
           Sample.run_a Sample.task_file_a Sample.initial).
  split; intros file run Hrun; simpl in Hrun;
    rewrite lookup_empty in Hrun; discriminate.
Defined.

Lemma start_end_start_witness :
  exists run s1 s2,
    @startTestRun Sample.host Sample.collaborators 1 ["/ws/b.test.ts"]
      (Some Sample.request_b) Sample.initial = (Ok tt, s1)
    /\ testRunsByFile s1 !! "/ws/b.test.ts" = Some run
    /\ @endTestRun Sample.collaborators run s1 = (Ok tt, s2)
    /\ testRunsByFile s2 = testRunsByFile Sample.initial.
Proof.
  destruct (@start_end_start Sample.host Sample.collaborators 0 "/ws/b.test.ts"
              Sample.request_b Sample.initial eq_refl eq_refl eq_refl)
    as (run & s1 & s2 & run' & Hstart & Hrun & Hend & Hruns & _).
  exists run, s1, s2. repeat split; assumption.
Defined.

(** ** Lists of files, watches and collection *)

Section MoreRuns.
Context {H : Host} {C : Collaborators}.

(** X23: for a list of paths that are files, starting the runs a second
    time with the same list and request changes nothing; after the first
    start every file of the list that the request reaches has a registered
    run, and the runs registered before are still registered. *)
Theorem startTestRun_list_twice_is_once (depth : nat) (files : list string)
  (request : TestRunRequest) (s : St) :
  Forall (fun file => is_folder_path file = false) files ->
  let once := startTestRun (S depth) files (Some request) s in
  fst once = Ok tt
  /\ startTestRun (S depth) files (Some request) (snd once) = (Ok tt, snd once)
  /\ testRunsByFile s ⊆ testRunsByFile (snd once)
  /\ Forall (fun file =>
       reaches request file -> is_Some (testRunsByFile (snd once) !! file)) files.
Proof.
  intros Hfiles once. subst once.
  rewrite !(startTestRun_of_files _ _ _ _ Hfiles).
  destruct (startTestRun_files_covered request files s) as (Hok & Hsub & Hcovered).
  split; [exact Hok|]. split; [by apply startTestRun_files_again|].
  split; [exact Hsub|].
  eapply Forall_impl; [exact Hcovered|]. simpl.
  intros file [Hexcluded | Hrun] Hreach; [|exact Hrun].
  apply excluded_reaches in Hreach. congruence.
Qed.

Lemma Set_add_twice (request : TestRunRequest) (set : list TestRunRequest) :
  Set_add request (Set_add request set) = Set_add request set.
Proof.
  unfold Set_add at 1.
  assert (Hhas : Set_has request (Set_add request set) = true).
  { unfold Set_add. destruct (Set_has request set) eqn:Hset; [exact Hset|].
    unfold Set_has. rewrite existsb_app. simpl. rewrite Nat.eqb_refl.
    by rewrite orb_true_r. }
  by rewrite Hhas.
Qed.

(** X24: [watchContinuousTests] registers the request, once however often
    it is given, and its cancellation callback, and then starts the watch:
    an unfiltered one for a request without inclusion filter, and for a
    request with one a watch of the file set and name pattern of the items
    of all the registrations. *)
Theorem watchContinuousTests_registers (request : TestRunRequest) (token : nat)
  (s : St) :
  let registered :=
    set_calls (calls s ++ [OnCancellationRequested token (CancelWatch request)])
      (set_continuousRequests (Set_add request (continuousRequests s)) s) in
  Set_has request (continuousRequests registered) = true
  /\ Set_add request (continuousRequests registered) = continuousRequests registered
  /\ (no_include request = true ->
      watchContinuousTests request token s
      = await_api (WatchTests None None)
          (set_calls (calls registered ++ [Api (WatchTests None None)]) registered))
  /\ (no_include request = false ->
      forall files,
        getTestFiles (merged_include (continuousRequests registered)) = Ok files ->
        watchContinuousTests request token s
        = await_api
            (WatchTests (Some files)
               (formatTestPattern (merged_include (continuousRequests registered))))
            (set_calls
               (calls registered
                ++ [Api (WatchTests (Some files)
                           (formatTestPattern
                              (merged_include (continuousRequests registered))))])
               registered))
  /\ (no_include request = false ->
      forall e,
        getTestFiles (merged_include (continuousRequests registered)) = Throw e ->
        watchContinuousTests request token s = (Throw e, registered)).
Proof.
  cbn zeta. cbn [continuousRequests set_calls set_continuousRequests calls].
  split.
  { unfold Set_add. destruct (Set_has request (continuousRequests s)) eqn:Hset;
      [exact Hset|].
    unfold Set_has. rewrite existsb_app. simpl. rewrite Nat.eqb_refl.
    by rewrite orb_true_r. }
  split; [apply Set_add_twice|].
  split; [|split].
  - intros Hnone. unfold watchContinuousTests. rewrite Hnone. reflexivity.
  - intros Hfilter files Hfiles. unfold watchContinuousTests. rewrite Hfilter.
    unfold bind, modify, emit, modify, get, liftR, await_api_call, bind, emit, modify.
    cbn. unfold merged_include in Hfiles. rewrite Hfiles. reflexivity.
  - intros Hfilter e Hfiles. unfold watchContinuousTests. rewrite Hfilter.
    unfold bind, modify, emit, modify, get, liftR.
    cbn. unfold merged_include in Hfiles. rewrite Hfiles. reflexivity.
Qed.

Lemma onCollected_task_without_runs (task : Task) (data : TestItem) (s : St) :
  testRunsByFile s = ∅ -> onCollected_task task data s = (Ok tt, s).
Proof.
  intros Hempty. unfold onCollected_task, bind, get.
  assert (Hnone : getTestRunByData s (getTestData data) = None).
  { unfold getTestRunByData. rewrite Hempty. by destruct (getTestData data). }
  by rewrite Hnone.
Qed.

Lemma forEachTask_without_runs (tasks : list Task) :
  forall s : St,
    testRunsByFile s = ∅ ->
    forEach tasks (fun task =>
      let* s := get in
      match getTestDataByTask (tree s) task with
      | None =>
          log_error ["Test data not found for " +:+ String DQUOTE (task_name task)
                     +:+ String DQUOTE EmptyString]
      | Some test => onCollected_task task test
      end) s
    = (Ok tt, set_calls (calls s ++ missing_test_data_log (tree s) tasks) s).
Proof.
  match goal with
  | |- forall s, _ -> forEach tasks ?f s = _ => set (callback := f)
  end.
  induction tasks as [|task tasks IH]; intros s Hempty.
  - simpl. unfold ret. rewrite app_nil_r. by destruct s.
  - cbn [forEach missing_test_data_log flat_map]. unfold bind.
    destruct (getTestDataByTask (tree s) task) as [test|] eqn:Hdata.
    + assert (Hstep : callback task s = (Ok tt, s)).
      { subst callback. unfold bind, get. cbn beta. rewrite Hdata.
        by apply onCollected_task_without_runs. }
      rewrite Hstep. by rewrite (IH s Hempty).
    + assert (Hstep : callback task s
                = (Ok tt,
                   set_calls (calls s ++ [Log LogError
                     ["Test data not found for " +:+ String DQUOTE (task_name task)
                      +:+ String DQUOTE EmptyString]]) s)).
      { subst callback. unfold bind, get. cbn beta. by rewrite Hdata. }
      rewrite Hstep.
      rewrite (IH (set_calls (calls s ++ [Log LogError
                     ["Test data not found for " +:+ String DQUOTE (task_name task)
                      +:+ String DQUOTE EmptyString]]) s) Hempty).
      cbn [calls set_calls tree]. by rewrite <- app_assoc.
Qed.

(** X25: a collected event that arrives while no run is registered, as
    during the discovery of the tests, merges its files into the tree and
    reports nothing: apart from the tree only the log changes, by exactly
    one error entry for each task of the event that has no test data in the
    merged tree, in the order of the tasks. *)
Theorem onCollected_without_runs (files : list Task) (s : St) :
  testRunsByFile s = ∅ ->
  onCollected (Some files) false s
  = (Ok tt,
     set_calls
       (calls s
        ++ missing_test_data_log (fold_left collectFile files (tree s))
             (getTasks files))
       (set_tree (fold_left collectFile files (tree s)) s)).
Proof.
  intros Hempty. unfold onCollected, bind at 1. rewrite forEach_collectFile.
  unfold forEachTask.
  by rewrite (forEachTask_without_runs (getTasks files)
                (set_tree (fold_left collectFile files (tree s)) s) Hempty).
Qed.

End MoreRuns.

Lemma startTestRun_list_twice_is_once_witness :
  @startTestRun Sample.host Sample.collaborators 1
    ["/ws/a.test.ts"; "/ws/b.test.ts"; "/ws/a.test.ts"] (Some Sample.request_b)
    (snd (@startTestRun Sample.host Sample.collaborators 1
            ["/ws/a.test.ts"; "/ws/b.test.ts"; "/ws/a.test.ts"]
            (Some Sample.request_b) Sample.initial))
  = (Ok tt,
     snd (@startTestRun Sample.host Sample.collaborators 1
            ["/ws/a.test.ts"; "/ws/b.test.ts"; "/ws/a.test.ts"]
            (Some Sample.request_b) Sample.initial)).
Proof.
  apply (@startTestRun_list_twice_is_once Sample.host Sample.collaborators 0
           ["/ws/a.test.ts"; "/ws/b.test.ts"; "/ws/a.test.ts"] Sample.request_b
           Sample.initial).
  repeat constructor.
Defined.

Lemma onCollected_without_runs_witness :
  @onCollected Sample.host Sample.collaborators
    (Some [Sample.task_file_a; Sample.task_file_unknown]) false Sample.initial
  = (Ok tt,
     @set_calls Sample.collaborators
       [Log LogError ["Test data not found for " +:+ String DQUOTE "a.test.ts"
                      +:+ String DQUOTE EmptyString]]
       Sample.initial).
Proof.
  exact (@onCollected_without_runs Sample.host Sample.collaborators
           [Sample.task_file_a; Sample.task_file_unknown] Sample.initial eq_refl).
Defined.
